(** * DCF valuation system: a shallow embedding of [dcf_calculator.py] and of
    the valuation callbacks of [DCF.py]

    Numbers.  The program computes on Python floats.  They are modelled by the
    exact rationals [Q]: every arithmetic operation keeps the source's operand
    order and parenthesisation, but no rounding, overflow, infinity or NaN is
    represented.  Equalities between computed numbers are therefore stated
    with [==] ([Qeq]).  A float division whose divisor is zero raises
    [ZeroDivisionError], as Python's own [float] does; where an operand is a
    [numpy.float64] (the averages come from [np.mean]) the source yields
    [inf] or [nan] instead, and no property below asserts such a raise.
    Statements that rounding can change are evaluated in IEEE binary64 as
    well ([Binary64]): the worked example of the terminal value, the capital
    weights and the sensitivity formula at its base point.

    Containers.  A Python [dict] from fiscal period to number is an
    association list in insertion order (the order the source relies on when
    it takes [list(d.keys())[0]] as the latest year); a [list] is a [list].

    Control.  Exceptions are an error monad; a function that may [return None]
    returns an [option] inside it. *)

From Stdlib Require Import QArith Qabs Qpower Qround Qminmax ZArith List Bool Lia Lqa
  Ascii String.
From Stdlib Require PrimFloat.
Import ListNotations.
Open Scope Q_scope.

(** ** Python primitives *)

Module Py.

(** The built-in exceptions the modelled code can raise. *)
Inductive exn : Set :=
| ZeroDivisionError
| TypeError
| IndexError
| KeyError
| ProviderError.  (* anything raised inside the market-data library *)

Inductive result (A : Type) : Type :=
| Ok (a : A)
| Raise (e : exn).
Arguments Ok {A} a.
Arguments Raise {A} e.

Definition bind {A B : Type} (c : result A) (k : A -> result B) : result B :=
  match c with
  | Ok a => k a
  | Raise e => Raise e
  end.

(** [x != 0] and [x > 0] on floats. *)
Definition ne0 (x : Q) : bool := negb (Qeq_bool x 0).
Definition gt0 (x : Q) : bool := negb (Qle_bool x 0).

(** [a / b] where nothing guards the divisor.  The raise is that of Python's
    [float]; a [numpy.float64] operand gives [inf] or [nan] with a warning
    instead. *)
Definition div (a b : Q) : result Q :=
  if Qeq_bool b 0 then Raise ZeroDivisionError else Ok (a / b).

(** [x ** n] for an integer exponent; every call site has [n >= 1]. *)
Definition pow (x : Q) (n : Z) : Q := x ^ n.

(** [sum(l)]: starts from 0 and adds from the left. *)
Definition sum (l : list Q) : Q := fold_left Qplus l 0.

(** [np.mean(l)]; the source only calls it on a non-empty list. *)
Definition mean (l : list Q) : Q := sum l / inject_Z (Z.of_nat (List.length l)).

(** [range(a, b)]. *)
Definition range (a b : Z) : list Z :=
  map (fun i => (a + Z.of_nat i)%Z) (seq 0 (Z.to_nat (b - a))).

(** [l[i]]: a negative index counts from the end. *)
Definition index {A : Type} (l : list A) (i : Z) : result A :=
  let j := if (i <? 0)%Z then (i + Z.of_nat (List.length l))%Z else i in
  if (j <? 0)%Z then Raise IndexError
  else match nth_error l (Z.to_nat j) with
       | Some x => Ok x
       | None => Raise IndexError
       end.

(** [for x in xs: body] threading the loop-carried state [s]. *)
Fixpoint for_each {A S : Type} (xs : list A) (body : S -> A -> result S) (s : S)
  : result S :=
  match xs with
  | [] => Ok s
  | x :: xs' => bind (body s x) (for_each xs' body)
  end.

(** A fiscal period (the column label of a statement). *)
Definition Period : Set := Z.

(** [dict] from period to number, in insertion order. *)
Definition Dict : Set := list (Period * Q).

Definition keys (d : Dict) : list Period := map fst d.
Definition values (d : Dict) : list Q := map snd d.

(** [d[k]]. *)
Fixpoint getitem (d : Dict) (k : Period) : result Q :=
  match d with
  | [] => Raise KeyError
  | (k', v) :: d' => if Z.eqb k k' then Ok v else getitem d' k
  end.

(** [info.get(key, default)]. *)
Definition get_default (v : option Q) (default : Q) : Q :=
  match v with
  | Some x => x
  | None => default
  end.

(** [s.upper()] on ASCII text. *)
Definition upper_ascii (c : ascii) : ascii :=
  let n := nat_of_ascii c in
  if (97 <=? n)%nat && (n <=? 122)%nat then ascii_of_nat (n - 32) else c.

Fixpoint upper (s : string) : string :=
  match s with
  | EmptyString => EmptyString
  | String c s' => String (upper_ascii c) (upper s')
  end.

End Py.

Import Py.

Notation "x <- c ;; k" := (Py.bind c (fun x => k))
  (at level 61, c at next level, right associativity).

(** ** Data model: the dictionaries the classes exchange *)

(** [metrics] of [FinancialDataFetcher.get_key_metrics]: one dict per line
    item, all built over the same [years]. *)
Module FinancialData.
Record t : Set := mk {
  revenue : Dict;
  ebit : Dict;
  ebitda : Dict;
  net_income : Dict;
  tax_expense : Dict;
  operating_cf : Dict;
  capex : Dict;
  depreciation : Dict;
  total_debt : Dict;
  cash : Dict;
  working_capital : Dict
}.
End FinancialData.

(** The dict returned by [FinancialDataFetcher.get_market_data]. *)
Module MarketData.
Record t : Set := mk {
  market_cap : Q;
  shares_outstanding : Q;
  current_price : Q;
  beta : Q
}.
End MarketData.

(** [averages] of [DCFModel.calculate_historical_averages]. *)
Module Averages.
Record t : Set := mk {
  revenue_growth : Q;
  ebit_margin : Q;
  tax_rate : Q;
  capex_ratio : Q
}.
End Averages.

(** One element of [projections]. *)
Module Projection.
Record t : Set := mk {
  year : Z;
  revenue : Q;
  ebit : Q;
  nopat : Q;
  capex : Q;
  depreciation : Q;
  change_in_wc : Q;
  fcf : Q
}.
End Projection.

(** The dict [calculate_wacc] returns on its main path. *)
Module WaccBreakdown.
Record t : Set := mk {
  wacc : Q;
  cost_of_equity : Q;
  cost_of_debt : Q;
  weight_equity : Q;
  weight_debt : Q;
  beta : Q
}.
End WaccBreakdown.

(** What [calculate_wacc] returns: a bare float on the zero-capital path
    ([return cost_of_equity]), the breakdown dict otherwise. *)
Inductive wacc_return : Set :=
| WaccFloat (cost_of_equity : Q)
| WaccDict (breakdown : WaccBreakdown.t).

(** [wacc_data['wacc']]: a float is not subscriptable. *)
Definition subscript_wacc (wacc_data : wacc_return) : result Q :=
  match wacc_data with
  | WaccDict b => Ok (WaccBreakdown.wacc b)
  | WaccFloat _ => Raise TypeError
  end.

(** The dict returned by [DCFModel.calculate_dcf_valuation]. *)
Module Valuation.
Record t : Set := mk {
  enterprise_value : Q;
  equity_value : Q;
  value_per_share : Q;
  current_price : Q;
  upside_downside : Q;
  wacc : Q;
  terminal_value : Q;
  pv_terminal_value : Q;
  pv_cash_flows : Q;
  projections : list Projection.t;
  wacc_breakdown : wacc_return;
  assumptions : option Averages.t
}.
End Valuation.

(** ** The market-data library: what [yf.Ticker(symbol)] answers *)
Module YFinance.

Record Ticker : Set := mk {
  (** [info]: the three entries [get_market_data] reads, absent or present
      with a number; an entry present with [None] is modelled in [RawQuote] *)
  info_marketCap : option Q;
  info_sharesOutstanding : option Q;
  info_beta : option Q;
  (** [history(period='1d')['Close']], or the exception the call raised *)
  history_close : result (list Q);
  (** the metrics [get_key_metrics] extracts from the three statements,
      [None] when they could not be fetched *)
  key_metrics : option FinancialData.t
}.

End YFinance.

(** ** [class FinancialDataFetcher] *)
Module FinancialDataFetcher.

Record t : Set := mk {
  ticker : string;
  stock : YFinance.Ticker
}.

Definition init (yf : string -> result YFinance.Ticker) (ticker : string)
    : result t :=
  let ticker := upper ticker in
  stock <- yf ticker ;;
  Ok (mk ticker stock).

Definition get_key_metrics (self : t) : option FinancialData.t :=
  YFinance.key_metrics (stock self).

Definition get_market_data (self : t) : option MarketData.t :=
  let market_cap := get_default (YFinance.info_marketCap (stock self)) 0 in
  let shares_outstanding :=
    get_default (YFinance.info_sharesOutstanding (stock self)) 0 in
  let beta := get_default (YFinance.info_beta (stock self)) 1 in
  match YFinance.history_close (stock self) with
  | Raise _ => None
  | Ok hist =>
      let current_price :=
        match hist with
        | [] => 0
        | _ :: _ => last hist 0
        end in
      Some (MarketData.mk market_cap shares_outstanding current_price beta)
  end.

End FinancialDataFetcher.

(** ** [class WACCCalculator] *)
Module WACCCalculator.

Record t : Set := mk {
  risk_free_rate : Q;
  market_risk_premium : Q
}.

(** [__init__] with its default arguments. *)
Definition init : t := mk (45 # 1000) (65 # 1000).

Definition _estimate_cost_of_debt (financial_data : FinancialData.t) : Q :=
  5 # 100.

Definition calculate_wacc (self : t) (financial_data : FinancialData.t)
    (market_data : MarketData.t) (tax_rate : Q) : result wacc_return :=
  let beta := MarketData.beta market_data in
  let cost_of_equity := risk_free_rate self + beta * market_risk_premium self in
  latest_year <- index (keys (FinancialData.total_debt financial_data)) 0 ;;
  debt <- getitem (FinancialData.total_debt financial_data) latest_year ;;
  let total_debt := Qabs debt in
  let market_value_equity := MarketData.market_cap market_data in
  let total_value := total_debt + market_value_equity in
  if Qeq_bool total_value 0 then
    Ok (WaccFloat cost_of_equity)
  else
    let weight_equity := market_value_equity / total_value in
    let weight_debt := total_debt / total_value in
    let cost_of_debt := _estimate_cost_of_debt financial_data in
    let wacc :=
      (weight_equity * cost_of_equity)
      + (weight_debt * cost_of_debt * (1 - tax_rate)) in
    Ok (WaccDict (WaccBreakdown.mk wacc cost_of_equity cost_of_debt
                    weight_equity weight_debt beta)).

End WACCCalculator.

(** ** [class DCFModel] *)
Module DCFModel.

Record t : Set := mk {
  ticker : string;
  projection_years : Z;
  terminal_growth_rate : Q;
  data_fetcher : FinancialDataFetcher.t;
  wacc_calculator : WACCCalculator.t;
  financial_data : option FinancialData.t;
  market_data : option MarketData.t
}.

(** [__init__]; [yf] is the market-data library. *)
Definition init (yf : string -> result YFinance.Ticker) (ticker : string)
    (projection_years : Z) (terminal_growth_rate : Q) : result t :=
  data_fetcher <- FinancialDataFetcher.init yf ticker ;;
  let wacc_calculator := WACCCalculator.init in
  let financial_data := FinancialDataFetcher.get_key_metrics data_fetcher in
  let market_data := FinancialDataFetcher.get_market_data data_fetcher in
  Ok (mk ticker projection_years terminal_growth_rate data_fetcher
         wacc_calculator financial_data market_data).

(** Body of the revenue-growth loop, [i] ranging over
    [range(len(revenues)-1)]. *)
Definition revenue_growth_step (revenues : list Q) (revenue_growth_rates : list Q)
    (i : Z) : result (list Q) :=
  next <- index revenues (i + 1) ;;
  if ne0 next then
    this <- index revenues i ;;
    let growth := (this - next) / Qabs next in
    Ok (revenue_growth_rates ++ [growth])
  else Ok revenue_growth_rates.

Definition ebit_margin_step (fd : FinancialData.t) (ebit_margins : list Q)
    (year : Period) : result (list Q) :=
  revenue <- getitem (FinancialData.revenue fd) year ;;
  ebit <- getitem (FinancialData.ebit fd) year ;;
  if ne0 revenue then Ok (ebit_margins ++ [ebit / revenue]) else Ok ebit_margins.

Definition tax_rate_step (fd : FinancialData.t) (tax_rates : list Q)
    (year : Period) : result (list Q) :=
  ebit <- getitem (FinancialData.ebit fd) year ;;
  tax_expense <- getitem (FinancialData.tax_expense fd) year ;;
  if gt0 ebit then Ok (tax_rates ++ [Qabs tax_expense / ebit]) else Ok tax_rates.

Definition capex_ratio_step (fd : FinancialData.t) (capex_ratios : list Q)
    (year : Period) : result (list Q) :=
  revenue <- getitem (FinancialData.revenue fd) year ;;
  raw <- getitem (FinancialData.capex fd) year ;;
  let capex := Qabs raw in
  if ne0 revenue then Ok (capex_ratios ++ [capex / revenue]) else Ok capex_ratios.

(** [np.mean(xs) if xs else default]. *)
Definition mean_or (xs : list Q) (default : Q) : Q :=
  match xs with
  | [] => default
  | _ :: _ => mean xs
  end.

Definition calculate_historical_averages (self : t) : result (option Averages.t) :=
  match financial_data self with
  | None => Ok None
  | Some fd =>
      let revenues := values (FinancialData.revenue fd) in
      revenue_growth_rates <-
        for_each (range 0 (Z.of_nat (List.length revenues) - 1))
                 (revenue_growth_step revenues) [] ;;
      let revenue_growth := mean_or revenue_growth_rates (5 # 100) in
      ebit_margins <-
        for_each (keys (FinancialData.revenue fd)) (ebit_margin_step fd) [] ;;
      let ebit_margin := mean_or ebit_margins (15 # 100) in
      tax_rates <-
        for_each (keys (FinancialData.revenue fd)) (tax_rate_step fd) [] ;;
      let tax_rate := mean_or tax_rates (25 # 100) in
      capex_ratios <-
        for_each (keys (FinancialData.revenue fd)) (capex_ratio_step fd) [] ;;
      let capex_ratio := mean_or capex_ratios (5 # 100) in
      Ok (Some (Averages.mk revenue_growth ebit_margin tax_rate capex_ratio))
  end.

(** Body of the projection loop: the dict appended for [year]. *)
Definition project_year (averages : Averages.t) (base_revenue : Q) (year : Z)
    : Projection.t :=
  let projected_revenue :=
    base_revenue * pow (1 + Averages.revenue_growth averages) year in
  let projected_ebit := projected_revenue * Averages.ebit_margin averages in
  let nopat := projected_ebit * (1 - Averages.tax_rate averages) in
  let projected_capex := projected_revenue * Averages.capex_ratio averages in
  let depreciation := projected_revenue * (3 # 100) in
  let change_in_wc := projected_revenue * (2 # 100) in
  let fcf := nopat + depreciation - projected_capex - change_in_wc in
  Projection.mk year projected_revenue projected_ebit nopat projected_capex
                depreciation change_in_wc fcf.

Definition project_cash_flows (self : t) : result (option (list Projection.t)) :=
  averages <- calculate_historical_averages self ;;
  match averages with
  | None => Ok None
  | Some averages =>
      match financial_data self with
      | None => Raise TypeError
      | Some fd =>
          base_revenue <- index (values (FinancialData.revenue fd)) 0 ;;
          let projections :=
            fold_left
              (fun projections year =>
                 projections ++ [project_year averages base_revenue year])
              (range 1 (projection_years self + 1)) [] in
          Ok (Some projections)
      end
  end.

Definition calculate_terminal_value (self : t) (final_fcf wacc : Q) : result Q :=
  div (final_fcf * (1 + terminal_growth_rate self))
      (wacc - terminal_growth_rate self).

(** Body of the discounting loop. *)
Definition pv_step (wacc : Q) (pv_cash_flows : list Q) (projection : Projection.t)
    : result (list Q) :=
  pv <- div (Projection.fcf projection)
            (pow (1 + wacc) (Projection.year projection)) ;;
  Ok (pv_cash_flows ++ [pv]).

Definition calculate_dcf_valuation (self : t) : result (option Valuation.t) :=
  match financial_data self, market_data self with
  | Some fd, Some md =>
      averages <- calculate_historical_averages self ;;
      wacc_data <-
        WACCCalculator.calculate_wacc (wacc_calculator self) fd md
          (match averages with
           | Some a => Averages.tax_rate a
           | None => 25 # 100
           end) ;;
      wacc <- subscript_wacc wacc_data ;;
      projections <- project_cash_flows self ;;
      match projections with
      | None | Some [] => Ok None
      | Some projections =>
          pv_cash_flows <- for_each projections (pv_step wacc) [] ;;
          last_projection <- index projections (-1) ;;
          let final_fcf := Projection.fcf last_projection in
          terminal_value <- calculate_terminal_value self final_fcf wacc ;;
          pv_terminal_value <-
            div terminal_value (pow (1 + wacc) (projection_years self)) ;;
          let enterprise_value := sum pv_cash_flows + pv_terminal_value in
          latest_year <- index (keys (FinancialData.total_debt fd)) 0 ;;
          debt <- getitem (FinancialData.total_debt fd) latest_year ;;
          cash <- getitem (FinancialData.cash fd) latest_year ;;
          let net_debt := debt - cash in
          let equity_value := enterprise_value - net_debt in
          let shares_outstanding := MarketData.shares_outstanding md in
          let value_per_share :=
            if gt0 shares_outstanding then equity_value / shares_outstanding
            else 0 in
          let current_price := MarketData.current_price md in
          Ok (Some (Valuation.mk
                      enterprise_value
                      equity_value
                      value_per_share
                      current_price
                      (if gt0 current_price
                       then (value_per_share - current_price) / current_price
                       else 0)
                      wacc
                      terminal_value
                      pv_terminal_value
                      (sum pv_cash_flows)
                      projections
                      wacc_data
                      averages))
      end
  | _, _ => Ok None
  end.

End DCFModel.

(** ** [DCF.py]: the callbacks that run and re-estimate a valuation *)
Module Dashboard.

(** The value of [str(e)] or a literal message. *)
Inductive error_text : Set :=
| Literal (s : string)
| StrOf (e : exn).

(** Content of the [dcf-results-store]. *)
Inductive store : Set :=
| StoreEmpty
| StoreSuccess (ticker : string) (valuation : Valuation.t)
| StoreFailure (error : error_text).

Definition set_rates (dcf : DCFModel.t) (risk_free_rate market_risk_premium : Q)
    : DCFModel.t :=
  DCFModel.mk (DCFModel.ticker dcf) (DCFModel.projection_years dcf)
    (DCFModel.terminal_growth_rate dcf) (DCFModel.data_fetcher dcf)
    (WACCCalculator.mk risk_free_rate market_risk_premium)
    (DCFModel.financial_data dcf) (DCFModel.market_data dcf).

Definition calculate_dcf (yf : string -> result YFinance.Ticker) (n_clicks : Z)
    (ticker : string) (risk_free_rate market_risk_premium terminal_growth_rate : Q)
    (projection_years : Z) : store :=
  if (n_clicks =? 0)%Z || String.eqb ticker EmptyString then StoreEmpty
  else
    let attempt :=
      dcf <- DCFModel.init yf ticker projection_years
               (terminal_growth_rate / 100) ;;
      let dcf := set_rates dcf (risk_free_rate / 100) (market_risk_premium / 100) in
      DCFModel.calculate_dcf_valuation dcf in
    match attempt with
    | Ok (Some valuation) => StoreSuccess (upper ticker) valuation
    | Ok None =>
        StoreFailure (Literal "Failed to fetch data or calculate valuation")
    | Raise e => StoreFailure (StrOf e)
    end.

(** [np.arange(start, stop, step)]: [ceil((stop - start)/step)] values
    [start + i*step], here in exact arithmetic.  The binary64 values numpy
    computes can differ from these decimals in the last place (the lengths
    agree), so a property of the grid that needs a grid value to equal a
    given number exactly is not stated on this range. *)
Definition arange (start stop step : Q) : list Q :=
  map (fun i => start + inject_Z (Z.of_nat i) * step)
      (seq 0 (Z.to_nat (Qceiling ((stop - start) / step)))).

Definition wacc_range : list Q := arange (6 # 100) (16 # 100) (1 # 100).
Definition terminal_growth_range : list Q := arange (1 # 100) (5 # 100) (5 # 1000).

(** The two offset terms of a grid cell and the cell itself (body of the
    inner loop). *)
Definition wacc_impact (valuation : Valuation.t) (wacc : Q) : result Q :=
  let base_value := Valuation.value_per_share valuation in
  ratio <- div (Valuation.wacc valuation - wacc) (Valuation.wacc valuation) ;;
  Ok (ratio * base_value * (5 # 10)).

Definition terminal_impact (valuation : Valuation.t) (terminal_growth : Q) : Q :=
  let base_value := Valuation.value_per_share valuation in
  (terminal_growth - (25 # 1000)) / (25 # 1000) * base_value * (3 # 10).

Definition adjusted_value (valuation : Valuation.t) (wacc terminal_growth : Q)
    : result Q :=
  let base_value := Valuation.value_per_share valuation in
  wacc_impact <- wacc_impact valuation wacc ;;
  let terminal_impact := terminal_impact valuation terminal_growth in
  Ok (base_value + wacc_impact + terminal_impact).

Definition sensitivity_row (valuation : Valuation.t) (wacc : Q) : result (list Q) :=
  for_each terminal_growth_range
    (fun row terminal_growth =>
       adjusted <- adjusted_value valuation wacc terminal_growth ;;
       Ok (row ++ [adjusted]))
    [].

Definition sensitivity_grid (valuation : Valuation.t) : result (list (list Q)) :=
  for_each wacc_range
    (fun sensitivity_data wacc =>
       row <- sensitivity_row valuation wacc ;;
       Ok (sensitivity_data ++ [row]))
    [].

(** The figure returned; the axis labels are kept as the numbers they
    format. *)
Inductive figure : Set :=
| NoDataAvailable
| Heatmap (z : list (list Q)) (x y : list Q) (zmid : Q).

Definition update_sensitivity_chart (data : store) : result figure :=
  match data with
  | StoreSuccess _ valuation =>
      let base_value := Valuation.value_per_share valuation in
      sensitivity_data <- sensitivity_grid valuation ;;
      Ok (Heatmap sensitivity_data terminal_growth_range wacc_range base_value)
  | _ => Ok NoDataAvailable
  end.

End Dashboard.

(** ** The specification's wording of the revenue-growth average

    Written from the specification text, to be compared with the loop of
    [calculate_historical_averages]. *)
Module Spec.

(** Adjacent period pairs [(older, newer)], walking a chronological
    (oldest first) sequence of revenues. *)
Fixpoint adjacent_pairs (chronological : list Q) : list (Q * Q) :=
  match chronological with
  | older :: ((newer :: _) as later) => (older, newer) :: adjacent_pairs later
  | _ => []
  end.

(** A pair is skipped if the denominator period's revenue is zero. *)
Definition qualifying (pair : Q * Q) : bool := ne0 (fst pair).

(** [(newer - older) / denominator(older)]. *)
Definition growth_ratio (denominator : Q -> Q) (pair : Q * Q) : Q :=
  (snd pair - fst pair) / denominator (fst pair).

Definition arithmetic_mean (xs : list Q) : Q :=
  fold_right Qplus 0 xs / inject_Z (Z.of_nat (List.length xs)).

(** Mean of the qualifying growth ratios, or the fallback constant; the
    argument is the revenue column as the program holds it, most recent
    period first. *)
Definition average_revenue_growth (denominator : Q -> Q)
    (revenues_latest_first : list Q) : Q :=
  let ratios :=
    map (growth_ratio denominator)
        (filter qualifying (adjacent_pairs (rev revenues_latest_first))) in
  match ratios with
  | [] => 5 # 100
  | _ :: _ => arithmetic_mean ratios
  end.

(** The ratio as the specification words it: divided by the older revenue. *)
Definition by_older_revenue (older : Q) : Q := older.

(** The ratio as the loop computes it: divided by [abs] of the older revenue. *)
Definition by_abs_older_revenue (older : Q) : Q := Qabs older.

End Spec.

(** ** Conditions on the inputs *)

(** Every line item the valuation reads is keyed by the same periods as
    [revenue] (what [get_key_metrics] builds: every dict over [years]). *)
Definition same_periods (fd : FinancialData.t) : Prop :=
  keys (FinancialData.ebit fd) = keys (FinancialData.revenue fd)
  /\ keys (FinancialData.tax_expense fd) = keys (FinancialData.revenue fd)
  /\ keys (FinancialData.capex fd) = keys (FinancialData.revenue fd)
  /\ keys (FinancialData.total_debt fd) = keys (FinancialData.revenue fd)
  /\ keys (FinancialData.cash fd) = keys (FinancialData.revenue fd).

(** [d[k]] for a key known to be present. *)
Fixpoint lookup (d : Dict) (k : Period) : Q :=
  match d with
  | [] => 0
  | (k', v) :: d' => if Z.eqb k k' then v else lookup d' k
  end.

(** The inputs on which every step of [calculate_dcf_valuation] succeeds:
    data present and consistently keyed with at least one period, capital not
    zero (so the WACC is the breakdown [b]), a horizon of at least one year,
    and neither [1 + wacc] nor [wacc - terminal growth] zero. *)
Definition valuation_ready (self : DCFModel.t) (fd : FinancialData.t)
    (md : MarketData.t) (a : Averages.t) (b : WaccBreakdown.t) : Prop :=
  DCFModel.financial_data self = Some fd
  /\ DCFModel.market_data self = Some md
  /\ same_periods fd
  /\ FinancialData.revenue fd <> []
  /\ DCFModel.calculate_historical_averages self = Ok (Some a)
  /\ WACCCalculator.calculate_wacc (DCFModel.wacc_calculator self) fd md
       (Averages.tax_rate a) = Ok (WaccDict b)
  /\ (1 <= DCFModel.projection_years self)%Z
  /\ ~ 1 + WaccBreakdown.wacc b == 0
  /\ ~ WaccBreakdown.wacc b == DCFModel.terminal_growth_rate self.

(** ** Closed forms of the loops

    What each loop of [calculate_historical_averages] appends for one
    iteration, with the subscripts already resolved. *)
Definition growth_at (revenues : list Q) (i : Z) : list Q :=
  let next := nth (Z.to_nat (i + 1)) revenues 0 in
  let this := nth (Z.to_nat i) revenues 0 in
  if ne0 next then [(this - next) / Qabs next] else [].

Definition margin_at (fd : FinancialData.t) (year : Period) : list Q :=
  let revenue := lookup (FinancialData.revenue fd) year in
  let ebit := lookup (FinancialData.ebit fd) year in
  if ne0 revenue then [ebit / revenue] else [].

Definition tax_at (fd : FinancialData.t) (year : Period) : list Q :=
  let ebit := lookup (FinancialData.ebit fd) year in
  let tax_expense := lookup (FinancialData.tax_expense fd) year in
  if gt0 ebit then [Qabs tax_expense / ebit] else [].

Definition capex_at (fd : FinancialData.t) (year : Period) : list Q :=
  let revenue := lookup (FinancialData.revenue fd) year in
  let capex := Qabs (lookup (FinancialData.capex fd) year) in
  if ne0 revenue then [capex / revenue] else [].

Definition averages_of (fd : FinancialData.t) : Averages.t :=
  let revenues := values (FinancialData.revenue fd) in
  let years := keys (FinancialData.revenue fd) in
  Averages.mk
    (DCFModel.mean_or
       (flat_map (growth_at revenues)
                 (range 0 (Z.of_nat (List.length revenues) - 1)))
       (5 # 100))
    (DCFModel.mean_or (flat_map (margin_at fd) years) (15 # 100))
    (DCFModel.mean_or (flat_map (tax_at fd) years) (25 # 100))
    (DCFModel.mean_or (flat_map (capex_at fd) years) (5 # 100)).

(** The value of one grid cell of the sensitivity chart once the division by
    the base WACC has succeeded. *)
Definition grid_cell (valuation : Valuation.t) (wacc terminal_growth : Q) : Q :=
  let base_value := Valuation.value_per_share valuation in
  base_value
  + (Valuation.wacc valuation - wacc) / Valuation.wacc valuation
    * base_value * (5 # 10)
  + Dashboard.terminal_impact valuation terminal_growth.

(** ** Sample inputs *)
Module Examples.

Definition years : list Period := [2023; 2022; 2021]%Z.

(** A line item over the three sample periods, most recent first. *)
Definition column (amounts : list Q) : Dict := combine years amounts.

Definition absent : Dict := column [0; 0; 0].

Definition statements (revenue ebit tax_expense capex total_debt cash : list Q)
    : FinancialData.t :=
  FinancialData.mk (column revenue) (column ebit) absent absent
    (column tax_expense) absent (column capex) absent (column total_debt)
    (column cash) absent.

(** Revenue 100, 110, 121 from the oldest to the newest period. *)
Definition growing : FinancialData.t :=
  statements [121; 110; 100] [24; 22; 20] [6; 5; 5] [-6; -5; -5]
             [50; 0; 0] [10; 0; 0].

Definition quote : MarketData.t := MarketData.mk 950 100 12 1.

Definition stock (fd : FinancialData.t) (md : MarketData.t) : YFinance.Ticker :=
  YFinance.mk (Some (MarketData.market_cap md))
    (Some (MarketData.shares_outstanding md)) (Some (MarketData.beta md))
    (Ok [MarketData.current_price md]) (Some fd).

Definition provider (fd : FinancialData.t) (md : MarketData.t)
    : string -> result YFinance.Ticker :=
  fun _ => Ok (stock fd md).

(** The model [DCFModel(ticker, projection_years, terminal_growth_rate)]
    holds once the provider has answered with [fd] and [md]. *)
Definition model (projection_years : Z) (terminal_growth_rate : Q)
    (fd : FinancialData.t) (md : MarketData.t) : DCFModel.t :=
  DCFModel.mk "abc" projection_years terminal_growth_rate
    (FinancialDataFetcher.mk "ABC" (stock fd md)) WACCCalculator.init
    (Some fd) (Some md).

(** A base valuation for the sensitivity chart: WACC 10%, 20 per share. *)
Definition base_valuation : Valuation.t :=
  Valuation.mk 2000 1960 20 12 (2 # 3) (10 # 100) 1000 600 1400 []
    (WaccFloat 0) None.

End Examples.

(** No debt over the three periods and no market capitalisation: the total
    capital is zero. *)
Module ZeroCapital.

Definition statements : FinancialData.t :=
  Examples.statements [121; 110; 100] [24; 22; 20] [6; 5; 5] [-6; -5; -5]
                      [0; 0; 0] [10; 0; 0].

Definition quote : MarketData.t := MarketData.mk 0 100 12 1.

Definition model : DCFModel.t :=
  Examples.model 5 (25 # 1000) statements quote.

End ZeroCapital.

(** ** Closed forms of the projection and of the discounting loop *)

Definition projections_of (a : Averages.t) (base_revenue : Q) (horizon : Z)
    : list Projection.t :=
  map (DCFModel.project_year a base_revenue) (range 1 (horizon + 1)).

Definition discounted (wacc : Q) (projection : Projection.t) : Q :=
  Projection.fcf projection / pow (1 + wacc) (Projection.year projection).

(** The most recent revenue, [list(revenue.values())[0]]. *)
Definition base_revenue_of (fd : FinancialData.t) : Q :=
  hd 0 (values (FinancialData.revenue fd)).

(** The free cash flow of the last projected year. *)
Definition final_fcf_of (a : Averages.t) (fd : FinancialData.t) (horizon : Z) : Q :=
  Projection.fcf (DCFModel.project_year a (base_revenue_of fd) horizon).

(** Net debt of the most recent period. *)
Definition net_debt_of (fd : FinancialData.t) : Q :=
  let latest_year := hd 0%Z (keys (FinancialData.total_debt fd)) in
  lookup (FinancialData.total_debt fd) latest_year
  - lookup (FinancialData.cash fd) latest_year.

(** Three periods without revenue, one of them with a positive EBIT that
    was taxed. *)
Module NoRevenue.

Definition statements : FinancialData.t :=
  Examples.statements [0; 0; 0] [100; 0; 0] [30; 0; 0] [0; 0; 0]
                      [50; 0; 0] [10; 0; 0].

Definition model : DCFModel.t :=
  Examples.model 5 (25 # 1000) statements Examples.quote.

(** The same without any positive EBIT. *)
Definition idle_statements : FinancialData.t :=
  Examples.statements [0; 0; 0] [0; -5; 0] [30; 0; 0] [0; 0; 0]
                      [50; 0; 0] [10; 0; 0].

Definition idle_model : DCFModel.t :=
  Examples.model 5 (25 # 1000) idle_statements Examples.quote.

End NoRevenue.

(** The pairs [(revenues[i+1], revenues[i])] in the order the loop of
    [calculate_historical_averages] visits them: the older revenue first in
    each pair, the most recent pair first in the list. *)
Fixpoint latest_first_pairs (revenues : list Q) : list (Q * Q) :=
  match revenues with
  | this :: ((next :: _) as older) => (next, this) :: latest_first_pairs older
  | _ => []
  end.

(** Two periods, the older one with a negative revenue (a net reversal). *)
Module NegativeRevenue.

Definition statements : FinancialData.t :=
  FinancialData.mk
    [(2023%Z, 10); (2022%Z, -5)] [(2023%Z, 2); (2022%Z, -1)]
    [(2023%Z, 0); (2022%Z, 0)] [(2023%Z, 0); (2022%Z, 0)]
    [(2023%Z, 1); (2022%Z, 0)] [(2023%Z, 0); (2022%Z, 0)]
    [(2023%Z, -1); (2022%Z, 0)] [(2023%Z, 0); (2022%Z, 0)]
    [(2023%Z, 0); (2022%Z, 0)] [(2023%Z, 0); (2022%Z, 0)]
    [(2023%Z, 0); (2022%Z, 0)].

Definition model : DCFModel.t :=
  Examples.model 5 (25 # 1000) statements Examples.quote.

End NegativeRevenue.

(** A request whose terminal growth rate (15%) exceeds the WACC the sample
    data yields (3511/33000, about 10.6%). *)
Module HighGrowth.

Definition model : DCFModel.t :=
  Examples.model 5 (15 # 100) Examples.growing Examples.quote.

End HighGrowth.

(** [self] with another share count and price in its market data. *)
Definition with_quote (self : DCFModel.t) (shares_outstanding current_price : Q)
    : DCFModel.t :=
  DCFModel.mk (DCFModel.ticker self) (DCFModel.projection_years self)
    (DCFModel.terminal_growth_rate self) (DCFModel.data_fetcher self)
    (DCFModel.wacc_calculator self) (DCFModel.financial_data self)
    (match DCFModel.market_data self with
     | Some md =>
         Some (MarketData.mk (MarketData.market_cap md) shares_outstanding
                 current_price (MarketData.beta md))
     | None => None
     end).

(** The breakdown dict [calculate_wacc] returns, for inputs on which it
    returns one. *)
Definition breakdown_of (calculator : WACCCalculator.t) (fd : FinancialData.t)
    (md : MarketData.t) (tax_rate : Q) : WaccBreakdown.t :=
  match WACCCalculator.calculate_wacc calculator fd md tax_rate with
  | Ok (WaccDict b) => b
  | _ => WaccBreakdown.mk 0 0 0 0 0 0
  end.

(** The breakdown of a model whose data is present. *)
Definition breakdown (self : DCFModel.t) : WaccBreakdown.t :=
  match DCFModel.financial_data self, DCFModel.market_data self with
  | Some fd, Some md =>
      breakdown_of (DCFModel.wacc_calculator self) fd md
        (Averages.tax_rate (averages_of fd))
  | _, _ => WaccBreakdown.mk 0 0 0 0 0 0
  end.

(** ** The terminal value in IEEE binary64

    The same source line evaluated on hardware floats, to check the worked
    example of the specification on the numbers Python computes with. *)
Module Binary64.

Import PrimFloat.
#[local] Set Warnings "-inexact-float".

Definition calculate_terminal_value (terminal_growth_rate final_fcf wacc : float)
    : float :=
  ((final_fcf * (1 + terminal_growth_rate))
   / (wacc - terminal_growth_rate))%float.

Definition worked_example : float :=
  calculate_terminal_value 0.025%float 100%float 0.10%float.

Definition within (tolerance expected actual : float) : bool :=
  ltb (abs (actual - expected)) tolerance.

Definition worked_example_ok : bool :=
  within 0.01%float 1366.67%float worked_example.

(** [calculate_wacc], lines 128-138: the two capital weights. *)
Definition total_value (debt equity_value : float) : float :=
  (abs debt + equity_value)%float.

Definition weight_equity (debt equity_value : float) : float :=
  (equity_value / total_value debt equity_value)%float.

Definition weight_debt (debt equity_value : float) : float :=
  (abs debt / total_value debt equity_value)%float.

(** Total debt 445.4 and market capitalisation 721.5. *)
Definition fractional_debt : float := 445.4%float.

Definition fractional_market_cap : float := 721.5%float.

Definition fractional_weights_sum : float :=
  (weight_equity fractional_debt fractional_market_cap
   + weight_debt fractional_debt fractional_market_cap)%float.

Definition zero : float := 0%float.

Definition one : float := 1%float.

(** The largest binary64 number below 1. *)
Definition below_one : float := 0x1.fffffffffffffp-1%float.

(** [update_sensitivity_chart], lines 375-377, for one grid point. *)
Definition adjusted_value (base_wacc base_value wacc terminal_growth : float)
    : float :=
  let wacc_impact := ((base_wacc - wacc) / base_wacc * base_value * 0.5)%float in
  let terminal_impact :=
    ((terminal_growth - 0.025) / 0.025 * base_value * 0.3)%float in
  (base_value + wacc_impact + terminal_impact)%float.

(** The base point of a valuation with a WACC of 10% and a value per share of
    20. *)
Definition base_wacc : float := 0.10%float.

Definition base_value : float := 20%float.

Definition base_point : float :=
  adjusted_value base_wacc base_value base_wacc 0.025%float.

End Binary64.

(** * The rest of the two files

    ** Text methods applied to statement labels (ASCII) *)
Module Text.

Definition is_upper (c : ascii) : bool :=
  let n := nat_of_ascii c in (65 <=? n)%nat && (n <=? 90)%nat.

Definition is_lower (c : ascii) : bool :=
  let n := nat_of_ascii c in (97 <=? n)%nat && (n <=? 122)%nat.

Definition is_cased (c : ascii) : bool := is_upper c || is_lower c.

Definition lower_ascii (c : ascii) : ascii :=
  if is_upper c then ascii_of_nat (nat_of_ascii c + 32) else c.

(** [s.lower()]. *)
Fixpoint lower (s : string) : string :=
  match s with
  | EmptyString => EmptyString
  | String c s' => String (lower_ascii c) (lower s')
  end.

(** [s.replace(' ', '')]. *)
Fixpoint remove_spaces (s : string) : string :=
  match s with
  | EmptyString => EmptyString
  | String c s' =>
      if Ascii.eqb c " " then remove_spaces s' else String c (remove_spaces s')
  end.

(** [s.title()]: a cased character is upper-cased when the previous
    character is not cased and lower-cased otherwise. *)
Fixpoint title_from (previous_is_cased : bool) (s : string) : string :=
  match s with
  | EmptyString => EmptyString
  | String c s' =>
      if is_cased c then
        String (if previous_is_cased then lower_ascii c else upper_ascii c)
               (title_from true s')
      else String c (title_from false s')
  end.

Definition title (s : string) : string := title_from false s.

End Text.

(** ** Dicts with any kind of value: subscript assignment and construction *)
Module AnyDict.

(** [d[k] = v]: the value of an existing key is replaced in place, a new key
    is appended. *)
Fixpoint setitem {V : Type} (d : list (Period * V)) (k : Period) (v : V)
    : list (Period * V) :=
  match d with
  | [] => [(k, v)]
  | (k', v') :: d' =>
      if Z.eqb k k' then (k', v) :: d' else (k', v') :: setitem d' k v
  end.

(** The dict built by assigning the pairs from left to right, as a dict
    comprehension and [Series.to_dict] do. *)
Definition from_pairs {V : Type} (pairs : list (Period * V)) : list (Period * V) :=
  fold_left (fun d pair => setitem d (fst pair) (snd pair)) pairs [].

End AnyDict.

(** ** The part of pandas the extraction uses

    A statement is a [DataFrame] whose rows are labelled by line-item names and
    whose columns are labelled by fiscal periods, both without duplicates; a
    cell holds a number or NaN ([None]). *)
Module Pandas.

Record DataFrame : Type := mk {
  index : list string;
  columns : list Period;
  cell : string -> Period -> option Q
}.

(** [name in df.index]. *)
Definition in_index (df : DataFrame) (name : string) : bool :=
  existsb (String.eqb name) (index df).

Definition in_columns (df : DataFrame) (year : Period) : bool :=
  existsb (Z.eqb year) (columns df).

(** [df.loc[name, years]] for a list of periods: a missing label raises
    [KeyError]. *)
Definition loc (df : DataFrame) (name : string) (years : list Period)
    : result (list (Period * option Q)) :=
  if in_index df name && forallb (in_columns df) years
  then Ok (map (fun year => (year, cell df name year)) years)
  else Raise KeyError.

(** [df.loc[name, year]] for one period. *)
Definition loc_scalar (df : DataFrame) (name : string) (year : Period)
    : result (option Q) :=
  if in_index df name && in_columns df year
  then Ok (cell df name year)
  else Raise KeyError.

(** [series.fillna(0)]. *)
Definition fillna0 (series : list (Period * option Q)) : list (Period * Q) :=
  map (fun entry => (fst entry, get_default (snd entry) 0)) series.

(** [series.to_dict()]. *)
Definition to_dict (series : list (Period * Q)) : Dict :=
  AnyDict.from_pairs series.

(** NaN-propagating subtraction. *)
Definition sub (a b : option Q) : option Q :=
  match a, b with
  | Some x, Some y => Some (x - y)
  | _, _ => None
  end.

End Pandas.

(** ** [FinancialDataFetcher]: extraction of the metrics from the statements *)
Module Extraction.

(** The dict [{'income_statement': ..., 'balance_sheet': ..., 'cash_flow': ...}]. *)
Record Statements : Type := mk_statements {
  income_statement : Pandas.DataFrame;
  balance_sheet : Pandas.DataFrame;
  cash_flow : Pandas.DataFrame
}.

(** [metrics]; [working_capital] is not NaN-filled by the source. *)
Record Metrics : Type := mk_metrics {
  revenue : Dict;
  ebit : Dict;
  ebitda : Dict;
  net_income : Dict;
  tax_expense : Dict;
  operating_cf : Dict;
  capex : Dict;
  depreciation : Dict;
  total_debt : Dict;
  cash : Dict;
  working_capital : list (Period * option Q)
}.

(** [get_financial_statements]; [fetched] is the outcome of reading the three
    statements from the provider. *)
Definition get_financial_statements (fetched : result Statements)
    : option Statements :=
  match fetched with
  | Ok statements => Some statements
  | Raise _ => None
  end.

(** [{year: 0 for year in years}]. *)
Definition zero_fill (years : list Period) : Dict :=
  AnyDict.from_pairs (map (fun year => (year, 0)) years).

Definition possible_names (metric_name : string) : list string :=
  [metric_name; Text.remove_spaces metric_name; Text.title metric_name;
   Text.lower metric_name].

(** The [for name in possible_names] loop of [_safe_extract] with the
    [return] that follows it. *)
Fixpoint first_match (df : Pandas.DataFrame) (names : list string)
    (years : list Period) : result Dict :=
  match names with
  | [] => Ok (zero_fill years)
  | name :: names' =>
      if Pandas.in_index df name then
        series <- Pandas.loc df name years ;;
        Ok (Pandas.to_dict (Pandas.fillna0 series))
      else first_match df names' years
  end.

(** [_safe_extract]: the bare [except] turns any exception into the
    zero-filled dict. *)
Definition _safe_extract (df : Pandas.DataFrame) (metric_name : string)
    (years : list Period) : Dict :=
  match first_match df (possible_names metric_name) years with
  | Ok d => d
  | Raise _ => zero_fill years
  end.

(** Body of the [try] of [_calculate_working_capital] for one year. *)
Definition working_capital_at (balance_sheet : Pandas.DataFrame) (year : Period)
    : result (option Q) :=
  current_assets <-
    (if Pandas.in_index balance_sheet "Current Assets"
     then Pandas.loc_scalar balance_sheet "Current Assets" year
     else Ok (Some 0)) ;;
  current_liabilities <-
    (if Pandas.in_index balance_sheet "Current Liabilities"
     then Pandas.loc_scalar balance_sheet "Current Liabilities" year
     else Ok (Some 0)) ;;
  Ok (Pandas.sub current_assets current_liabilities).

Definition _calculate_working_capital (balance_sheet : Pandas.DataFrame)
    (years : list Period) : list (Period * option Q) :=
  fold_left
    (fun wc_data year =>
       match working_capital_at balance_sheet year with
       | Ok value => AnyDict.setitem wc_data year value
       | Raise _ => AnyDict.setitem wc_data year (Some 0)
       end)
    years [].

Definition get_key_metrics (fetched : result Statements) : option Metrics :=
  match get_financial_statements fetched with
  | None => None
  | Some statements =>
      let income_stmt := income_statement statements in
      let balance_sheet := balance_sheet statements in
      let cash_flow := cash_flow statements in
      let years := firstn 3 (Pandas.columns income_stmt) in
      Some (mk_metrics
              (_safe_extract income_stmt "Total Revenue" years)
              (_safe_extract income_stmt "EBIT" years)
              (_safe_extract income_stmt "EBITDA" years)
              (_safe_extract income_stmt "Net Income" years)
              (_safe_extract income_stmt "Tax Provision" years)
              (_safe_extract cash_flow "Operating Cash Flow" years)
              (_safe_extract cash_flow "Capital Expenditure" years)
              (_safe_extract cash_flow "Depreciation" years)
              (_safe_extract balance_sheet "Total Debt" years)
              (_safe_extract balance_sheet "Cash And Cash Equivalents" years)
              (_calculate_working_capital balance_sheet years))
  end.

(** The metrics as the valuation holds them.  The valuation never reads
    [working_capital]; its NaN entries are stored as 0 here. *)
Definition financial_data_of (metrics : Metrics) : FinancialData.t :=
  FinancialData.mk (revenue metrics) (ebit metrics) (ebitda metrics)
    (net_income metrics) (tax_expense metrics) (operating_cf metrics)
    (capex metrics) (depreciation metrics) (total_debt metrics) (cash metrics)
    (Pandas.fillna0 (working_capital metrics)).

End Extraction.

(** Sample statements: an income statement over four periods, a balance
    sheet that lacks the period 2021 and has a NaN cell, and a cash-flow
    statement whose capital-expenditure row is labelled without a space. *)
Module SampleStatements.

Definition income_cell (name : string) (year : Period) : option Q :=
  if String.eqb name "Total Revenue"%string then
    (if Z.eqb year 2023 then Some 121
     else if Z.eqb year 2022 then Some 110
     else if Z.eqb year 2021 then Some 100 else Some 90)
  else if String.eqb name "EBIT"%string then
    (if Z.eqb year 2023 then Some 24
     else if Z.eqb year 2022 then None else Some 20)
  else if String.eqb name "Tax Provision"%string then Some 5
  else None.

Definition income : Pandas.DataFrame :=
  Pandas.mk ["Total Revenue"; "EBIT"; "Tax Provision"]%string
            [2023; 2022; 2021; 2020]%Z income_cell.

Definition balance_cell (name : string) (year : Period) : option Q :=
  if String.eqb name "Total Debt"%string then Some 50
  else if String.eqb name "Current Assets"%string then
    (if Z.eqb year 2023 then Some 70 else None)
  else if String.eqb name "Current Liabilities"%string then Some 30
  else None.

Definition balance : Pandas.DataFrame :=
  Pandas.mk ["Total Debt"; "Current Assets"; "Current Liabilities"]%string
            [2023; 2022]%Z balance_cell.

Definition cash_flow_cell (name : string) (year : Period) : option Q :=
  if String.eqb name "CapitalExpenditure"%string then Some (-6) else None.

Definition cash_flows : Pandas.DataFrame :=
  Pandas.mk ["CapitalExpenditure"]%string [2023; 2022; 2021; 2020]%Z cash_flow_cell.

Definition statements : Extraction.Statements :=
  Extraction.mk_statements income balance cash_flows.

Definition years : list Period := [2023; 2022; 2021]%Z.

End SampleStatements.

(** The value [_calculate_working_capital] stores for one period: the result
    of the [try] body, or the 0 of the [except] clause. *)
Definition working_capital_entry (balance_sheet : Pandas.DataFrame)
    (year : Period) : option Q :=
  match Extraction.working_capital_at balance_sheet year with
  | Ok value => value
  | Raise _ => Some 0
  end.

(** A model holding statements without any period. *)
Module NoPeriods.

Definition statements : FinancialData.t :=
  FinancialData.mk [] [] [] [] [] [] [] [] [] [] [].

Definition model : DCFModel.t :=
  Examples.model 5 (25 # 1000) statements Examples.quote.

End NoPeriods.

(** The sample company with its debt reported as a negative amount and other
    figures in the older periods. *)
Module NegativeDebt.

Definition statements : FinancialData.t :=
  Examples.statements [121; 110; 100] [24; 22; 20] [6; 5; 5] [-6; -5; -5]
                      [-50; 7; 9] [10; 0; 0].

End NegativeDebt.

(** The shape shared by the three keyed loops of
    [calculate_historical_averages]: two subscripts by the loop's year, then
    an update of the list that cannot fail. *)
Definition two_key_step (first second : Dict) (update : list Q -> Q -> Q -> list Q)
    (acc : list Q) (year : Period) : result (list Q) :=
  x <- getitem first year ;;
  y <- getitem second year ;;
  Ok (update acc x y).

(** Statements whose EBIT lacks the period 2021. *)
Module MissingEbit.

Definition statements : FinancialData.t :=
  FinancialData.mk
    (Examples.column [121; 110; 100]) [(2023%Z, 24); (2022%Z, 22)]
    Examples.absent Examples.absent (Examples.column [6; 5; 5]) Examples.absent
    (Examples.column [-6; -5; -5]) Examples.absent (Examples.column [50; 0; 0])
    (Examples.column [10; 0; 0]) Examples.absent.

Definition model : DCFModel.t :=
  Examples.model 5 (25 # 1000) statements Examples.quote.

End MissingEbit.

(** Statements with a single period. *)
Module SinglePeriod.

Definition statements : FinancialData.t :=
  FinancialData.mk
    [(2023%Z, 121)] [(2023%Z, 24)] [(2023%Z, 0)] [(2023%Z, 0)] [(2023%Z, 6)]
    [(2023%Z, 0)] [(2023%Z, -6)] [(2023%Z, 0)] [(2023%Z, 50)] [(2023%Z, 10)]
    [(2023%Z, 0)].

Definition model : DCFModel.t :=
  Examples.model 5 (25 # 1000) statements Examples.quote.

End SinglePeriod.

(** [self] holding other financial data. *)
Definition with_financial_data (self : DCFModel.t) (fd : FinancialData.t)
    : DCFModel.t :=
  DCFModel.mk (DCFModel.ticker self) (DCFModel.projection_years self)
    (DCFModel.terminal_growth_rate self) (DCFModel.data_fetcher self)
    (DCFModel.wacc_calculator self) (Some fd) (DCFModel.market_data self).

(** The sample statements with other figures in the five line items the
    valuation does not read. *)
Module OtherUnused.

Definition statements : FinancialData.t :=
  FinancialData.mk
    (Examples.column [121; 110; 100]) (Examples.column [24; 22; 20])
    (Examples.column [30; 28; 26]) [(2023%Z, 14)]
    (Examples.column [6; 5; 5]) [] (Examples.column [-6; -5; -5])
    (Examples.column [4; 4; 4]) (Examples.column [50; 0; 0])
    (Examples.column [10; 0; 0]) [(1999%Z, 1)].

End OtherUnused.

(** ** [DCF.py]: the assumptions table *)
Module Tables.

(** A number with the format specification it is printed with
    ([.1%], [.2f]), or a literal text. *)
Inductive formatted : Set :=
| Percent1 (x : Q)
| Fixed2 (x : Q)
| Text (s : string).

Inductive table : Set :=
| NoAssumptions
| DataTable (rows : list (string * formatted)).

Definition update_assumptions_table (data : Dashboard.store) : result table :=
  match data with
  | Dashboard.StoreSuccess _ valuation =>
      match Valuation.assumptions valuation, Valuation.wacc_breakdown valuation with
      | Some assumptions, WaccDict wacc_breakdown =>
          Ok (DataTable
                [("Revenue Growth Rate"%string,
                  Percent1 (Averages.revenue_growth assumptions));
                 ("EBIT Margin"%string,
                  Percent1 (Averages.ebit_margin assumptions));
                 ("Tax Rate"%string, Percent1 (Averages.tax_rate assumptions));
                 ("Capex as % of Revenue"%string,
                  Percent1 (Averages.capex_ratio assumptions));
                 ("Beta"%string, Fixed2 (WaccBreakdown.beta wacc_breakdown));
                 ("Risk-Free Rate"%string,
                  Percent1 (WaccBreakdown.cost_of_equity wacc_breakdown
                            - WaccBreakdown.beta wacc_breakdown * (65 # 1000)));
                 ("Market Risk Premium"%string, Text "6.5%")])
      | _, _ => Raise TypeError
      end
  | _ => Ok NoAssumptions
  end.

End Tables.

(** The sample company with a negative share count and price in its quote. *)
Module NegativeQuote.

Definition quote : MarketData.t := MarketData.mk 950 (-100) (-12) 1.

Definition model : DCFModel.t :=
  Examples.model 5 (25 # 1000) Examples.growing quote.

End NegativeQuote.

(** A request run with a market risk premium of 8% instead of 6.5%. *)
Module HighPremium.

Definition model : DCFModel.t :=
  Dashboard.set_rates
    (Examples.model 5 (25 # 1000) Examples.growing Examples.quote)
    (45 # 1000) (8 # 100).

End HighPremium.

(** ** A share count reported as [None]

    [self.info.get('sharesOutstanding', 0)] falls back to 0 for an absent key
    only: a key present with the value [None] is returned as [None], stored in
    the market data as it is, and reaches the guard of the per-share
    quotient. *)
Module RawQuote.

Inductive value : Set :=
| PyNone
| Num (q : Q).

(** [info.get(key, default)]: [entry] is what [info] holds under the key, if
    anything. *)
Definition get (entry : option value) (default : Q) : value :=
  match entry with
  | Some v => v
  | None => Num default
  end.

(** [x > 0]: ordering [None] against an [int] raises [TypeError]. *)
Definition gt0 (x : value) : result bool :=
  match x with
  | PyNone => Raise TypeError
  | Num q => Ok (Py.gt0 q)
  end.

(** [a / x]: so does dividing by [None]. *)
Definition div (a : Q) (x : value) : result Q :=
  match x with
  | PyNone => Raise TypeError
  | Num q => Ok (a / q)
  end.

(** [calculate_dcf_valuation] with
    [self.market_data['shares_outstanding']] holding [shares_outstanding]; the
    other three entries are those of [market_data self]. *)
Definition calculate_dcf_valuation (self : DCFModel.t) (shares_outstanding : value)
    : result (option Valuation.t) :=
  match DCFModel.financial_data self, DCFModel.market_data self with
  | Some fd, Some md =>
      averages <- DCFModel.calculate_historical_averages self ;;
      wacc_data <-
        WACCCalculator.calculate_wacc (DCFModel.wacc_calculator self) fd md
          (match averages with
           | Some a => Averages.tax_rate a
           | None => 25 # 100
           end) ;;
      wacc <- subscript_wacc wacc_data ;;
      projections <- DCFModel.project_cash_flows self ;;
      match projections with
      | None | Some [] => Ok None
      | Some projections =>
          pv_cash_flows <- for_each projections (DCFModel.pv_step wacc) [] ;;
          last_projection <- index projections (-1) ;;
          let final_fcf := Projection.fcf last_projection in
          terminal_value <- DCFModel.calculate_terminal_value self final_fcf wacc ;;
          pv_terminal_value <-
            Py.div terminal_value
                   (pow (1 + wacc) (DCFModel.projection_years self)) ;;
          let enterprise_value := sum pv_cash_flows + pv_terminal_value in
          latest_year <- index (keys (FinancialData.total_debt fd)) 0 ;;
          debt <- getitem (FinancialData.total_debt fd) latest_year ;;
          cash <- getitem (FinancialData.cash fd) latest_year ;;
          let net_debt := debt - cash in
          let equity_value := enterprise_value - net_debt in
          positive <- gt0 shares_outstanding ;;
          value_per_share <-
            (if positive then div equity_value shares_outstanding else Ok 0) ;;
          let current_price := MarketData.current_price md in
          Ok (Some (Valuation.mk
                      enterprise_value
                      equity_value
                      value_per_share
                      current_price
                      (if Py.gt0 current_price
                       then (value_per_share - current_price) / current_price
                       else 0)
                      wacc
                      terminal_value
                      pv_terminal_value
                      (sum pv_cash_flows)
                      projections
                      wacc_data
                      averages))
      end
  | _, _ => Ok None
  end.

End RawQuote.

(** * Properties *)

(** ** Facts about the Python primitives *)

Lemma Qeq_bool_false (x y : Q) : ~ x == y -> Qeq_bool x y = false.
Proof.
  intro H. destruct (Qeq_bool x y) eqn:E; [|reflexivity].
  apply Qeq_bool_iff in E. contradiction.
Qed.

Lemma div_ok (a b : Q) : ~ b == 0 -> div a b = Ok (a / b).
Proof. intro H. unfold div. now rewrite (Qeq_bool_false _ _ H). Qed.

Lemma div_zero (a b : Q) : b == 0 -> div a b = Raise ZeroDivisionError.
Proof.
  intro H. unfold div. apply Qeq_bool_iff in H. now rewrite H.
Qed.

Lemma ne0_true (x : Q) : ne0 x = true <-> ~ x == 0.
Proof.
  unfold ne0. split.
  - intros H E. apply Qeq_bool_iff in E. rewrite E in H. discriminate.
  - intro H. now rewrite (Qeq_bool_false _ _ H).
Qed.

Lemma ne0_false (x : Q) : ne0 x = false <-> x == 0.
Proof.
  unfold ne0. rewrite negb_false_iff. apply Qeq_bool_iff.
Qed.

Lemma gt0_true (x : Q) : gt0 x = true <-> 0 < x.
Proof.
  unfold gt0. rewrite negb_true_iff. split.
  - intro H. apply Qnot_le_lt. intro L. apply Qle_bool_iff in L. congruence.
  - intro H. destruct (Qle_bool x 0) eqn:E; [|reflexivity].
    apply Qle_bool_iff in E. lra.
Qed.

Lemma gt0_false (x : Q) : gt0 x = false <-> x <= 0.
Proof.
  unfold gt0. rewrite negb_false_iff. apply Qle_bool_iff.
Qed.

Lemma for_each_appends {A B : Type} (xs : list A)
    (step : list B -> A -> result (list B)) (h : A -> list B) :
  (forall x acc, In x xs -> step acc x = Ok (acc ++ h x)) ->
  forall acc, for_each xs step acc = Ok (acc ++ flat_map h xs).
Proof.
  induction xs as [|x xs IH]; intros Hstep acc; simpl.
  - now rewrite app_nil_r.
  - rewrite (Hstep x acc (or_introl eq_refl)). simpl.
    rewrite IH by (intros; apply Hstep; now right).
    now rewrite app_assoc.
Qed.

Lemma fold_left_appends {A B : Type} (f : A -> B) (xs : list A) :
  forall acc, fold_left (fun acc x => acc ++ [f x]) xs acc = acc ++ map f xs.
Proof.
  induction xs as [|x xs IH]; intro acc; simpl.
  - now rewrite app_nil_r.
  - rewrite IH, <- app_assoc. reflexivity.
Qed.

Lemma getitem_lookup (d : Dict) (k : Period) :
  In k (keys d) -> getitem d k = Ok (lookup d k).
Proof.
  induction d as [|[k' v] d IH]; simpl; [tauto|].
  intros [E | H].
  - subst. now rewrite Z.eqb_refl.
  - destruct (Z.eqb k k'); [reflexivity | now apply IH].
Qed.

Lemma index_nth {A : Type} (l : list A) (i : nat) (d : A) :
  (i < List.length l)%nat -> index l (Z.of_nat i) = Ok (nth i l d).
Proof.
  intro H. unfold index.
  assert (N : (Z.of_nat i <? 0)%Z = false) by (apply Z.ltb_ge; lia).
  rewrite N; cbv zeta iota; rewrite N.
  rewrite Nat2Z.id.
  destruct (nth_error l i) eqn:E.
  - now rewrite (nth_error_nth _ _ d E).
  - apply nth_error_None in E. lia.
Qed.

Lemma index_last {A : Type} (l : list A) (d : A) :
  l <> [] -> index l (-1) = Ok (last l d).
Proof.
  intro H. destruct (exists_last H) as [l' [a E]]. subst l.
  rewrite last_last. unfold index. change (-1 <? 0)%Z with true.
  cbv zeta iota. rewrite last_length.
  replace (-1 + Z.of_nat (S (List.length l')))%Z
    with (Z.of_nat (List.length l')) by lia.
  assert (P : (Z.of_nat (List.length l') <? 0)%Z = false)
    by (apply Z.ltb_ge; lia).
  rewrite P, Nat2Z.id, nth_error_app2, Nat.sub_diag by lia.
  reflexivity.
Qed.

Lemma range_length (a b : Z) : List.length (range a b) = Z.to_nat (b - a).
Proof. unfold range. now rewrite length_map, length_seq. Qed.

Lemma range_nth (a b : Z) (i : nat) :
  (i < Z.to_nat (b - a))%nat -> nth i (range a b) 0%Z = (a + Z.of_nat i)%Z.
Proof.
  intro H. unfold range.
  set (f := fun i : nat => (a + Z.of_nat i)%Z).
  rewrite (nth_indep _ 0%Z (f 0%nat))
    by (rewrite length_map, length_seq; exact H).
  rewrite map_nth, seq_nth by exact H. reflexivity.
Qed.

Lemma in_range (a b x : Z) : In x (range a b) <-> (a <= x < b)%Z.
Proof.
  unfold range. rewrite in_map_iff. split.
  - intros [i [E H]]. apply in_seq in H. lia.
  - intro H. exists (Z.to_nat (x - a)). split; [lia|].
    apply in_seq. lia.
Qed.

(** ** The loops of [calculate_historical_averages] never raise *)

Lemma index_in_bounds (l : list Q) (i : Z) :
  (0 <= i < Z.of_nat (List.length l))%Z ->
  index l i = Ok (nth (Z.to_nat i) l 0).
Proof.
  intro H. rewrite <- (Z2Nat.id i) at 1 by lia.
  apply index_nth. lia.
Qed.

Lemma revenue_growth_loop (revenues : list Q) (acc : list Q) :
  for_each (range 0 (Z.of_nat (List.length revenues) - 1))
           (DCFModel.revenue_growth_step revenues) acc
  = Ok (acc ++ flat_map (growth_at revenues)
                        (range 0 (Z.of_nat (List.length revenues) - 1))).
Proof.
  apply for_each_appends. intros i rates Hi. apply in_range in Hi.
  unfold DCFModel.revenue_growth_step, growth_at.
  rewrite (index_in_bounds revenues (i + 1)) by lia. simpl bind.
  destruct (ne0 (nth (Z.to_nat (i + 1)) revenues 0)).
  - rewrite (index_in_bounds revenues i) by lia. reflexivity.
  - now rewrite app_nil_r.
Qed.

Section KeyedLoops.

Variable fd : FinancialData.t.
Hypothesis Hkeys : same_periods fd.

Let years := keys (FinancialData.revenue fd).

Lemma ebit_margin_loop (ys : list Period) (acc : list Q) :
  incl ys years ->
  for_each ys (DCFModel.ebit_margin_step fd) acc
  = Ok (acc ++ flat_map (margin_at fd) ys).
Proof.
  intro Hincl. apply for_each_appends. intros y margins Hy.
  destruct Hkeys as (He & _).
  unfold DCFModel.ebit_margin_step, margin_at.
  rewrite !getitem_lookup by (rewrite ?He; now apply Hincl).
  simpl bind. destruct (ne0 _); [reflexivity | now rewrite app_nil_r].
Qed.

Lemma tax_rate_loop (ys : list Period) (acc : list Q) :
  incl ys years ->
  for_each ys (DCFModel.tax_rate_step fd) acc
  = Ok (acc ++ flat_map (tax_at fd) ys).
Proof.
  intro Hincl. apply for_each_appends. intros y rates Hy.
  destruct Hkeys as (He & Ht & _).
  unfold DCFModel.tax_rate_step, tax_at.
  rewrite !getitem_lookup by (rewrite ?He, ?Ht; now apply Hincl).
  simpl bind. destruct (gt0 _); [reflexivity | now rewrite app_nil_r].
Qed.

Lemma capex_ratio_loop (ys : list Period) (acc : list Q) :
  incl ys years ->
  for_each ys (DCFModel.capex_ratio_step fd) acc
  = Ok (acc ++ flat_map (capex_at fd) ys).
Proof.
  intro Hincl. apply for_each_appends. intros y ratios Hy.
  destruct Hkeys as (_ & _ & Hc & _).
  unfold DCFModel.capex_ratio_step, capex_at.
  rewrite !getitem_lookup by (rewrite ?Hc; now apply Hincl).
  simpl bind. destruct (ne0 _); [reflexivity | now rewrite app_nil_r].
Qed.

Lemma historical_averages_total (self : DCFModel.t) :
  DCFModel.financial_data self = Some fd ->
  DCFModel.calculate_historical_averages self = Ok (Some (averages_of fd)).
Proof.
  intro Hfd. unfold DCFModel.calculate_historical_averages. rewrite Hfd.
  rewrite revenue_growth_loop. simpl bind.
  rewrite ebit_margin_loop by apply incl_refl. simpl bind.
  rewrite tax_rate_loop by apply incl_refl. simpl bind.
  rewrite capex_ratio_loop by apply incl_refl. simpl bind.
  reflexivity.
Qed.

End KeyedLoops.

(** ** Terminal value *)

(** C7. Whenever the WACC differs from the terminal growth rate,
    [calculate_terminal_value] returns
    [final_fcf * (1 + terminal growth) / (wacc - terminal growth)]; for a final
    FCF of 100, a WACC of 0.10 and a terminal growth of 0.025 that value lies
    within 0.01 of 1366.67. *)
Theorem C7_terminal_value_formula (self : DCFModel.t) (final_fcf wacc : Q) :
  ~ wacc == DCFModel.terminal_growth_rate self ->
  exists terminal_value,
    DCFModel.calculate_terminal_value self final_fcf wacc = Ok terminal_value
    /\ terminal_value
       == final_fcf * (1 + DCFModel.terminal_growth_rate self)
          / (wacc - DCFModel.terminal_growth_rate self)
    /\ (final_fcf == 100 -> wacc == 10 # 100 ->
        DCFModel.terminal_growth_rate self == 25 # 1000 ->
        Qabs (terminal_value - (136667 # 100)) <= 1 # 100).
Proof.
  intro Hspread.
  exists (final_fcf * (1 + DCFModel.terminal_growth_rate self)
          / (wacc - DCFModel.terminal_growth_rate self)).
  split; [|split].
  - unfold DCFModel.calculate_terminal_value. apply div_ok. lra.
  - reflexivity.
  - intros Hf Hw Hg. rewrite Hf, Hw, Hg.
    apply Qabs_Qle_condition. split; vm_compute; discriminate.
Qed.

(** C7 at the worked example: final FCF 100, WACC 0.10, terminal growth 0.025. *)
Lemma C7_terminal_value_witness :
  ~ (10 # 100)
    == DCFModel.terminal_growth_rate
         (Examples.model 5 (25 # 1000) Examples.growing Examples.quote)
  /\ exists terminal_value,
       DCFModel.calculate_terminal_value
         (Examples.model 5 (25 # 1000) Examples.growing Examples.quote)
         100 (10 # 100) = Ok terminal_value
       /\ Qabs (terminal_value - (136667 # 100)) <= 1 # 100.
Proof.
  assert (H : ~ (10 # 100)
                == DCFModel.terminal_growth_rate
                     (Examples.model 5 (25 # 1000) Examples.growing
                        Examples.quote))
    by (vm_compute; discriminate).
  split; [exact H|].
  destruct (C7_terminal_value_formula _ 100 (10 # 100) H) as (tv & E & _ & B).
  exists tv. split; [exact E|]. apply B; reflexivity.
Defined.

(** ** Capital weights and the zero-capital path of [calculate_wacc] *)

Lemma latest_debt (d : Dict) (latest : Period) (debt : Q) (rest : Dict) :
  d = (latest, debt) :: rest ->
  index (keys d) 0 = Ok latest /\ getitem d latest = Ok debt.
Proof.
  intros ->. split; [reflexivity|]. simpl. now rewrite Z.eqb_refl.
Qed.

(** C10 (amended). With a non-negative market capitalisation and a non-zero
    total capital, [calculate_wacc] returns the breakdown dict, whose equity
    and debt weights are [cap / (|debt| + cap)] and [|debt| / (|debt| + cap)],
    whatever the sign of the reported debt: each lies in [0, 1] and, in exact
    arithmetic, they sum to 1. *)
Theorem C10_capital_weights (self : WACCCalculator.t) (fd : FinancialData.t)
    (md : MarketData.t) (tax_rate : Q) (latest : Period) (debt : Q) (rest : Dict) :
  FinancialData.total_debt fd = (latest, debt) :: rest ->
  0 <= MarketData.market_cap md ->
  ~ Qabs debt + MarketData.market_cap md == 0 ->
  exists b,
    WACCCalculator.calculate_wacc self fd md tax_rate = Ok (WaccDict b)
    /\ WaccBreakdown.weight_equity b
       == MarketData.market_cap md / (Qabs debt + MarketData.market_cap md)
    /\ WaccBreakdown.weight_debt b
       == Qabs debt / (Qabs debt + MarketData.market_cap md)
    /\ 0 <= WaccBreakdown.weight_equity b <= 1
    /\ 0 <= WaccBreakdown.weight_debt b <= 1
    /\ WaccBreakdown.weight_equity b + WaccBreakdown.weight_debt b == 1.
Proof.
  intros Hd Hcap Htotal.
  destruct (latest_debt _ _ _ _ Hd) as [Hi Hg].
  unfold WACCCalculator.calculate_wacc. rewrite Hi. simpl bind.
  rewrite Hg. simpl bind. rewrite (Qeq_bool_false _ _ Htotal).
  eexists. split; [reflexivity|]. simpl.
  pose proof (Qabs_nonneg debt) as Hdebt.
  set (D := Qabs debt) in *. set (E := MarketData.market_cap md) in *.
  assert (Hpos : 0 < D + E) by lra.
  repeat split; try reflexivity.
  - apply Qle_shift_div_l; lra.
  - apply Qle_shift_div_r; lra.
  - apply Qle_shift_div_l; lra.
  - apply Qle_shift_div_r; lra.
  - field. lra.
Qed.

(** C10 on the sample statements: debt 50, market capitalisation 950. *)
Lemma C10_capital_weights_witness :
  FinancialData.total_debt Examples.growing
  = (2023%Z, 50) :: [(2022%Z, 0); (2021%Z, 0)]
  /\ 0 <= MarketData.market_cap Examples.quote
  /\ ~ Qabs 50 + MarketData.market_cap Examples.quote == 0
  /\ exists b,
       WACCCalculator.calculate_wacc WACCCalculator.init Examples.growing
         Examples.quote (25 # 100) = Ok (WaccDict b)
       /\ WaccBreakdown.weight_equity b + WaccBreakdown.weight_debt b == 1.
Proof.
  assert (H1 : FinancialData.total_debt Examples.growing
               = (2023%Z, 50) :: [(2022%Z, 0); (2021%Z, 0)]) by reflexivity.
  assert (H2 : 0 <= MarketData.market_cap Examples.quote)
    by (vm_compute; discriminate).
  assert (H3 : ~ Qabs 50 + MarketData.market_cap Examples.quote == 0)
    by (vm_compute; discriminate).
  repeat (split; [assumption|]).
  destruct (C10_capital_weights WACCCalculator.init _ _ (25 # 100) _ _ _
              H1 H2 H3) as (b & E & _ & _ & _ & _ & S).
  exists b. split; assumption.
Defined.

(** C10 as stated fails on the numbers Python computes with: for a total debt
    of 445.4 and a market capitalisation of 721.5 the two binary64 weights sum
    to the largest float below 1, not to 1. *)
Lemma C10_counterexample :
  PrimFloat.ltb Binary64.zero Binary64.fractional_market_cap = true
  /\ PrimFloat.eqb
       (Binary64.total_value Binary64.fractional_debt
          Binary64.fractional_market_cap) Binary64.zero = false
  /\ Binary64.fractional_weights_sum = Binary64.below_one
  /\ PrimFloat.eqb Binary64.fractional_weights_sum Binary64.one = false
  /\ PrimFloat.ltb Binary64.fractional_weights_sum Binary64.one = true.
Proof. repeat split; vm_compute; reflexivity. Qed.

(** C3. When the absolute latest debt plus the market capitalisation is zero,
    [calculate_wacc] returns the bare CAPM cost of equity
    [risk_free_rate + beta * market_risk_premium] and not the breakdown dict;
    [calculate_dcf_valuation], which subscripts the returned value with
    ['wacc'], then raises [TypeError]. *)
Theorem C3_zero_capital_returns_float (dcf : DCFModel.t) (fd : FinancialData.t)
    (md : MarketData.t) (tax_rate : Q) (latest : Period) (debt : Q) (rest : Dict) :
  DCFModel.financial_data dcf = Some fd ->
  DCFModel.market_data dcf = Some md ->
  same_periods fd ->
  FinancialData.total_debt fd = (latest, debt) :: rest ->
  Qabs debt + MarketData.market_cap md == 0 ->
  WACCCalculator.calculate_wacc (DCFModel.wacc_calculator dcf) fd md tax_rate
  = Ok (WaccFloat
          (WACCCalculator.risk_free_rate (DCFModel.wacc_calculator dcf)
           + MarketData.beta md
             * WACCCalculator.market_risk_premium (DCFModel.wacc_calculator dcf)))
  /\ DCFModel.calculate_dcf_valuation dcf = Raise TypeError.
Proof.
  intros Hfd Hmd Hkeys Hd Hzero.
  destruct (latest_debt _ _ _ _ Hd) as [Hi Hg].
  assert (Hw : forall tax,
             WACCCalculator.calculate_wacc (DCFModel.wacc_calculator dcf) fd md tax
             = Ok (WaccFloat
                     (WACCCalculator.risk_free_rate (DCFModel.wacc_calculator dcf)
                      + MarketData.beta md
                        * WACCCalculator.market_risk_premium
                            (DCFModel.wacc_calculator dcf)))).
  { intro tax. unfold WACCCalculator.calculate_wacc.
    rewrite Hi. simpl bind. rewrite Hg. simpl bind.
    apply Qeq_bool_iff in Hzero. now rewrite Hzero. }
  split; [apply Hw|].
  unfold DCFModel.calculate_dcf_valuation. rewrite Hfd, Hmd.
  rewrite (historical_averages_total fd Hkeys dcf Hfd). simpl bind.
  rewrite Hw. reflexivity.
Qed.

(** C3 on statements without debt and a quote without market capitalisation. *)
Lemma C3_zero_capital_witness :
  DCFModel.financial_data ZeroCapital.model = Some ZeroCapital.statements
  /\ DCFModel.market_data ZeroCapital.model = Some ZeroCapital.quote
  /\ same_periods ZeroCapital.statements
  /\ FinancialData.total_debt ZeroCapital.statements
     = (2023%Z, 0) :: [(2022%Z, 0); (2021%Z, 0)]
  /\ Qabs 0 + MarketData.market_cap ZeroCapital.quote == 0
  /\ WACCCalculator.calculate_wacc (DCFModel.wacc_calculator ZeroCapital.model)
       ZeroCapital.statements ZeroCapital.quote (25 # 100)
     = Ok (WaccFloat ((45 # 1000) + 1 * (65 # 1000)))
  /\ DCFModel.calculate_dcf_valuation ZeroCapital.model = Raise TypeError.
Proof.
  assert (H1 : DCFModel.financial_data ZeroCapital.model
               = Some ZeroCapital.statements) by reflexivity.
  assert (H2 : DCFModel.market_data ZeroCapital.model
               = Some ZeroCapital.quote) by reflexivity.
  assert (H3 : same_periods ZeroCapital.statements)
    by (repeat split; reflexivity).
  assert (H4 : FinancialData.total_debt ZeroCapital.statements
               = (2023%Z, 0) :: [(2022%Z, 0); (2021%Z, 0)]) by reflexivity.
  assert (H5 : Qabs 0 + MarketData.market_cap ZeroCapital.quote == 0)
    by reflexivity.
  repeat (split; [assumption|]).
  exact (C3_zero_capital_returns_float ZeroCapital.model _ _ (25 # 100) _ _ _
           H1 H2 H3 H4 H5).
Defined.

(** ** Sensitivity grid *)

Lemma flat_map_singleton {A B : Type} (f : A -> B) (xs : list A) :
  flat_map (fun x => [f x]) xs = map f xs.
Proof. induction xs; simpl; congruence. Qed.

Lemma adjusted_value_ok (valuation : Valuation.t) (wacc terminal_growth : Q) :
  ~ Valuation.wacc valuation == 0 ->
  Dashboard.adjusted_value valuation wacc terminal_growth
  = Ok (grid_cell valuation wacc terminal_growth).
Proof.
  intro H. unfold Dashboard.adjusted_value, Dashboard.wacc_impact.
  rewrite (div_ok _ _ H). reflexivity.
Qed.

Lemma sensitivity_grid_ok (valuation : Valuation.t) :
  ~ Valuation.wacc valuation == 0 ->
  Dashboard.sensitivity_grid valuation
  = Ok (map (fun wacc =>
               map (grid_cell valuation wacc) Dashboard.terminal_growth_range)
            Dashboard.wacc_range).
Proof.
  intro H. unfold Dashboard.sensitivity_grid.
  rewrite (for_each_appends Dashboard.wacc_range _
             (fun wacc => [map (grid_cell valuation wacc)
                               Dashboard.terminal_growth_range])).
  - rewrite (flat_map_singleton
               (fun wacc => map (grid_cell valuation wacc)
                                Dashboard.terminal_growth_range)).
    reflexivity.
  - intros wacc data _. unfold Dashboard.sensitivity_row.
    rewrite (for_each_appends Dashboard.terminal_growth_range _
               (fun g => [grid_cell valuation wacc g])).
    + rewrite (flat_map_singleton (grid_cell valuation wacc)). reflexivity.
    + intros g row _. now rewrite adjusted_value_ok.
Qed.




(** The same point on the numbers Python computes with: for a base WACC of
    0.10 and a base value per share of 20 the binary64 formula returns 20. *)
Lemma base_point_binary64 : PrimFloat.eqb Binary64.base_point Binary64.base_value = true.
Proof. vm_compute. reflexivity. Qed.

(** ** Projection and valuation: every step succeeds on ready inputs *)

Lemma range_snoc (a n : Z) : (a <= n)%Z -> range a (n + 1) = range a n ++ [n].
Proof.
  intro H. unfold range.
  replace (Z.to_nat (n + 1 - a)) with (S (Z.to_nat (n - a))) by lia.
  rewrite seq_S, map_app. simpl. do 2 f_equal. lia.
Qed.

Lemma projections_length (a : Averages.t) (r0 : Q) (n : Z) :
  List.length (projections_of a r0 n) = Z.to_nat n.
Proof.
  unfold projections_of. rewrite length_map, range_length. f_equal. lia.
Qed.

Lemma projections_last (a : Averages.t) (r0 : Q) (n : Z) (d : Projection.t) :
  (1 <= n)%Z -> last (projections_of a r0 n) d = DCFModel.project_year a r0 n.
Proof.
  intro H. unfold projections_of.
  rewrite range_snoc, map_app by lia. apply last_last.
Qed.

Lemma projections_nth (a : Averages.t) (r0 : Q) (n k : Z) :
  (1 <= k <= n)%Z ->
  nth_error (projections_of a r0 n) (Z.to_nat (k - 1))
  = Some (DCFModel.project_year a r0 k).
Proof.
  intro H. unfold projections_of.
  rewrite nth_error_map.
  rewrite (nth_error_nth' _ 0%Z) by (rewrite range_length; lia).
  rewrite range_nth by lia.
  replace (1 + Z.of_nat (Z.to_nat (k - 1)))%Z with k by lia. reflexivity.
Qed.

Lemma keys_nil (d : Dict) : keys d = [] -> d = [].
Proof. destruct d; [reflexivity | discriminate]. Qed.

Lemma project_cash_flows_ok (self : DCFModel.t) (fd : FinancialData.t) :
  DCFModel.financial_data self = Some fd ->
  same_periods fd ->
  FinancialData.revenue fd <> [] ->
  DCFModel.project_cash_flows self
  = Ok (Some (projections_of (averages_of fd) (base_revenue_of fd)
                (DCFModel.projection_years self))).
Proof.
  intros Hfd Hk Hne. unfold DCFModel.project_cash_flows.
  rewrite (historical_averages_total fd Hk self Hfd). cbn [bind]. rewrite Hfd.
  unfold base_revenue_of.
  destruct (FinancialData.revenue fd) as [|[k v] r]; [congruence|].
  change (index (values ((k, v) :: r)) 0) with (Ok (A := Q) v).
  cbn [bind values map hd snd]. rewrite fold_left_appends. reflexivity.
Qed.

Lemma valuation_returns (self : DCFModel.t) (fd : FinancialData.t)
    (md : MarketData.t) (a : Averages.t) (b : WaccBreakdown.t) :
  valuation_ready self fd md a b ->
  exists v,
    DCFModel.calculate_dcf_valuation self = Ok (Some v)
    /\ Valuation.wacc v = WaccBreakdown.wacc b
    /\ Valuation.wacc_breakdown v = WaccDict b
    /\ Valuation.assumptions v = Some a
    /\ Valuation.projections v
       = projections_of a (base_revenue_of fd) (DCFModel.projection_years self)
    /\ Valuation.terminal_value v
       = final_fcf_of a fd (DCFModel.projection_years self)
         * (1 + DCFModel.terminal_growth_rate self)
         / (WaccBreakdown.wacc b - DCFModel.terminal_growth_rate self)
    /\ Valuation.pv_terminal_value v
       = Valuation.terminal_value v
         / pow (1 + WaccBreakdown.wacc b) (DCFModel.projection_years self)
    /\ Valuation.pv_cash_flows v
       = sum (map (discounted (WaccBreakdown.wacc b)) (Valuation.projections v))
    /\ Valuation.enterprise_value v
       = Valuation.pv_cash_flows v + Valuation.pv_terminal_value v
    /\ Valuation.equity_value v = Valuation.enterprise_value v - net_debt_of fd
    /\ Valuation.value_per_share v
       = (if gt0 (MarketData.shares_outstanding md)
          then Valuation.equity_value v / MarketData.shares_outstanding md
          else 0)
    /\ Valuation.current_price v = MarketData.current_price md
    /\ Valuation.upside_downside v
       = (if gt0 (MarketData.current_price md)
          then (Valuation.value_per_share v - MarketData.current_price md)
               / MarketData.current_price md
          else 0).
Proof.
  intros (Hfd & Hmd & Hk & Hne & Ha & Hw & HN & H1 & Hs).
  pose proof (historical_averages_total fd Hk self Hfd) as Ha'.
  rewrite Ha' in Ha. injection Ha as <-.
  unfold DCFModel.calculate_dcf_valuation. rewrite Hfd, Hmd, Ha'.
  cbn [bind]. rewrite Hw. cbn [bind subscript_wacc].
  rewrite (project_cash_flows_ok self fd Hfd Hk Hne). cbn [bind].
  set (wacc := WaccBreakdown.wacc b) in *.
  set (n := DCFModel.projection_years self) in *.
  unfold final_fcf_of.
  rewrite <- (projections_last (averages_of fd) (base_revenue_of fd) n
                (DCFModel.project_year (averages_of fd) 0 0) HN).
  pose proof (projections_length (averages_of fd) (base_revenue_of fd) n) as Hlen.
  set (ps := projections_of (averages_of fd) (base_revenue_of fd) n) in *.
  destruct ps as [|p ps'] eqn:Eps; [simpl in Hlen; lia|].
  rewrite <- Eps. clearbody ps.
  rewrite (for_each_appends ps _ (fun p => [discounted wacc p])).
  2:{ intros x acc _. unfold DCFModel.pv_step, discounted.
      rewrite div_ok by (apply Qpower_not_0; exact H1). reflexivity. }
  cbn [bind app]. rewrite flat_map_singleton.
  rewrite (index_last ps (DCFModel.project_year (averages_of fd) 0 0))
    by (rewrite Eps; discriminate).
  cbn [bind]. unfold DCFModel.calculate_terminal_value.
  rewrite div_ok by lra. cbn [bind].
  rewrite div_ok by (apply Qpower_not_0; exact H1). cbn [bind].
  destruct Hk as (_ & _ & _ & Hdebt & Hcash).
  unfold net_debt_of.
  destruct (FinancialData.total_debt fd) as [|[latest debt] rest] eqn:Ed.
  { symmetry in Hdebt. apply keys_nil in Hdebt. contradiction. }
  change (index (keys ((latest, debt) :: rest)) 0) with (Ok (A := Period) latest).
  cbn [bind getitem hd keys map fst lookup]. rewrite Z.eqb_refl. cbn [bind].
  rewrite getitem_lookup by (rewrite Hcash, <- Hdebt; now left).
  cbn [bind]. eexists. split; [reflexivity|].
  cbn. repeat split; reflexivity.
Qed.

(** ** Projection *)

(** C2. Given the historical averages [a] and the most recent revenue [R0],
    [project_cash_flows] returns exactly [N] entries for a horizon [N >= 0];
    the entry of year [k] is [project_year a R0 k], a function of the
    averages, [R0] and [k] alone, and its fields obey the projection
    formulas. *)
Theorem C2_projection_formulas (self : DCFModel.t) (fd : FinancialData.t)
    (a : Averages.t) (R0 : Q) (older : list Q) :
  DCFModel.financial_data self = Some fd ->
  DCFModel.calculate_historical_averages self = Ok (Some a) ->
  values (FinancialData.revenue fd) = R0 :: older ->
  (0 <= DCFModel.projection_years self)%Z ->
  exists projections,
    DCFModel.project_cash_flows self = Ok (Some projections)
    /\ Z.of_nat (List.length projections) = DCFModel.projection_years self
    /\ forall k, (1 <= k <= DCFModel.projection_years self)%Z ->
         exists p,
           nth_error projections (Z.to_nat (k - 1)) = Some p
           /\ p = DCFModel.project_year a R0 k
           /\ Projection.year p = k
           /\ Projection.revenue p == R0 * (1 + Averages.revenue_growth a) ^ k
           /\ Projection.ebit p == Projection.revenue p * Averages.ebit_margin a
           /\ Projection.nopat p == Projection.ebit p * (1 - Averages.tax_rate a)
           /\ Projection.capex p == Projection.revenue p * Averages.capex_ratio a
           /\ Projection.depreciation p == Projection.revenue p * (3 # 100)
           /\ Projection.change_in_wc p == Projection.revenue p * (2 # 100)
           /\ Projection.fcf p
              == Projection.nopat p + Projection.depreciation p
                 - Projection.capex p - Projection.change_in_wc p.
Proof.
  intros Hfd Ha Hr HN.
  exists (projections_of a R0 (DCFModel.projection_years self)).
  split; [|split].
  - unfold DCFModel.project_cash_flows. rewrite Ha. cbn [bind]. rewrite Hfd, Hr.
    change (index (R0 :: older) 0) with (Ok (A := Q) R0). cbn [bind].
    rewrite fold_left_appends. reflexivity.
  - rewrite projections_length. lia.
  - intros k Hk. exists (DCFModel.project_year a R0 k).
    split; [now apply projections_nth|].
    repeat split; reflexivity.
Qed.

(** C2 on the sample statements with a horizon of five years. *)
Lemma C2_projection_formulas_witness :
  DCFModel.financial_data
    (Examples.model 5 (25 # 1000) Examples.growing Examples.quote)
  = Some Examples.growing
  /\ DCFModel.calculate_historical_averages
       (Examples.model 5 (25 # 1000) Examples.growing Examples.quote)
     = Ok (Some (averages_of Examples.growing))
  /\ values (FinancialData.revenue Examples.growing) = 121 :: [110; 100]
  /\ (0 <= DCFModel.projection_years
             (Examples.model 5 (25 # 1000) Examples.growing Examples.quote))%Z
  /\ exists projections,
       DCFModel.project_cash_flows
         (Examples.model 5 (25 # 1000) Examples.growing Examples.quote)
       = Ok (Some projections)
       /\ Z.of_nat (List.length projections) = 5%Z.
Proof.
  assert (H1 : DCFModel.financial_data
                 (Examples.model 5 (25 # 1000) Examples.growing Examples.quote)
               = Some Examples.growing) by reflexivity.
  assert (H2 : DCFModel.calculate_historical_averages
                 (Examples.model 5 (25 # 1000) Examples.growing Examples.quote)
               = Ok (Some (averages_of Examples.growing)))
    by (vm_compute; reflexivity).
  assert (H3 : values (FinancialData.revenue Examples.growing)
               = 121 :: [110; 100]) by reflexivity.
  assert (H4 : (0 <= DCFModel.projection_years
                        (Examples.model 5 (25 # 1000) Examples.growing
                           Examples.quote))%Z) by (simpl; lia).
  repeat (split; [assumption|]).
  destruct (C2_projection_formulas _ _ _ _ _ H1 H2 H3 H4) as (ps & E & L & _).
  exists ps. split; assumption.
Defined.

(** ** Fallback constants *)

Lemma flat_map_nil {A B : Type} (h : A -> list B) (xs : list A) :
  (forall x, In x xs -> h x = []) -> flat_map h xs = [].
Proof.
  induction xs as [|x xs IH]; intro H; simpl; [reflexivity|].
  rewrite (H x (or_introl eq_refl)), IH; [reflexivity|].
  intros; apply H; now right.
Qed.

Lemma nth_all_zero (l : list Q) (i : nat) :
  (forall x, In x l -> x == 0) -> nth i l 0 == 0.
Proof.
  intro H. destruct (nth_in_or_default i l 0) as [Hin | ->];
    [now apply H | reflexivity].
Qed.

Lemma lookup_all (P : Q -> Prop) (d : Dict) (k : Period) :
  P 0 -> (forall year amount, In (year, amount) d -> P amount) -> P (lookup d k).
Proof.
  intros H0. induction d as [|[k' v] d IH]; intro H; simpl; [exact H0|].
  destruct (Z.eqb k k').
  - apply (H k'). now left.
  - apply IH. intros y x Hin. apply (H y). now right.
Qed.

Lemma values_all (P : Q -> Prop) (d : Dict) :
  (forall year amount, In (year, amount) d -> P amount) ->
  forall x, In x (values d) -> P x.
Proof.
  intros H x Hin. unfold values in Hin. apply in_map_iff in Hin.
  destruct Hin as [[y v] [E Hin]]. simpl in E. subst. now apply (H y).
Qed.

(** C5 as stated fails: no revenue in any period, yet a positive EBIT of 100
    taxed 30 gives a tax rate of 0.3. *)
Lemma C5_counterexample :
  (forall year amount,
      In (year, amount) (FinancialData.revenue NoRevenue.statements) ->
      amount == 0)
  /\ exists a,
       DCFModel.calculate_historical_averages NoRevenue.model = Ok (Some a)
       /\ Averages.tax_rate a == 30 # 100
       /\ ~ Averages.tax_rate a == 25 # 100.
Proof.
  split.
  - intros year amount Hin. simpl in Hin.
    repeat (destruct Hin as [E | Hin]; [injection E as _ <-; reflexivity|]).
    contradiction.
  - eexists. split; [vm_compute; reflexivity|].
    split; vm_compute; [reflexivity | discriminate].
Qed.

(** C5 (amended). When every period's revenue is zero,
    [calculate_historical_averages] returns revenue growth 0.05, EBIT margin
    0.15 and capex ratio 0.05.  The tax rate does not depend on revenue: it is
    the mean of [|tax expense| / EBIT] over the periods with a strictly
    positive EBIT, and 0.25 when no period has one. *)
Theorem C5_zero_revenue_fallbacks (self : DCFModel.t) (fd : FinancialData.t) :
  DCFModel.financial_data self = Some fd ->
  same_periods fd ->
  (forall year amount,
      In (year, amount) (FinancialData.revenue fd) -> amount == 0) ->
  exists a,
    DCFModel.calculate_historical_averages self = Ok (Some a)
    /\ Averages.revenue_growth a = 5 # 100
    /\ Averages.ebit_margin a = 15 # 100
    /\ Averages.capex_ratio a = 5 # 100
    /\ Averages.tax_rate a
       = DCFModel.mean_or
           (flat_map (tax_at fd) (keys (FinancialData.revenue fd))) (25 # 100)
    /\ ((forall year amount,
            In (year, amount) (FinancialData.ebit fd) -> amount <= 0) ->
        Averages.tax_rate a = 25 # 100).
Proof.
  intros Hfd Hk Hzero. exists (averages_of fd).
  split; [now apply historical_averages_total|].
  assert (Hlookup : forall year, ne0 (lookup (FinancialData.revenue fd) year) = false).
  { intro year. apply ne0_false.
    apply (lookup_all (fun x => x == 0)); [reflexivity | exact Hzero]. }
  unfold averages_of. cbn [Averages.revenue_growth Averages.ebit_margin
                           Averages.capex_ratio Averages.tax_rate].
  repeat split.
  - rewrite flat_map_nil; [reflexivity|].
    intros i _. unfold growth_at.
    assert (E : ne0 (nth (Z.to_nat (i + 1))
                         (values (FinancialData.revenue fd)) 0) = false).
    { apply ne0_false, nth_all_zero.
      apply (values_all (fun x => x == 0)), Hzero. }
    now rewrite E.
  - rewrite flat_map_nil; [reflexivity|].
    intros year _. unfold margin_at. now rewrite Hlookup.
  - rewrite flat_map_nil; [reflexivity|].
    intros year _. unfold capex_at. now rewrite Hlookup.
  - intro Hebit. rewrite flat_map_nil; [reflexivity|].
    intros year _. unfold tax_at.
    assert (E : gt0 (lookup (FinancialData.ebit fd) year) = false).
    { apply gt0_false.
      apply (lookup_all (fun x => x <= 0)); [apply Qle_refl | exact Hebit]. }
    now rewrite E.
Qed.

(** C5 (amended) on statements with neither revenue nor a positive EBIT. *)
Lemma C5_zero_revenue_fallbacks_witness :
  DCFModel.financial_data NoRevenue.idle_model = Some NoRevenue.idle_statements
  /\ same_periods NoRevenue.idle_statements
  /\ (forall year amount,
         In (year, amount) (FinancialData.revenue NoRevenue.idle_statements) ->
         amount == 0)
  /\ (forall year amount,
         In (year, amount) (FinancialData.ebit NoRevenue.idle_statements) ->
         amount <= 0)
  /\ exists a,
       DCFModel.calculate_historical_averages NoRevenue.idle_model
       = Ok (Some a)
       /\ Averages.revenue_growth a = 5 # 100
       /\ Averages.ebit_margin a = 15 # 100
       /\ Averages.capex_ratio a = 5 # 100
       /\ Averages.tax_rate a = 25 # 100.
Proof.
  assert (H1 : DCFModel.financial_data NoRevenue.idle_model
               = Some NoRevenue.idle_statements) by reflexivity.
  assert (H2 : same_periods NoRevenue.idle_statements)
    by (repeat split; reflexivity).
  assert (H3 : forall year amount,
             In (year, amount) (FinancialData.revenue NoRevenue.idle_statements) ->
             amount == 0).
  { intros year amount Hin. simpl in Hin.
    repeat (destruct Hin as [E | Hin]; [injection E as _ <-; reflexivity|]).
    contradiction. }
  assert (H4 : forall year amount,
             In (year, amount) (FinancialData.ebit NoRevenue.idle_statements) ->
             amount <= 0).
  { intros year amount Hin. simpl in Hin.
    repeat (destruct Hin as [E | Hin];
            [injection E as _ <-; vm_compute; discriminate|]).
    contradiction. }
  repeat (split; [assumption|]).
  destruct (C5_zero_revenue_fallbacks _ _ H1 H2 H3)
    as (a & Ea & Eg & Em & Ec & _ & Et).
  exists a. repeat split; try assumption. exact (Et H4).
Defined.

(** ** The revenue-growth loop against the specification's wording *)

Lemma growth_at_shift (x : Q) (l : list Q) (i : nat) :
  growth_at (x :: l) (Z.of_nat (S i)) = growth_at l (Z.of_nat i).
Proof.
  unfold growth_at.
  replace (Z.to_nat (Z.of_nat (S i) + 1)) with (S (Z.to_nat (Z.of_nat i + 1)))
    by lia.
  replace (Z.to_nat (Z.of_nat (S i))) with (S (Z.to_nat (Z.of_nat i))) by lia.
  reflexivity.
Qed.

Lemma growth_at_head (this next : Q) (l : list Q) :
  growth_at (this :: next :: l) (Z.of_nat 0)
  = if ne0 next then [(this - next) / Qabs next] else [].
Proof. reflexivity. Qed.

Lemma latest_first_pairs_cons (this next : Q) (l : list Q) :
  latest_first_pairs (this :: next :: l)
  = (next, this) :: latest_first_pairs (next :: l).
Proof. reflexivity. Qed.

Lemma growth_loop_pairs (revenues : list Q) :
  flat_map (growth_at revenues)
           (range 0 (Z.of_nat (List.length revenues) - 1))
  = map (Spec.growth_ratio Spec.by_abs_older_revenue)
        (filter Spec.qualifying (latest_first_pairs revenues)).
Proof.
  unfold range. rewrite Z.sub_0_r.
  replace (Z.to_nat (Z.of_nat (List.length revenues) - 1))
    with (List.length revenues - 1)%nat by lia.
  rewrite (map_ext _ Z.of_nat) by reflexivity.
  induction revenues as [|this older IH]; [reflexivity|].
  destruct older as [|next older']; [reflexivity|].
  replace (List.length (this :: next :: older') - 1)%nat
    with (S (List.length (next :: older') - 1)) by (simpl; lia).
  rewrite <- cons_seq, <- seq_shift, map_cons, map_map.
  cbn [flat_map].
  rewrite flat_map_concat_map, map_map.
  rewrite (map_ext _ (fun i => growth_at (next :: older') (Z.of_nat i)))
    by (intro i; apply growth_at_shift).
  rewrite <- (map_map Z.of_nat (growth_at (next :: older'))).
  rewrite <- flat_map_concat_map, IH.
  rewrite growth_at_head, latest_first_pairs_cons.
  cbn [filter]. unfold Spec.qualifying at 2. cbn [fst].
  destruct (ne0 next); reflexivity.
Qed.

Lemma adjacent_pairs_cons (older newer : Q) (l : list Q) :
  Spec.adjacent_pairs (older :: newer :: l)
  = (older, newer) :: Spec.adjacent_pairs (newer :: l).
Proof. reflexivity. Qed.

Lemma adjacent_pairs_snoc (c : list Q) (y x : Q) :
  Spec.adjacent_pairs (c ++ [y; x]) = Spec.adjacent_pairs (c ++ [y]) ++ [(y, x)].
Proof.
  induction c as [|z c IH]; [reflexivity|].
  destruct c as [|w c']; [reflexivity|].
  change ((z :: w :: c') ++ [y; x]) with (z :: w :: (c' ++ [y; x])).
  change ((z :: w :: c') ++ [y]) with (z :: w :: (c' ++ [y])).
  rewrite !adjacent_pairs_cons.
  change (w :: c' ++ [y; x]) with ((w :: c') ++ [y; x]).
  change (w :: c' ++ [y]) with ((w :: c') ++ [y]).
  now rewrite IH.
Qed.

Lemma adjacent_pairs_rev (revenues : list Q) :
  Spec.adjacent_pairs (rev revenues) = rev (latest_first_pairs revenues).
Proof.
  induction revenues as [|this older IH]; [reflexivity|].
  destruct older as [|next older']; [reflexivity|].
  cbn [latest_first_pairs rev] in *.
  rewrite <- app_assoc. cbn [app].
  now rewrite adjacent_pairs_snoc, IH.
Qed.

Lemma spec_ratios_rev (denominator : Q -> Q) (revenues : list Q) :
  map (Spec.growth_ratio denominator)
      (filter Spec.qualifying (Spec.adjacent_pairs (rev revenues)))
  = rev (map (Spec.growth_ratio denominator)
             (filter Spec.qualifying (latest_first_pairs revenues))).
Proof.
  now rewrite adjacent_pairs_rev, filter_rev, map_rev.
Qed.

Lemma fold_left_Qplus_wd (xs : list Q) (a b : Q) :
  a == b -> fold_left (fun x y => y + x) xs a == fold_left Qplus xs b.
Proof.
  revert a b. induction xs as [|x xs IH]; intros a b E; simpl; [exact E|].
  apply IH. rewrite E. ring.
Qed.

Lemma arithmetic_mean_rev (xs : list Q) :
  Spec.arithmetic_mean (rev xs) == mean xs.
Proof.
  unfold Spec.arithmetic_mean, mean, sum.
  rewrite length_rev, fold_left_rev_right.
  now rewrite (fold_left_Qplus_wd xs 0 0).
Qed.

Lemma mean_or_rev (xs : list Q) (default : Q) :
  match rev xs with
  | [] => default
  | _ :: _ => Spec.arithmetic_mean (rev xs)
  end == DCFModel.mean_or xs default.
Proof.
  destruct xs as [|x xs]; [reflexivity|].
  unfold DCFModel.mean_or. rewrite <- arithmetic_mean_rev.
  destruct (rev (x :: xs)) eqn:E; [|reflexivity].
  apply (f_equal (@List.length Q)) in E. rewrite length_rev in E. discriminate.
Qed.

Lemma revenue_growth_refines (fd : FinancialData.t) :
  Averages.revenue_growth (averages_of fd)
  == Spec.average_revenue_growth Spec.by_abs_older_revenue
       (values (FinancialData.revenue fd)).
Proof.
  unfold averages_of, Spec.average_revenue_growth.
  cbn [Averages.revenue_growth]. cbv zeta.
  rewrite growth_loop_pairs, spec_ratios_rev.
  symmetry. apply mean_or_rev.
Qed.

Lemma adjacent_pairs_in (c : list Q) (pair : Q * Q) :
  In pair (Spec.adjacent_pairs c) -> In (fst pair) c.
Proof.
  induction c as [|older c IH]; [contradiction|].
  destruct c as [|newer c']; [contradiction|].
  rewrite adjacent_pairs_cons. intros [<- | H]; [now left|].
  right. now apply IH.
Qed.

Lemma arithmetic_mean_map_wd {A : Type} (f g : A -> Q) (xs : list A) :
  (forall x, In x xs -> f x == g x) ->
  Spec.arithmetic_mean (map f xs) == Spec.arithmetic_mean (map g xs).
Proof.
  intro H. unfold Spec.arithmetic_mean. rewrite !length_map.
  assert (E : fold_right Qplus 0 (map f xs) == fold_right Qplus 0 (map g xs)).
  { induction xs as [|x xs IH]; [reflexivity|]. simpl.
    rewrite (H x (or_introl eq_refl)), IH; [reflexivity|].
    intros; apply H; now right. }
  now rewrite E.
Qed.

Lemma average_revenue_growth_nonneg (revenues : list Q) :
  (forall x, In x revenues -> 0 <= x) ->
  Spec.average_revenue_growth Spec.by_abs_older_revenue revenues
  == Spec.average_revenue_growth Spec.by_older_revenue revenues.
Proof.
  intro Hpos. unfold Spec.average_revenue_growth. cbv zeta.
  set (pairs := filter Spec.qualifying (Spec.adjacent_pairs (rev revenues))).
  assert (H : forall pair, In pair pairs ->
                Spec.growth_ratio Spec.by_abs_older_revenue pair
                == Spec.growth_ratio Spec.by_older_revenue pair).
  { intros pair Hin. apply filter_In in Hin. destruct Hin as [Hin _].
    apply adjacent_pairs_in, in_rev, Hpos in Hin.
    unfold Spec.growth_ratio, Spec.by_abs_older_revenue, Spec.by_older_revenue.
    now rewrite Qabs_pos. }
  destruct pairs as [|pair pairs'] eqn:E; [reflexivity|].
  change (Spec.arithmetic_mean
            (map (Spec.growth_ratio Spec.by_abs_older_revenue) (pair :: pairs'))
          == Spec.arithmetic_mean
               (map (Spec.growth_ratio Spec.by_older_revenue) (pair :: pairs'))).
  now apply arithmetic_mean_map_wd.
Qed.

(** C4 as stated fails: with revenues 10 (newer) and -5 (older) the loop
    yields (10 - (-5)) / |-5| = 3, the ratio over the older revenue is -3. *)
Lemma C4_counterexample :
  exists a,
    DCFModel.calculate_historical_averages NegativeRevenue.model = Ok (Some a)
    /\ Averages.revenue_growth a == 3
    /\ Spec.average_revenue_growth Spec.by_older_revenue
         (values (FinancialData.revenue NegativeRevenue.statements)) == -3
    /\ ~ Averages.revenue_growth a
         == Spec.average_revenue_growth Spec.by_older_revenue
              (values (FinancialData.revenue NegativeRevenue.statements)).
Proof.
  eexists. split; [vm_compute; reflexivity|].
  repeat split; vm_compute; solve [reflexivity | discriminate].
Qed.

(** C4 (amended). The computed average revenue growth is the arithmetic mean,
    over the adjacent period pairs (older, newer) whose older revenue is not
    zero, of (newer revenue - older revenue) divided by the absolute value of
    the older revenue, and 0.05 when no pair qualifies; when no revenue is
    negative this is the same as dividing by the older revenue itself. *)
Theorem C4_revenue_growth_mean (self : DCFModel.t) (fd : FinancialData.t) :
  DCFModel.financial_data self = Some fd ->
  same_periods fd ->
  exists a,
    DCFModel.calculate_historical_averages self = Ok (Some a)
    /\ Averages.revenue_growth a
       == Spec.average_revenue_growth Spec.by_abs_older_revenue
            (values (FinancialData.revenue fd))
    /\ ((forall x, In x (values (FinancialData.revenue fd)) -> 0 <= x) ->
        Averages.revenue_growth a
        == Spec.average_revenue_growth Spec.by_older_revenue
             (values (FinancialData.revenue fd))).
Proof.
  intros Hfd Hk. exists (averages_of fd).
  split; [now apply historical_averages_total|].
  split; [apply revenue_growth_refines|].
  intro Hpos. rewrite revenue_growth_refines.
  now apply average_revenue_growth_nonneg.
Qed.

(** C4 (amended) on the sample statements, whose revenues are positive. *)
Lemma C4_revenue_growth_mean_witness :
  DCFModel.financial_data
    (Examples.model 5 (25 # 1000) Examples.growing Examples.quote)
  = Some Examples.growing
  /\ same_periods Examples.growing
  /\ (forall x, In x (values (FinancialData.revenue Examples.growing)) -> 0 <= x)
  /\ exists a,
       DCFModel.calculate_historical_averages
         (Examples.model 5 (25 # 1000) Examples.growing Examples.quote)
       = Ok (Some a)
       /\ Averages.revenue_growth a
          == Spec.average_revenue_growth Spec.by_abs_older_revenue
               (values (FinancialData.revenue Examples.growing))
       /\ Averages.revenue_growth a
          == Spec.average_revenue_growth Spec.by_older_revenue
               (values (FinancialData.revenue Examples.growing)).
Proof.
  assert (H1 : DCFModel.financial_data
                 (Examples.model 5 (25 # 1000) Examples.growing Examples.quote)
               = Some Examples.growing) by reflexivity.
  assert (H2 : same_periods Examples.growing) by (repeat split; reflexivity).
  assert (H3 : forall x,
             In x (values (FinancialData.revenue Examples.growing)) -> 0 <= x).
  { intros x Hin. simpl in Hin.
    repeat (destruct Hin as [<- | Hin]; [vm_compute; discriminate|]).
    contradiction. }
  repeat (split; [assumption|]).
  destruct (C4_revenue_growth_mean _ _ H1 H2) as (a & Ea & Eg & Ec).
  exists a. repeat split; [exact Ea | exact Eg | exact (Ec H3)].
Defined.

(** ** Discount spread *)

Lemma Qdiv_pos_neg (x y : Q) : 0 < x -> y < 0 -> x / y < 0.
Proof.
  intros Hx Hy.
  assert (H : 0 < x / - y) by (apply Qlt_shift_div_l; lra).
  assert (E : x / y == - (x / - y)) by (field; lra).
  rewrite E. lra.
Qed.

(** C1 as stated fails: with a terminal growth rate of 15% above the WACC of
    3511/33000 a valuation is returned, and its terminal value is negative. *)
Lemma C1_counterexample :
  exists v,
    DCFModel.calculate_dcf_valuation HighGrowth.model = Ok (Some v)
    /\ Valuation.wacc v <= DCFModel.terminal_growth_rate HighGrowth.model
    /\ Valuation.terminal_value v < 0
    /\ DCFModel.calculate_terminal_value HighGrowth.model
         (final_fcf_of (averages_of Examples.growing) Examples.growing 5)
         (Valuation.wacc v)
       = Ok (Valuation.terminal_value v).
Proof.
  eexists. split; [vm_compute; reflexivity|].
  repeat split; vm_compute; solve [reflexivity | discriminate].
Qed.

(** C1 (amended). No spread check is made.  When the WACC is strictly below
    the terminal growth rate and the other steps of the valuation succeed,
    [calculate_terminal_value] returns the quotient
    [final_fcf * (1 + g) / (wacc - g)] and [calculate_dcf_valuation] returns a
    computed valuation carrying it; that terminal value is negative whenever
    [final_fcf * (1 + g)] is positive. *)
Theorem C1_no_spread_check (self : DCFModel.t) (fd : FinancialData.t)
    (md : MarketData.t) (a : Averages.t) (b : WaccBreakdown.t) :
  valuation_ready self fd md a b ->
  WaccBreakdown.wacc b < DCFModel.terminal_growth_rate self ->
  exists v,
    DCFModel.calculate_dcf_valuation self = Ok (Some v)
    /\ Valuation.wacc v = WaccBreakdown.wacc b
    /\ DCFModel.calculate_terminal_value self
         (final_fcf_of a fd (DCFModel.projection_years self)) (Valuation.wacc v)
       = Ok (Valuation.terminal_value v)
    /\ Valuation.terminal_value v
       == final_fcf_of a fd (DCFModel.projection_years self)
          * (1 + DCFModel.terminal_growth_rate self)
          / (Valuation.wacc v - DCFModel.terminal_growth_rate self)
    /\ (0 < final_fcf_of a fd (DCFModel.projection_years self)
            * (1 + DCFModel.terminal_growth_rate self) ->
        Valuation.terminal_value v < 0).
Proof.
  intros Hready Hlt.
  destruct (valuation_returns _ _ _ _ _ Hready)
    as (v & Ev & Ew & _ & _ & _ & Et & _).
  exists v. rewrite Ew, Et. repeat split.
  - exact Ev.
  - unfold DCFModel.calculate_terminal_value. apply div_ok. lra.
  - intro Hpos. apply Qdiv_pos_neg; lra.
Qed.

Ltac evaluate :=
  solve [ reflexivity | discriminate | lia
        | vm_compute; solve [reflexivity | discriminate] ].

Ltac ready := unfold valuation_ready, same_periods; repeat split; evaluate.

(** C1 (amended) on the same request. *)
Lemma C1_no_spread_check_witness :
  valuation_ready HighGrowth.model Examples.growing Examples.quote
    (averages_of Examples.growing) (breakdown HighGrowth.model)
  /\ WaccBreakdown.wacc (breakdown HighGrowth.model)
     < DCFModel.terminal_growth_rate HighGrowth.model
  /\ exists v,
       DCFModel.calculate_dcf_valuation HighGrowth.model = Ok (Some v)
       /\ Valuation.terminal_value v < 0.
Proof.
  assert (H1 : valuation_ready HighGrowth.model Examples.growing Examples.quote
                 (averages_of Examples.growing) (breakdown HighGrowth.model))
    by ready.
  assert (H2 : WaccBreakdown.wacc (breakdown HighGrowth.model)
               < DCFModel.terminal_growth_rate HighGrowth.model) by evaluate.
  repeat (split; [assumption|]).
  destruct (C1_no_spread_check _ _ _ _ _ H1 H2) as (v & Ev & _ & _ & _ & Hneg).
  exists v. split; [exact Ev|]. apply Hneg. evaluate.
Defined.

(** ** Guarded quotients of the valuation *)

Lemma averages_with_quote (self : DCFModel.t) (s p : Q) :
  DCFModel.calculate_historical_averages (with_quote self s p)
  = DCFModel.calculate_historical_averages self.
Proof. reflexivity. Qed.

Lemma projections_with_quote (self : DCFModel.t) (s p : Q) :
  DCFModel.project_cash_flows (with_quote self s p)
  = DCFModel.project_cash_flows self.
Proof. reflexivity. Qed.

Lemma wacc_with_quote (calculator : WACCCalculator.t) (fd : FinancialData.t)
    (md : MarketData.t) (tax_rate s p : Q) :
  WACCCalculator.calculate_wacc calculator fd
    (MarketData.mk (MarketData.market_cap md) s p (MarketData.beta md)) tax_rate
  = WACCCalculator.calculate_wacc calculator fd md tax_rate.
Proof. reflexivity. Qed.

Ltac step_bind :=
  match goal with
  | |- context [bind ?c _] => destruct c; cbn [bind]
  end.

(** The outcome of the valuation for another share count and price: the same
    exception or the same [None], or a valuation; and the quotients of a
    returned valuation are the guarded ones. *)
Lemma valuation_quote_cases (self : DCFModel.t) (fd : FinancialData.t)
    (md : MarketData.t) (s p : Q) :
  DCFModel.financial_data self = Some fd ->
  DCFModel.market_data self = Some md ->
  match DCFModel.calculate_dcf_valuation self with
  | Raise e => DCFModel.calculate_dcf_valuation (with_quote self s p) = Raise e
  | Ok None => DCFModel.calculate_dcf_valuation (with_quote self s p) = Ok None
  | Ok (Some v) =>
      Valuation.value_per_share v
      = (if gt0 (MarketData.shares_outstanding md)
         then Valuation.equity_value v / MarketData.shares_outstanding md
         else 0)
      /\ Valuation.upside_downside v
         = (if gt0 (MarketData.current_price md)
            then (Valuation.value_per_share v - MarketData.current_price md)
                 / MarketData.current_price md
            else 0)
      /\ exists v',
           DCFModel.calculate_dcf_valuation (with_quote self s p) = Ok (Some v')
           /\ Valuation.equity_value v' = Valuation.equity_value v
  end.
Proof.
  intros Hfd Hmd. unfold DCFModel.calculate_dcf_valuation.
  rewrite averages_with_quote, projections_with_quote.
  unfold DCFModel.calculate_terminal_value.
  unfold with_quote.
  cbn [DCFModel.financial_data DCFModel.market_data DCFModel.wacc_calculator
       DCFModel.projection_years DCFModel.terminal_growth_rate].
  rewrite Hfd, Hmd. cbv beta iota.
  cbn [MarketData.shares_outstanding MarketData.current_price].
  step_bind; [|reflexivity]. rewrite wacc_with_quote.
  do 3 (step_bind; [|reflexivity]).
  match goal with
  | |- context [match ?ps with Some _ => _ | None => _ end] =>
      destruct ps as [[|projection projections]|]; try reflexivity
  end.
  repeat (step_bind; [|reflexivity]).
  cbn. repeat split; try reflexivity.
  eexists. split; reflexivity.
Qed.

(** Another share count and price leave ready inputs ready. *)
Lemma ready_with_quote (self : DCFModel.t) (fd : FinancialData.t)
    (md : MarketData.t) (a : Averages.t) (b : WaccBreakdown.t) (s p : Q) :
  valuation_ready self fd md a b ->
  valuation_ready (with_quote self s p) fd
    (MarketData.mk (MarketData.market_cap md) s p (MarketData.beta md)) a b.
Proof.
  intros (Hfd & Hmd & Hk & Hne & Ha & Hw & HN & H1 & Hs).
  unfold valuation_ready.
  split; [exact Hfd|].
  split; [unfold with_quote; cbn [DCFModel.market_data]; now rewrite Hmd|].
  split; [exact Hk|]. split; [exact Hne|]. split; [exact Ha|].
  split; [exact Hw|]. split; [exact HN|]. split; [exact H1 | exact Hs].
Qed.

(** With a number for the share count the valuation is the one of the model
    whose market data holds that number. *)
Lemma raw_quote_number (self : DCFModel.t) (md : MarketData.t) (s : Q) :
  DCFModel.market_data self = Some md ->
  RawQuote.calculate_dcf_valuation self (RawQuote.Num s)
  = DCFModel.calculate_dcf_valuation
      (with_quote self s (MarketData.current_price md)).
Proof.
  intro Hmd.
  unfold RawQuote.calculate_dcf_valuation, DCFModel.calculate_dcf_valuation.
  rewrite averages_with_quote, projections_with_quote.
  unfold DCFModel.calculate_terminal_value.
  unfold with_quote.
  cbn [DCFModel.financial_data DCFModel.market_data DCFModel.wacc_calculator
       DCFModel.projection_years DCFModel.terminal_growth_rate].
  rewrite Hmd. destruct (DCFModel.financial_data self) as [fd|]; [|reflexivity].
  cbv beta iota.
  cbn [MarketData.shares_outstanding MarketData.current_price].
  step_bind; [|reflexivity]. rewrite wacc_with_quote.
  do 3 (step_bind; [|reflexivity]).
  match goal with
  | |- context [match ?ps with Some _ => _ | None => _ end] =>
      destruct ps as [[|projection projections]|]; try reflexivity
  end.
  do 7 (step_bind; [|reflexivity]).
  cbn [RawQuote.gt0 RawQuote.div bind].
  destruct (gt0 s); reflexivity.
Qed.

(** With [None] for the share count the valuation raises what it raises
    anyway, returns [None] where it returns [None] anyway, and raises
    [TypeError] at the guard where it would return a valuation. *)
Lemma raw_quote_none (self : DCFModel.t) :
  match DCFModel.calculate_dcf_valuation self with
  | Raise e => RawQuote.calculate_dcf_valuation self RawQuote.PyNone = Raise e
  | Ok None => RawQuote.calculate_dcf_valuation self RawQuote.PyNone = Ok None
  | Ok (Some _) =>
      RawQuote.calculate_dcf_valuation self RawQuote.PyNone = Raise TypeError
  end.
Proof.
  unfold RawQuote.calculate_dcf_valuation, DCFModel.calculate_dcf_valuation.
  unfold DCFModel.calculate_terminal_value.
  destruct (DCFModel.financial_data self) as [fd|]; [|reflexivity].
  destruct (DCFModel.market_data self) as [md|]; [|reflexivity].
  do 4 (step_bind; [|reflexivity]).
  match goal with
  | |- context [match ?ps with Some _ => _ | None => _ end] =>
      destruct ps as [[|projection projections]|]; try reflexivity
  end.
  do 7 (step_bind; [|reflexivity]).
  reflexivity.
Qed.

(** C6. The guard of the per-share quotient compares the share count with 0
    before it divides.  On ready inputs, a share count that [info] holds as
    [None] is passed on by [info.get('sharesOutstanding', 0)], the comparison
    raises [TypeError] and no valuation is returned; a share count absent from
    [info] (defaulted to 0), zero or negative gives a returned valuation whose
    value per share is 0; and a share count that is a number is valued as
    [calculate_dcf_valuation] values it. *)
Theorem C6_unknown_share_count (self : DCFModel.t) (fd : FinancialData.t)
    (md : MarketData.t) (a : Averages.t) (b : WaccBreakdown.t) :
  valuation_ready self fd md a b ->
  RawQuote.calculate_dcf_valuation self
    (RawQuote.get (Some RawQuote.PyNone) 0) = Raise TypeError
  /\ (forall entry s,
         RawQuote.get entry 0 = RawQuote.Num s ->
         s <= 0 ->
         exists v,
           RawQuote.calculate_dcf_valuation self (RawQuote.get entry 0)
           = Ok (Some v)
           /\ Valuation.value_per_share v = 0)
  /\ (forall s,
         RawQuote.calculate_dcf_valuation self
           (RawQuote.get (Some (RawQuote.Num s)) 0)
         = DCFModel.calculate_dcf_valuation
             (with_quote self s (MarketData.current_price md))).
Proof.
  intro Hready.
  assert (Hmd : DCFModel.market_data self = Some md) by apply Hready.
  split; [|split].
  - destruct (valuation_returns _ _ _ _ _ Hready) as (v & Ev & _).
    pose proof (raw_quote_none self) as C. rewrite Ev in C. exact C.
  - intros entry s Hentry Hs. rewrite Hentry.
    rewrite (raw_quote_number self md s Hmd).
    destruct (valuation_returns _ _ _ _ _
                (ready_with_quote self fd md a b s
                   (MarketData.current_price md) Hready))
      as (v & Ev & _ & _ & _ & _ & _ & _ & _ & _ & _ & Evps & _).
    exists v. split; [exact Ev|].
    rewrite Evps. cbn [MarketData.shares_outstanding].
    assert (G : gt0 s = false) by (now apply gt0_false).
    now rewrite G.
  - intro s. exact (raw_quote_number self md s Hmd).
Qed.

(** C6 on the sample company with [sharesOutstanding] reported as [None]. *)
Lemma C6_unknown_share_count_witness :
  valuation_ready
    (Examples.model 5 (25 # 1000) Examples.growing Examples.quote)
    Examples.growing Examples.quote
    (averages_of Examples.growing)
    (breakdown (Examples.model 5 (25 # 1000) Examples.growing Examples.quote))
  /\ RawQuote.calculate_dcf_valuation
       (Examples.model 5 (25 # 1000) Examples.growing Examples.quote)
       RawQuote.PyNone = Raise TypeError.
Proof.
  assert (H : valuation_ready
                (Examples.model 5 (25 # 1000) Examples.growing Examples.quote)
                Examples.growing Examples.quote
                (averages_of Examples.growing)
                (breakdown (Examples.model 5 (25 # 1000) Examples.growing
                              Examples.quote)))
    by ready.
  split; [exact H|].
  exact (proj1 (C6_unknown_share_count _ _ _ _ _ H)).
Defined.

(** ** The horizon is never range-checked *)

Lemma empty_horizon_returns_none (self : DCFModel.t) (fd : FinancialData.t)
    (md : MarketData.t) (b : WaccBreakdown.t) :
  DCFModel.financial_data self = Some fd ->
  DCFModel.market_data self = Some md ->
  same_periods fd ->
  FinancialData.revenue fd <> [] ->
  WACCCalculator.calculate_wacc (DCFModel.wacc_calculator self) fd md
    (Averages.tax_rate (averages_of fd)) = Ok (WaccDict b) ->
  (DCFModel.projection_years self <= 0)%Z ->
  DCFModel.calculate_dcf_valuation self = Ok None.
Proof.
  intros Hfd Hmd Hk Hne Hw HN. unfold DCFModel.calculate_dcf_valuation.
  rewrite Hfd, Hmd, (historical_averages_total fd Hk self Hfd).
  cbn [bind]. rewrite Hw. cbn [bind subscript_wacc].
  rewrite (project_cash_flows_ok self fd Hfd Hk Hne). cbn [bind].
  unfold projections_of, range.
  replace (Z.to_nat (DCFModel.projection_years self + 1 - 1)) with 0%nat by lia.
  reflexivity.
Qed.

(** C9 as stated fails: a horizon of 2 years is computed and stored as a
    success with two projected years. *)
Lemma C9_counterexample :
  ~ (3 <= 2 <= 10)%Z
  /\ exists v,
       Dashboard.calculate_dcf (Examples.provider Examples.growing Examples.quote)
         1 "abc" (45 # 10) (65 # 10) (25 # 10) 2
       = Dashboard.StoreSuccess "ABC" v
       /\ List.length (Valuation.projections v) = 2%nat.
Proof.
  split; [lia|].
  eexists. split; [vm_compute; reflexivity|]. reflexivity.
Qed.

(** C9 (amended). [calculate_dcf] and [DCFModel] make no range check on the
    projection horizon.  Once the provider has answered with consistently
    keyed statements and a non-zero capital, every horizon [N >= 1], inside
    or outside [3, 10], is computed and stored as a successful valuation with
    exactly [N] projected years (provided neither [1 + wacc] nor
    [wacc - terminal growth] is zero); a horizon [N <= 0] yields, after the
    fetch, the averages and the WACC, the generic failure message. *)
Theorem C9_no_horizon_check (yf : string -> result YFinance.Ticker)
    (n_clicks : Z) (ticker : string)
    (risk_free_rate market_risk_premium terminal_growth_rate : Q) (N : Z)
    (stock : YFinance.Ticker) (fd : FinancialData.t) (md : MarketData.t)
    (b : WaccBreakdown.t) :
  n_clicks <> 0%Z ->
  ticker <> EmptyString ->
  yf (upper ticker) = Ok stock ->
  YFinance.key_metrics stock = Some fd ->
  FinancialDataFetcher.get_market_data
    (FinancialDataFetcher.mk (upper ticker) stock) = Some md ->
  same_periods fd ->
  FinancialData.revenue fd <> [] ->
  WACCCalculator.calculate_wacc
    (WACCCalculator.mk (risk_free_rate / 100) (market_risk_premium / 100))
    fd md (Averages.tax_rate (averages_of fd)) = Ok (WaccDict b) ->
  ((1 <= N)%Z ->
   ~ 1 + WaccBreakdown.wacc b == 0 ->
   ~ WaccBreakdown.wacc b == terminal_growth_rate / 100 ->
   exists v,
     Dashboard.calculate_dcf yf n_clicks ticker risk_free_rate
       market_risk_premium terminal_growth_rate N
     = Dashboard.StoreSuccess (upper ticker) v
     /\ Z.of_nat (List.length (Valuation.projections v)) = N)
  /\ ((N <= 0)%Z ->
      Dashboard.calculate_dcf yf n_clicks ticker risk_free_rate
        market_risk_premium terminal_growth_rate N
      = Dashboard.StoreFailure
          (Dashboard.Literal "Failed to fetch data or calculate valuation")).
Proof.
  intros Hclicks Hticker Hyf Hkm Hq Hk Hne Hw.
  apply Z.eqb_neq in Hclicks. apply String.eqb_neq in Hticker.
  unfold Dashboard.calculate_dcf. rewrite Hclicks, Hticker. cbn [orb].
  unfold DCFModel.init, FinancialDataFetcher.init. rewrite Hyf. cbn [bind].
  unfold FinancialDataFetcher.get_key_metrics.
  cbn [FinancialDataFetcher.stock]. rewrite Hkm, Hq.
  unfold Dashboard.set_rates.
  cbn [DCFModel.ticker DCFModel.projection_years DCFModel.terminal_growth_rate
       DCFModel.data_fetcher DCFModel.financial_data DCFModel.market_data].
  set (dcf := DCFModel.mk _ _ _ _ _ _ _).
  assert (Hfd : DCFModel.financial_data dcf = Some fd) by reflexivity.
  assert (Hmd : DCFModel.market_data dcf = Some md) by reflexivity.
  split.
  - intros HN H1 Hs.
    assert (Hready : valuation_ready dcf fd md (averages_of fd) b).
    { unfold valuation_ready.
      refine (conj Hfd (conj Hmd (conj Hk (conj Hne (conj _ (conj Hw
               (conj HN (conj H1 Hs)))))))).
      now apply historical_averages_total. }
    destruct (valuation_returns _ _ _ _ _ Hready)
      as (v & Ev & _ & _ & _ & Ep & _).
    rewrite Ev. exists v. split; [reflexivity|].
    rewrite Ep, projections_length. subst dcf. cbn [DCFModel.projection_years].
    lia.
  - intro HN.
    rewrite (empty_horizon_returns_none dcf fd md b Hfd Hmd Hk Hne Hw HN).
    reflexivity.
Qed.

(** C9 (amended) for a horizon of 11 years. *)
Lemma C9_no_horizon_check_witness :
  1%Z <> 0%Z
  /\ "abc"%string <> EmptyString
  /\ Examples.provider Examples.growing Examples.quote (upper "abc")
     = Ok (Examples.stock Examples.growing Examples.quote)
  /\ YFinance.key_metrics (Examples.stock Examples.growing Examples.quote)
     = Some Examples.growing
  /\ FinancialDataFetcher.get_market_data
       (FinancialDataFetcher.mk (upper "abc")
          (Examples.stock Examples.growing Examples.quote))
     = Some Examples.quote
  /\ same_periods Examples.growing
  /\ FinancialData.revenue Examples.growing <> []
  /\ WACCCalculator.calculate_wacc
       (WACCCalculator.mk ((45 # 10) / 100) ((65 # 10) / 100))
       Examples.growing Examples.quote
       (Averages.tax_rate (averages_of Examples.growing))
     = Ok (WaccDict
             (breakdown_of
                (WACCCalculator.mk ((45 # 10) / 100) ((65 # 10) / 100))
                Examples.growing Examples.quote
                (Averages.tax_rate (averages_of Examples.growing))))
  /\ ~ (3 <= 11 <= 10)%Z
  /\ exists v,
       Dashboard.calculate_dcf (Examples.provider Examples.growing Examples.quote)
         1 "abc" (45 # 10) (65 # 10) (25 # 10) 11
       = Dashboard.StoreSuccess (upper "abc") v
       /\ Z.of_nat (List.length (Valuation.projections v)) = 11%Z.
Proof.
  assert (H1 : 1%Z <> 0%Z) by discriminate.
  assert (H2 : "abc"%string <> EmptyString) by discriminate.
  assert (H3 : Examples.provider Examples.growing Examples.quote (upper "abc")
               = Ok (Examples.stock Examples.growing Examples.quote))
    by reflexivity.
  assert (H4 : YFinance.key_metrics
                 (Examples.stock Examples.growing Examples.quote)
               = Some Examples.growing) by reflexivity.
  assert (H5 : FinancialDataFetcher.get_market_data
                 (FinancialDataFetcher.mk (upper "abc")
                    (Examples.stock Examples.growing Examples.quote))
               = Some Examples.quote) by reflexivity.
  assert (H6 : same_periods Examples.growing) by (repeat split; reflexivity).
  assert (H7 : FinancialData.revenue Examples.growing <> []) by discriminate.
  assert (H8 : WACCCalculator.calculate_wacc
                 (WACCCalculator.mk ((45 # 10) / 100) ((65 # 10) / 100))
                 Examples.growing Examples.quote
                 (Averages.tax_rate (averages_of Examples.growing))
               = Ok (WaccDict
                       (breakdown_of
                          (WACCCalculator.mk ((45 # 10) / 100) ((65 # 10) / 100))
                          Examples.growing Examples.quote
                          (Averages.tax_rate (averages_of Examples.growing)))))
    by (vm_compute; reflexivity).
  assert (H9 : ~ (3 <= 11 <= 10)%Z) by lia.
  repeat (split; [assumption|]).
  apply (proj1 (C9_no_horizon_check _ 1 "abc" (45 # 10) (65 # 10) (25 # 10) 11
                  _ _ _ _ H1 H2 H3 H4 H5 H6 H7 H8)).
  - lia.
  - vm_compute; discriminate.
  - vm_compute; discriminate.
Defined.


(** In binary64 the worked example evaluates to 1366.6666666666663, within
    0.01 of 1366.67. *)
Lemma terminal_value_binary64 : Binary64.worked_example_ok = true.
Proof. vm_compute. reflexivity. Qed.

(** * Further properties of the two files *)

(** ** Extraction of the metrics: [_safe_extract] *)

Lemma setitem_fresh {V : Type} (d : list (Period * V)) (k : Period) (v : V) :
  ~ In k (map fst d) -> AnyDict.setitem d k v = d ++ [(k, v)].
Proof.
  induction d as [|[k' v'] d IH]; intro H; simpl; [reflexivity|].
  simpl in H. destruct (Z.eqb_spec k k') as [E | _].
  - exfalso. apply H. now left.
  - rewrite IH; [reflexivity|]. intro Hin. apply H. now right.
Qed.

Lemma fold_setitem_nodup {V : Type} (pairs acc : list (Period * V)) :
  NoDup (map fst (acc ++ pairs)) ->
  fold_left (fun d pair => AnyDict.setitem d (fst pair) (snd pair)) pairs acc
  = acc ++ pairs.
Proof.
  revert acc. induction pairs as [|[k v] pairs IH]; intros acc H; simpl.
  - now rewrite app_nil_r.
  - rewrite setitem_fresh.
    + rewrite IH; rewrite <- app_assoc; [reflexivity | exact H].
    + rewrite map_app in H. simpl in H.
      apply NoDup_remove_2 in H. intro Hin. apply H.
      apply in_or_app. now left.
Qed.

Lemma from_pairs_nodup {V : Type} (pairs : list (Period * V)) :
  NoDup (map fst pairs) -> AnyDict.from_pairs pairs = pairs.
Proof.
  intro H. unfold AnyDict.from_pairs. now rewrite fold_setitem_nodup.
Qed.

Lemma zero_fill_nodup (years : list Period) :
  NoDup years -> Extraction.zero_fill years = map (fun year => (year, 0)) years.
Proof.
  intro H. unfold Extraction.zero_fill. apply from_pairs_nodup.
  rewrite map_map. simpl. now rewrite map_id.
Qed.

Lemma extracted_series (df : Pandas.DataFrame) (name : string)
    (years : list Period) :
  NoDup years ->
  Pandas.to_dict
    (Pandas.fillna0 (map (fun year => (year, Pandas.cell df name year)) years))
  = map (fun year => (year, get_default (Pandas.cell df name year) 0)) years.
Proof.
  intro H. unfold Pandas.to_dict, Pandas.fillna0. rewrite map_map. simpl.
  apply from_pairs_nodup. rewrite map_map. simpl. now rewrite map_id.
Qed.

Lemma first_match_keys (df : Pandas.DataFrame) (names : list string)
    (years : list Period) (d : Dict) :
  NoDup years ->
  Extraction.first_match df names years = Ok d -> keys d = years.
Proof.
  intros Hnd. induction names as [|name names IH]; simpl; intro H.
  - injection H as <-. rewrite zero_fill_nodup by assumption.
    unfold keys. rewrite map_map. simpl. apply map_id.
  - destruct (Pandas.in_index df name); [|now apply IH].
    unfold Pandas.loc in H.
    destruct (_ && _); simpl in H; [|discriminate].
    injection H as <-. rewrite extracted_series by assumption.
    unfold keys. rewrite map_map. simpl. apply map_id.
Qed.

Lemma safe_extract_keyed_by_years (df : Pandas.DataFrame) (metric_name : string)
    (years : list Period) :
  NoDup years ->
  keys (Extraction._safe_extract df metric_name years) = years.
Proof.
  intro Hnd. unfold Extraction._safe_extract.
  destruct (Extraction.first_match df _ years) as [d | e] eqn:E.
  - exact (first_match_keys df _ years d Hnd E).
  - rewrite zero_fill_nodup by assumption.
    unfold keys. rewrite map_map. simpl. apply map_id.
Qed.

(** X1. [_safe_extract] returns one entry per requested period, in the order
    requested, whatever the statement holds: a missing label or a missing
    period never removes a period from the result (and never raises). *)
Theorem safe_extract_keys (df : Pandas.DataFrame) (metric_name : string)
    (years : list Period) :
  NoDup years ->
  keys (Extraction._safe_extract df metric_name years) = years.
Proof. exact (safe_extract_keyed_by_years df metric_name years). Qed.

Lemma safe_extract_keys_witness :
  NoDup SampleStatements.years
  /\ keys (Extraction._safe_extract SampleStatements.balance "Total Debt"
             SampleStatements.years) = SampleStatements.years.
Proof.
  assert (H : NoDup SampleStatements.years).
  { repeat constructor; simpl; intuition discriminate. }
  split; [exact H|]. exact (safe_extract_keys _ _ _ H).
Defined.

Lemma first_match_unknown (df : Pandas.DataFrame) (names : list string)
    (years : list Period) :
  (forall name, In name names -> Pandas.in_index df name = false) ->
  Extraction.first_match df names years = Ok (Extraction.zero_fill years).
Proof.
  induction names as [|name names IH]; intro H; simpl; [reflexivity|].
  rewrite (H name (or_introl eq_refl)). apply IH.
  intros n Hn. apply H. now right.
Qed.

(** X2. When none of the four spellings of the metric name (as given, without
    spaces, title-cased, lower-cased) labels a row of the statement,
    [_safe_extract] returns 0 for every requested period. *)
Theorem safe_extract_unknown_label (df : Pandas.DataFrame)
    (metric_name : string) (years : list Period) :
  NoDup years ->
  Pandas.in_index df metric_name = false ->
  Pandas.in_index df (Text.remove_spaces metric_name) = false ->
  Pandas.in_index df (Text.title metric_name) = false ->
  Pandas.in_index df (Text.lower metric_name) = false ->
  Extraction._safe_extract df metric_name years
  = map (fun year => (year, 0)) years.
Proof.
  intros Hnd H1 H2 H3 H4. unfold Extraction._safe_extract.
  rewrite first_match_unknown; [now apply zero_fill_nodup|].
  intros name [<- | [<- | [<- | [<- | []]]]]; assumption.
Qed.

Lemma safe_extract_unknown_label_witness :
  NoDup SampleStatements.years
  /\ Pandas.in_index SampleStatements.income "EBITDA" = false
  /\ Pandas.in_index SampleStatements.income (Text.remove_spaces "EBITDA") = false
  /\ Pandas.in_index SampleStatements.income (Text.title "EBITDA") = false
  /\ Pandas.in_index SampleStatements.income (Text.lower "EBITDA") = false
  /\ Extraction._safe_extract SampleStatements.income "EBITDA"
       SampleStatements.years
     = [(2023%Z, 0); (2022%Z, 0); (2021%Z, 0)].
Proof.
  assert (H : NoDup SampleStatements.years).
  { repeat constructor; simpl; intuition discriminate. }
  assert (H1 : Pandas.in_index SampleStatements.income "EBITDA" = false)
    by reflexivity.
  assert (H2 : Pandas.in_index SampleStatements.income
                 (Text.remove_spaces "EBITDA") = false) by reflexivity.
  assert (H3 : Pandas.in_index SampleStatements.income (Text.title "EBITDA")
               = false) by reflexivity.
  assert (H4 : Pandas.in_index SampleStatements.income (Text.lower "EBITDA")
               = false) by reflexivity.
  repeat (split; [assumption|]).
  exact (safe_extract_unknown_label _ _ _ H H1 H2 H3 H4).
Defined.

Lemma first_match_found (df : Pandas.DataFrame) (before after : list string)
    (label : string) (years : list Period) :
  (forall name, In name before -> Pandas.in_index df name = false) ->
  Pandas.in_index df label = true ->
  Extraction.first_match df (before ++ label :: after) years
  = (series <- Pandas.loc df label years ;;
     Ok (Pandas.to_dict (Pandas.fillna0 series))).
Proof.
  intros Hb Hl. induction before as [|b before IH]; simpl.
  - now rewrite Hl.
  - rewrite (Hb b (or_introl eq_refl)). apply IH.
    intros n Hn. apply Hb. now right.
Qed.

(** X3. [_safe_extract] reads the row of the first of the four spellings
    that labels a row; when every requested period is a column of the
    statement, each period gets that row's cell, with NaN replaced by 0. *)
Theorem safe_extract_first_label (df : Pandas.DataFrame) (metric_name : string)
    (years : list Period) (before after : list string) (label : string) :
  NoDup years ->
  Extraction.possible_names metric_name = before ++ label :: after ->
  (forall name, In name before -> Pandas.in_index df name = false) ->
  Pandas.in_index df label = true ->
  (forall year, In year years -> Pandas.in_columns df year = true) ->
  Extraction._safe_extract df metric_name years
  = map (fun year => (year, get_default (Pandas.cell df label year) 0)) years.
Proof.
  intros Hnd Hnames Hb Hl Hy. unfold Extraction._safe_extract.
  rewrite Hnames, (first_match_found df before after label years Hb Hl).
  unfold Pandas.loc. rewrite Hl.
  assert (Hall : forallb (Pandas.in_columns df) years = true)
    by (apply forallb_forall; exact Hy).
  rewrite Hall. cbn [andb bind]. now apply extracted_series.
Qed.

Lemma safe_extract_first_label_witness :
  NoDup SampleStatements.years
  /\ Extraction.possible_names "Capital Expenditure"
     = ["Capital Expenditure"%string]
       ++ "CapitalExpenditure"%string
          :: ["Capital Expenditure"%string; "capital expenditure"%string]
  /\ (forall name, In name ["Capital Expenditure"%string] ->
      Pandas.in_index SampleStatements.cash_flows name = false)
  /\ Pandas.in_index SampleStatements.cash_flows "CapitalExpenditure" = true
  /\ (forall year, In year SampleStatements.years ->
      Pandas.in_columns SampleStatements.cash_flows year = true)
  /\ Extraction._safe_extract SampleStatements.cash_flows "Capital Expenditure"
       SampleStatements.years
     = [(2023%Z, -6); (2022%Z, -6); (2021%Z, -6)].
Proof.
  assert (H1 : NoDup SampleStatements.years).
  { repeat constructor; simpl; intuition discriminate. }
  assert (H2 : Extraction.possible_names "Capital Expenditure"
               = ["Capital Expenditure"%string]
                 ++ "CapitalExpenditure"%string
                    :: ["Capital Expenditure"%string;
                        "capital expenditure"%string]) by reflexivity.
  assert (H3 : forall name, In name ["Capital Expenditure"%string] ->
               Pandas.in_index SampleStatements.cash_flows name = false).
  { intros name [<- | []]. reflexivity. }
  assert (H4 : Pandas.in_index SampleStatements.cash_flows "CapitalExpenditure"
               = true) by reflexivity.
  assert (H5 : forall year, In year SampleStatements.years ->
               Pandas.in_columns SampleStatements.cash_flows year = true).
  { intros year [<- | [<- | [<- | []]]]; reflexivity. }
  repeat (split; [assumption|]).
  exact (safe_extract_first_label _ _ _ _ _ _ H1 H2 H3 H4 H5).
Defined.

Lemma first_match_missing_period (df : Pandas.DataFrame) (names : list string)
    (years : list Period) (year : Period) :
  In year years ->
  Pandas.in_columns df year = false ->
  Extraction.first_match df names years = Ok (Extraction.zero_fill years)
  \/ Extraction.first_match df names years = Raise KeyError.
Proof.
  intros Hin Hcol. induction names as [|name names IH]; simpl; [now left|].
  destruct (Pandas.in_index df name) eqn:E; [|exact IH].
  right. unfold Pandas.loc. rewrite E.
  assert (Hall : forallb (Pandas.in_columns df) years = false).
  { destruct (forallb (Pandas.in_columns df) years) eqn:F; [|reflexivity].
    rewrite forallb_forall in F. rewrite (F year Hin) in Hcol. discriminate. }
  now rewrite Hall.
Qed.

(** X4. When one of the requested periods is not a column of the statement,
    [_safe_extract] returns 0 for every requested period, including those the
    statement does hold: the [KeyError] of the row selection is swallowed by
    the bare [except]. *)
Theorem safe_extract_missing_period (df : Pandas.DataFrame)
    (metric_name : string) (years : list Period) (year : Period) :
  NoDup years ->
  In year years ->
  Pandas.in_columns df year = false ->
  Extraction._safe_extract df metric_name years
  = map (fun year => (year, 0)) years.
Proof.
  intros Hnd Hin Hcol. unfold Extraction._safe_extract.
  destruct (first_match_missing_period df (Extraction.possible_names metric_name)
              years year Hin Hcol) as [-> | ->];
    now apply zero_fill_nodup.
Qed.

Lemma safe_extract_missing_period_witness :
  NoDup SampleStatements.years
  /\ In 2021%Z SampleStatements.years
  /\ Pandas.in_columns SampleStatements.balance 2021%Z = false
  /\ Pandas.cell SampleStatements.balance "Total Debt" 2023%Z = Some 50
  /\ Extraction._safe_extract SampleStatements.balance "Total Debt"
       SampleStatements.years
     = [(2023%Z, 0); (2022%Z, 0); (2021%Z, 0)].
Proof.
  assert (H1 : NoDup SampleStatements.years).
  { repeat constructor; simpl; intuition discriminate. }
  assert (H2 : In 2021%Z SampleStatements.years) by (simpl; tauto).
  assert (H3 : Pandas.in_columns SampleStatements.balance 2021%Z = false)
    by reflexivity.
  repeat (split; [first [assumption | reflexivity]|]).
  exact (safe_extract_missing_period _ "Total Debt" _ _ H1 H2 H3).
Defined.

(** ** Extraction of the metrics: working capital and [get_key_metrics] *)

Lemma working_capital_fold (bs : Pandas.DataFrame) (years : list Period)
    (acc : list (Period * option Q)) :
  NoDup (map fst acc ++ years) ->
  fold_left
    (fun wc_data year =>
       match Extraction.working_capital_at bs year with
       | Ok value => AnyDict.setitem wc_data year value
       | Raise _ => AnyDict.setitem wc_data year (Some 0)
       end)
    years acc
  = acc ++ map (fun year => (year, working_capital_entry bs year)) years.
Proof.
  revert acc. induction years as [|y years IH]; intros acc H; simpl.
  - now rewrite app_nil_r.
  - assert (Hfresh : ~ In y (map fst acc)).
    { apply NoDup_remove_2 in H. intro Hin. apply H.
      apply in_or_app. now left. }
    assert (E : match Extraction.working_capital_at bs y with
                | Ok value => AnyDict.setitem acc y value
                | Raise _ => AnyDict.setitem acc y (Some 0)
                end = acc ++ [(y, working_capital_entry bs y)]).
    { unfold working_capital_entry.
      destruct (Extraction.working_capital_at bs y); now apply setitem_fresh. }
    rewrite E, IH.
    + now rewrite <- app_assoc.
    + rewrite map_app. simpl. rewrite <- app_assoc. exact H.
Qed.

Lemma working_capital_map (bs : Pandas.DataFrame) (years : list Period) :
  NoDup years ->
  Extraction._calculate_working_capital bs years
  = map (fun year => (year, working_capital_entry bs year)) years.
Proof.
  intro H. unfold Extraction._calculate_working_capital.
  now rewrite working_capital_fold.
Qed.

Lemma working_capital_entry_cases (bs : Pandas.DataFrame) (year : Period) :
  (Pandas.in_columns bs year = true
   \/ (Pandas.in_index bs "Current Assets" = false
       /\ Pandas.in_index bs "Current Liabilities" = false) ->
   working_capital_entry bs year
   = Pandas.sub
       (if Pandas.in_index bs "Current Assets"
        then Pandas.cell bs "Current Assets" year else Some 0)
       (if Pandas.in_index bs "Current Liabilities"
        then Pandas.cell bs "Current Liabilities" year else Some 0))
  /\ (Pandas.in_columns bs year = false ->
      Pandas.in_index bs "Current Assets"
      || Pandas.in_index bs "Current Liabilities" = true ->
      working_capital_entry bs year = Some 0).
Proof.
  unfold working_capital_entry, Extraction.working_capital_at,
    Pandas.loc_scalar.
  destruct (Pandas.in_index bs "Current Assets");
    destruct (Pandas.in_index bs "Current Liabilities");
    destruct (Pandas.in_columns bs year); cbn [andb orb bind];
    split; intros; try reflexivity; try discriminate;
    intuition discriminate.
Qed.

(** X5. [_calculate_working_capital] returns one entry per requested period,
    in order.  For a period that is a column of the balance sheet (or when
    neither row exists) the entry is current assets minus current
    liabilities, an absent row counting as 0 and a NaN cell making the entry
    NaN; for a period that is not a column, while one of the two rows exists,
    the entry is 0 and the other periods are unaffected. *)
Theorem working_capital_per_period (bs : Pandas.DataFrame) (years : list Period) :
  NoDup years ->
  map fst (Extraction._calculate_working_capital bs years) = years
  /\ forall year, In year years ->
       (Pandas.in_columns bs year = true
        \/ (Pandas.in_index bs "Current Assets" = false
            /\ Pandas.in_index bs "Current Liabilities" = false) ->
        In (year,
            Pandas.sub
              (if Pandas.in_index bs "Current Assets"
               then Pandas.cell bs "Current Assets" year else Some 0)
              (if Pandas.in_index bs "Current Liabilities"
               then Pandas.cell bs "Current Liabilities" year else Some 0))
           (Extraction._calculate_working_capital bs years))
       /\ (Pandas.in_columns bs year = false ->
           Pandas.in_index bs "Current Assets"
           || Pandas.in_index bs "Current Liabilities" = true ->
           In (year, Some 0) (Extraction._calculate_working_capital bs years)).
Proof.
  intro Hnd. rewrite working_capital_map by assumption. split.
  - rewrite map_map. simpl. apply map_id.
  - intros year Hin.
    assert (Hentry : In (year, working_capital_entry bs year)
                        (map (fun y => (y, working_capital_entry bs y)) years))
      by (apply in_map_iff; now exists year).
    destruct (working_capital_entry_cases bs year) as [Hsub Hzero].
    split.
    + intro H. rewrite <- (Hsub H). exact Hentry.
    + intros Hcol Hrow. rewrite <- (Hzero Hcol Hrow). exact Hentry.
Qed.

Lemma working_capital_per_period_witness :
  NoDup SampleStatements.years
  /\ Extraction._calculate_working_capital SampleStatements.balance
       SampleStatements.years
     = [(2023%Z, Some (70 - 30)); (2022%Z, None); (2021%Z, Some 0)]
  /\ In (2021%Z, Some 0)
        (Extraction._calculate_working_capital SampleStatements.balance
           SampleStatements.years).
Proof.
  assert (H : NoDup SampleStatements.years).
  { repeat constructor; simpl; intuition discriminate. }
  split; [exact H|]. split; [reflexivity|].
  apply (proj2 (working_capital_per_period SampleStatements.balance _ H)
           2021%Z); [simpl; tauto | reflexivity | reflexivity].
Defined.

Lemma NoDup_firstn {A : Type} (n : nat) (l : list A) :
  NoDup l -> NoDup (firstn n l).
Proof.
  intro H. rewrite <- (firstn_skipn n l) in H.
  now apply NoDup_app_remove_r in H.
Qed.

Lemma key_metrics_keyed_by_years (fetched : result Extraction.Statements)
    (statements : Extraction.Statements) :
  fetched = Ok statements ->
  NoDup (Pandas.columns (Extraction.income_statement statements)) ->
  exists metrics,
    Extraction.get_key_metrics fetched = Some metrics
    /\ (List.length (keys (Extraction.revenue metrics)) <= 3)%nat
    /\ keys (Extraction.revenue metrics)
       = firstn 3 (Pandas.columns (Extraction.income_statement statements))
    /\ keys (Extraction.ebit metrics) = keys (Extraction.revenue metrics)
    /\ keys (Extraction.ebitda metrics) = keys (Extraction.revenue metrics)
    /\ keys (Extraction.net_income metrics) = keys (Extraction.revenue metrics)
    /\ keys (Extraction.tax_expense metrics) = keys (Extraction.revenue metrics)
    /\ keys (Extraction.operating_cf metrics) = keys (Extraction.revenue metrics)
    /\ keys (Extraction.capex metrics) = keys (Extraction.revenue metrics)
    /\ keys (Extraction.depreciation metrics) = keys (Extraction.revenue metrics)
    /\ keys (Extraction.total_debt metrics) = keys (Extraction.revenue metrics)
    /\ keys (Extraction.cash metrics) = keys (Extraction.revenue metrics)
    /\ map fst (Extraction.working_capital metrics)
       = keys (Extraction.revenue metrics)
    /\ same_periods (Extraction.financial_data_of metrics).
Proof.
  intros -> Hnd.
  pose proof (NoDup_firstn 3 _ Hnd) as Hy.
  eexists. split; [reflexivity|].
  cbn [Extraction.revenue Extraction.ebit Extraction.ebitda
       Extraction.net_income Extraction.tax_expense Extraction.operating_cf
       Extraction.capex Extraction.depreciation Extraction.total_debt
       Extraction.cash Extraction.working_capital].
  unfold same_periods, Extraction.financial_data_of.
  cbn [FinancialData.revenue FinancialData.ebit FinancialData.tax_expense
       FinancialData.capex FinancialData.total_debt FinancialData.cash
       Extraction.revenue Extraction.ebit Extraction.tax_expense
       Extraction.capex Extraction.total_debt Extraction.cash].
  rewrite !safe_extract_keyed_by_years by assumption.
  rewrite (working_capital_map _ _ Hy), map_map. cbn [fst]. rewrite map_id.
  repeat split; try reflexivity.
  apply firstn_le_length.
Qed.

(** X6. [get_key_metrics] keys every one of the eleven metrics by the first
    three columns of the income statement, in that order, whatever the balance
    sheet and the cash-flow statement hold; in particular the metrics the
    valuation reads are keyed by the same periods. *)
Theorem get_key_metrics_periods (fetched : result Extraction.Statements)
    (statements : Extraction.Statements) :
  fetched = Ok statements ->
  NoDup (Pandas.columns (Extraction.income_statement statements)) ->
  exists metrics,
    Extraction.get_key_metrics fetched = Some metrics
    /\ (List.length (keys (Extraction.revenue metrics)) <= 3)%nat
    /\ keys (Extraction.revenue metrics)
       = firstn 3 (Pandas.columns (Extraction.income_statement statements))
    /\ keys (Extraction.ebit metrics) = keys (Extraction.revenue metrics)
    /\ keys (Extraction.ebitda metrics) = keys (Extraction.revenue metrics)
    /\ keys (Extraction.net_income metrics) = keys (Extraction.revenue metrics)
    /\ keys (Extraction.tax_expense metrics) = keys (Extraction.revenue metrics)
    /\ keys (Extraction.operating_cf metrics) = keys (Extraction.revenue metrics)
    /\ keys (Extraction.capex metrics) = keys (Extraction.revenue metrics)
    /\ keys (Extraction.depreciation metrics) = keys (Extraction.revenue metrics)
    /\ keys (Extraction.total_debt metrics) = keys (Extraction.revenue metrics)
    /\ keys (Extraction.cash metrics) = keys (Extraction.revenue metrics)
    /\ map fst (Extraction.working_capital metrics)
       = keys (Extraction.revenue metrics)
    /\ same_periods (Extraction.financial_data_of metrics).
Proof. exact (key_metrics_keyed_by_years fetched statements). Qed.

Lemma get_key_metrics_periods_witness :
  Ok SampleStatements.statements = Ok SampleStatements.statements
  /\ NoDup (Pandas.columns
              (Extraction.income_statement SampleStatements.statements))
  /\ exists metrics,
       Extraction.get_key_metrics (Ok SampleStatements.statements)
       = Some metrics
       /\ keys (Extraction.revenue metrics) = [2023; 2022; 2021]%Z
       /\ same_periods (Extraction.financial_data_of metrics).
Proof.
  assert (H1 : Ok SampleStatements.statements = Ok SampleStatements.statements)
    by reflexivity.
  assert (H2 : NoDup (Pandas.columns
                        (Extraction.income_statement
                           SampleStatements.statements))).
  { repeat constructor; simpl; intuition discriminate. }
  repeat (split; [assumption|]).
  destruct (get_key_metrics_periods _ _ H1 H2)
    as (m & Em & _ & Er & _ & _ & _ & _ & _ & _ & _ & _ & _ & _ & Hs).
  exists m. repeat split; try assumption; apply Hs.
Defined.

(** X7. On the metrics [get_key_metrics] extracts, the loops of
    [calculate_historical_averages] find every key they subscript: the
    function returns the averages and raises no [KeyError]. *)
Theorem extracted_metrics_averages (fetched : result Extraction.Statements)
    (statements : Extraction.Statements) (metrics : Extraction.Metrics)
    (self : DCFModel.t) :
  fetched = Ok statements ->
  NoDup (Pandas.columns (Extraction.income_statement statements)) ->
  Extraction.get_key_metrics fetched = Some metrics ->
  DCFModel.financial_data self = Some (Extraction.financial_data_of metrics) ->
  exists a, DCFModel.calculate_historical_averages self = Ok (Some a).
Proof.
  intros Hf Hnd Hm Hfd.
  destruct (key_metrics_keyed_by_years _ _ Hf Hnd)
    as (m & Em & _ & _ & _ & _ & _ & _ & _ & _ & _ & _ & _ & _ & Hs).
  rewrite Em in Hm. injection Hm as <-.
  eexists. now apply (historical_averages_total _ Hs).
Qed.

Lemma extracted_metrics_averages_witness :
  exists metrics,
    Extraction.get_key_metrics (Ok SampleStatements.statements) = Some metrics
    /\ NoDup (Pandas.columns
                (Extraction.income_statement SampleStatements.statements))
    /\ exists a,
         DCFModel.calculate_historical_averages
           (Examples.model 5 (25 # 1000) (Extraction.financial_data_of metrics)
              Examples.quote) = Ok (Some a).
Proof.
  assert (H2 : NoDup (Pandas.columns
                        (Extraction.income_statement
                           SampleStatements.statements))).
  { repeat constructor; simpl; intuition discriminate. }
  eexists. split; [reflexivity|]. split; [exact H2|].
  exact (extracted_metrics_averages (Ok SampleStatements.statements) _ _
           (Examples.model 5 (25 # 1000) _ Examples.quote)
           eq_refl H2 eq_refl eq_refl).
Defined.

(** ** Statements without periods *)

(** X8. When the statements hold no period, [calculate_historical_averages]
    returns the four fallback constants (0.05, 0.15, 0.25, 0.05), while
    [project_cash_flows] and [calculate_dcf_valuation] raise [IndexError]:
    the first element of an empty list is taken. *)
Theorem no_periods_behaviour (self : DCFModel.t) (fd : FinancialData.t)
    (md : MarketData.t) :
  DCFModel.financial_data self = Some fd ->
  DCFModel.market_data self = Some md ->
  same_periods fd ->
  FinancialData.revenue fd = [] ->
  DCFModel.calculate_historical_averages self
  = Ok (Some (Averages.mk (5 # 100) (15 # 100) (25 # 100) (5 # 100)))
  /\ DCFModel.project_cash_flows self = Raise IndexError
  /\ DCFModel.calculate_dcf_valuation self = Raise IndexError.
Proof.
  intros Hfd Hmd Hk Hrev.
  assert (Ha : DCFModel.calculate_historical_averages self
               = Ok (Some (Averages.mk (5 # 100) (15 # 100) (25 # 100)
                             (5 # 100)))).
  { rewrite (historical_averages_total fd Hk self Hfd).
    unfold averages_of. rewrite Hrev. reflexivity. }
  split; [exact Ha|]. split.
  - unfold DCFModel.project_cash_flows. rewrite Ha. cbn [bind].
    rewrite Hfd, Hrev. reflexivity.
  - unfold DCFModel.calculate_dcf_valuation. rewrite Hfd, Hmd, Ha. cbn [bind].
    unfold WACCCalculator.calculate_wacc.
    destruct Hk as (_ & _ & _ & Hd & _). rewrite Hrev in Hd.
    apply keys_nil in Hd. rewrite Hd. reflexivity.
Qed.

Lemma no_periods_behaviour_witness :
  DCFModel.financial_data NoPeriods.model = Some NoPeriods.statements
  /\ DCFModel.market_data NoPeriods.model = Some Examples.quote
  /\ same_periods NoPeriods.statements
  /\ FinancialData.revenue NoPeriods.statements = []
  /\ DCFModel.calculate_dcf_valuation NoPeriods.model = Raise IndexError.
Proof.
  assert (H1 : DCFModel.financial_data NoPeriods.model
               = Some NoPeriods.statements) by reflexivity.
  assert (H2 : DCFModel.market_data NoPeriods.model = Some Examples.quote)
    by reflexivity.
  assert (H3 : same_periods NoPeriods.statements)
    by (repeat split; reflexivity).
  assert (H4 : FinancialData.revenue NoPeriods.statements = []) by reflexivity.
  repeat (split; [assumption|]).
  exact (proj2 (proj2 (no_periods_behaviour _ _ _ H1 H2 H3 H4))).
Defined.

(** ** The main path of [calculate_wacc] *)

Lemma Qabs_opp_eq (x : Q) : Qabs (- x) = Qabs x.
Proof. destruct x as [n d]. unfold Qabs, Qopp. simpl. now rewrite Z.abs_opp. Qed.

(** X9. For a company whose latest total debt is zero and whose market
    capitalisation is not, [calculate_wacc] returns the breakdown with an
    equity weight of 1, a debt weight of 0 and a WACC equal to the CAPM cost
    of equity [risk_free_rate + beta * market_risk_premium]. *)
Theorem wacc_debt_free (self : WACCCalculator.t) (fd : FinancialData.t)
    (md : MarketData.t) (tax_rate : Q) (latest : Period) (debt : Q) (rest : Dict) :
  FinancialData.total_debt fd = (latest, debt) :: rest ->
  debt == 0 ->
  ~ MarketData.market_cap md == 0 ->
  exists b,
    WACCCalculator.calculate_wacc self fd md tax_rate = Ok (WaccDict b)
    /\ WaccBreakdown.weight_equity b == 1
    /\ WaccBreakdown.weight_debt b == 0
    /\ WaccBreakdown.cost_of_equity b
       = WACCCalculator.risk_free_rate self
         + MarketData.beta md * WACCCalculator.market_risk_premium self
    /\ WaccBreakdown.wacc b == WaccBreakdown.cost_of_equity b.
Proof.
  intros Hd Hzero Hcap.
  destruct (latest_debt _ _ _ _ Hd) as [Hi Hg].
  assert (Habs : Qabs debt == 0) by (rewrite Hzero; reflexivity).
  unfold WACCCalculator.calculate_wacc. rewrite Hi. cbn [bind].
  rewrite Hg. cbn [bind].
  rewrite Qeq_bool_false by (rewrite Habs; lra).
  eexists. split; [reflexivity|]. simpl.
  repeat split; try reflexivity; rewrite Habs; field; lra.
Qed.

Lemma wacc_debt_free_witness :
  FinancialData.total_debt ZeroCapital.statements
  = (2023%Z, 0) :: [(2022%Z, 0); (2021%Z, 0)]
  /\ 0 == 0
  /\ ~ MarketData.market_cap Examples.quote == 0
  /\ exists b,
       WACCCalculator.calculate_wacc WACCCalculator.init ZeroCapital.statements
         Examples.quote (25 # 100) = Ok (WaccDict b)
       /\ WaccBreakdown.wacc b == 11 # 100.
Proof.
  assert (H1 : FinancialData.total_debt ZeroCapital.statements
               = (2023%Z, 0) :: [(2022%Z, 0); (2021%Z, 0)]) by reflexivity.
  assert (H2 : 0 == 0) by reflexivity.
  assert (H3 : ~ MarketData.market_cap Examples.quote == 0)
    by (vm_compute; discriminate).
  repeat (split; [assumption|]).
  destruct (wacc_debt_free WACCCalculator.init _ _ (25 # 100) _ _ _ H1 H2 H3)
    as (b & E & _ & _ & Ek & Ew).
  exists b. split; [exact E|]. rewrite Ew, Ek. reflexivity.
Defined.

(** X10. With a non-negative market capitalisation and a non-zero total
    capital, the WACC returned lies between the after-tax cost of debt
    [0.05 * (1 - tax_rate)] and the cost of equity, whichever order the two
    are in. *)
Theorem wacc_between_costs (self : WACCCalculator.t) (fd : FinancialData.t)
    (md : MarketData.t) (tax_rate : Q) (latest : Period) (debt : Q) (rest : Dict) :
  FinancialData.total_debt fd = (latest, debt) :: rest ->
  0 <= MarketData.market_cap md ->
  ~ Qabs debt + MarketData.market_cap md == 0 ->
  exists b,
    WACCCalculator.calculate_wacc self fd md tax_rate = Ok (WaccDict b)
    /\ WaccBreakdown.cost_of_debt b = 5 # 100
    /\ Qmin (WaccBreakdown.cost_of_equity b) ((5 # 100) * (1 - tax_rate))
       <= WaccBreakdown.wacc b
    /\ WaccBreakdown.wacc b
       <= Qmax (WaccBreakdown.cost_of_equity b) ((5 # 100) * (1 - tax_rate)).
Proof.
  intros Hd Hcap Htotal.
  destruct (latest_debt _ _ _ _ Hd) as [Hi Hg].
  unfold WACCCalculator.calculate_wacc. rewrite Hi. cbn [bind].
  rewrite Hg. cbn [bind]. rewrite (Qeq_bool_false _ _ Htotal).
  eexists. split; [reflexivity|]. split; [reflexivity|].
  cbn [WaccBreakdown.wacc WaccBreakdown.cost_of_equity].
  unfold WACCCalculator._estimate_cost_of_debt.
  pose proof (Qabs_nonneg debt) as Hdebt.
  set (D := Qabs debt) in *. set (E := MarketData.market_cap md) in *.
  set (ke := WACCCalculator.risk_free_rate self
             + MarketData.beta md * WACCCalculator.market_risk_premium self).
  set (kd := (5 # 100) * (1 - tax_rate)).
  assert (Hpos : 0 < D + E) by lra.
  assert (Hw : E / (D + E) * ke + D / (D + E) * (5 # 100) * (1 - tax_rate)
               == (E * ke + D * kd) / (D + E)) by (unfold kd; field; lra).
  rewrite Hw. split.
  - apply Qle_shift_div_l; [exact Hpos|].
    pose proof (Q.le_min_l ke kd). pose proof (Q.le_min_r ke kd).
    set (m := Qmin ke kd) in *. nra.
  - apply Qle_shift_div_r; [exact Hpos|].
    pose proof (Q.le_max_l ke kd). pose proof (Q.le_max_r ke kd).
    set (m := Qmax ke kd) in *. nra.
Qed.

Lemma wacc_between_costs_witness :
  FinancialData.total_debt Examples.growing
  = (2023%Z, 50) :: [(2022%Z, 0); (2021%Z, 0)]
  /\ 0 <= MarketData.market_cap Examples.quote
  /\ ~ Qabs 50 + MarketData.market_cap Examples.quote == 0
  /\ exists b,
       WACCCalculator.calculate_wacc WACCCalculator.init Examples.growing
         Examples.quote (25 # 100) = Ok (WaccDict b)
       /\ WaccBreakdown.wacc b <= 11 # 100.
Proof.
  assert (H1 : FinancialData.total_debt Examples.growing
               = (2023%Z, 50) :: [(2022%Z, 0); (2021%Z, 0)]) by reflexivity.
  assert (H2 : 0 <= MarketData.market_cap Examples.quote)
    by (vm_compute; discriminate).
  assert (H3 : ~ Qabs 50 + MarketData.market_cap Examples.quote == 0)
    by (vm_compute; discriminate).
  repeat (split; [assumption|]).
  destruct (wacc_between_costs WACCCalculator.init _ _ (25 # 100) _ _ _
              H1 H2 H3) as (b & E & _ & _ & Hmax).
  exists b. split; [exact E|].
  eapply Qle_trans; [exact Hmax|].
  vm_compute in E. injection E as <-. vm_compute. discriminate.
Defined.

(** X11. [calculate_wacc] reads the financial data only through the absolute
    value of the latest total debt: negating that figure, or changing the
    debt of the older periods, leaves the result unchanged. *)
Theorem wacc_ignores_debt_sign (self : WACCCalculator.t)
    (fd fd' : FinancialData.t) (md : MarketData.t) (tax_rate : Q)
    (latest latest' : Period) (debt : Q) (rest rest' : Dict) :
  FinancialData.total_debt fd = (latest, debt) :: rest ->
  FinancialData.total_debt fd' = (latest', - debt) :: rest' ->
  WACCCalculator.calculate_wacc self fd' md tax_rate
  = WACCCalculator.calculate_wacc self fd md tax_rate.
Proof.
  intros Hd Hd'.
  destruct (latest_debt _ _ _ _ Hd) as [Hi Hg].
  destruct (latest_debt _ _ _ _ Hd') as [Hi' Hg'].
  unfold WACCCalculator.calculate_wacc.
  rewrite Hi, Hi'. cbn [bind]. rewrite Hg, Hg'. cbn [bind].
  rewrite Qabs_opp_eq. reflexivity.
Qed.

Lemma wacc_ignores_debt_sign_witness :
  FinancialData.total_debt Examples.growing
  = (2023%Z, 50) :: [(2022%Z, 0); (2021%Z, 0)]
  /\ FinancialData.total_debt NegativeDebt.statements
     = (2023%Z, - 50) :: [(2022%Z, 7); (2021%Z, 9)]
  /\ WACCCalculator.calculate_wacc WACCCalculator.init NegativeDebt.statements
       Examples.quote (25 # 100)
     = WACCCalculator.calculate_wacc WACCCalculator.init Examples.growing
         Examples.quote (25 # 100).
Proof.
  assert (H1 : FinancialData.total_debt Examples.growing
               = (2023%Z, 50) :: [(2022%Z, 0); (2021%Z, 0)]) by reflexivity.
  assert (H2 : FinancialData.total_debt NegativeDebt.statements
               = (2023%Z, - 50) :: [(2022%Z, 7); (2021%Z, 9)]) by reflexivity.
  repeat (split; [assumption|]).
  exact (wacc_ignores_debt_sign _ _ _ _ _ _ _ _ _ _ H1 H2).
Defined.

(** ** Keys missing from a line item *)

Lemma getitem_missing (d : Dict) (k : Period) :
  ~ In k (keys d) -> getitem d k = Raise KeyError.
Proof.
  induction d as [|[k' v] d IH]; simpl; intro H; [reflexivity|].
  destruct (Z.eqb_spec k k') as [E | _].
  - exfalso. apply H. left. now symmetry.
  - apply IH. intro Hin. apply H. now right.
Qed.

Lemma for_each_ext {A S : Type} (xs : list A)
    (step step' : S -> A -> result S) :
  (forall s x, step s x = step' s x) ->
  forall s, for_each xs step s = for_each xs step' s.
Proof.
  intro H. induction xs as [|x xs IH]; intro s; simpl; [reflexivity|].
  rewrite H. destruct (step' s x); simpl; [apply IH | reflexivity].
Qed.

Lemma two_key_loop_ok (first second : Dict)
    (update : list Q -> Q -> Q -> list Q) (ys : list Period) :
  (forall y, In y ys -> In y (keys first) /\ In y (keys second)) ->
  forall acc, exists acc',
    for_each ys (two_key_step first second update) acc = Ok acc'.
Proof.
  induction ys as [|y ys IH]; intros H acc; simpl; [now exists acc|].
  destruct (H y (or_introl eq_refl)) as [H1 H2].
  unfold two_key_step at 1.
  rewrite (getitem_lookup _ _ H1), (getitem_lookup _ _ H2). cbn [bind].
  apply IH. intros z Hz. apply H. now right.
Qed.

Lemma two_key_loop_raises (first second : Dict)
    (update : list Q -> Q -> Q -> list Q) (ys : list Period) :
  Exists (fun y => ~ (In y (keys first) /\ In y (keys second))) ys ->
  forall acc,
    for_each ys (two_key_step first second update) acc = Raise KeyError.
Proof.
  induction ys as [|y ys IH]; intros H acc; [inversion H|].
  simpl. unfold two_key_step at 1.
  destruct (in_dec Z.eq_dec y (keys first)) as [H1 | H1].
  - rewrite (getitem_lookup _ _ H1). cbn [bind].
    destruct (in_dec Z.eq_dec y (keys second)) as [H2 | H2].
    + rewrite (getitem_lookup _ _ H2). cbn [bind]. apply IH.
      inversion H as [? ? Hy | ? ? Hys]; subst; [|exact Hys].
      exfalso. apply Hy. now split.
    + now rewrite (getitem_missing _ _ H2).
  - now rewrite (getitem_missing _ _ H1).
Qed.

Lemma keyed_dec (first second : Dict) (ys : list Period) :
  {Forall (fun y => In y (keys first) /\ In y (keys second)) ys}
  + {Exists (fun y => ~ (In y (keys first) /\ In y (keys second))) ys}.
Proof.
  apply Forall_Exists_dec. intro y.
  destruct (in_dec Z.eq_dec y (keys first));
    destruct (in_dec Z.eq_dec y (keys second)); tauto.
Defined.

Lemma ebit_margin_step_shape (fd : FinancialData.t) :
  forall acc year,
    DCFModel.ebit_margin_step fd acc year
    = two_key_step (FinancialData.revenue fd) (FinancialData.ebit fd)
        (fun acc revenue ebit =>
           if ne0 revenue then acc ++ [ebit / revenue] else acc)
        acc year.
Proof.
  intros acc year. unfold DCFModel.ebit_margin_step, two_key_step.
  destruct (getitem (FinancialData.revenue fd) year) as [r|]; [|reflexivity].
  destruct (getitem (FinancialData.ebit fd) year) as [e|]; [|reflexivity].
  cbn [bind]. now destruct (ne0 r).
Qed.

Lemma tax_rate_step_shape (fd : FinancialData.t) :
  forall acc year,
    DCFModel.tax_rate_step fd acc year
    = two_key_step (FinancialData.ebit fd) (FinancialData.tax_expense fd)
        (fun acc ebit tax_expense =>
           if gt0 ebit then acc ++ [Qabs tax_expense / ebit] else acc)
        acc year.
Proof.
  intros acc year. unfold DCFModel.tax_rate_step, two_key_step.
  destruct (getitem (FinancialData.ebit fd) year) as [e|]; [|reflexivity].
  destruct (getitem (FinancialData.tax_expense fd) year) as [t|]; [|reflexivity].
  cbn [bind]. now destruct (gt0 e).
Qed.

Lemma capex_ratio_step_shape (fd : FinancialData.t) :
  forall acc year,
    DCFModel.capex_ratio_step fd acc year
    = two_key_step (FinancialData.revenue fd) (FinancialData.capex fd)
        (fun acc revenue raw =>
           if ne0 revenue then acc ++ [Qabs raw / revenue] else acc)
        acc year.
Proof.
  intros acc year. unfold DCFModel.capex_ratio_step, two_key_step.
  destruct (getitem (FinancialData.revenue fd) year) as [r|]; [|reflexivity].
  destruct (getitem (FinancialData.capex fd) year) as [c|]; [|reflexivity].
  cbn [bind]. now destruct (ne0 r).
Qed.

(** X12. [calculate_historical_averages] returns the averages exactly when
    every period of [revenue] is also a key of [ebit], [tax_expense] and
    [capex]; when one of the three lacks a revenue period it raises
    [KeyError]. *)
Theorem historical_averages_key_errors (self : DCFModel.t)
    (fd : FinancialData.t) :
  DCFModel.financial_data self = Some fd ->
  ((forall year, In year (keys (FinancialData.revenue fd)) ->
      In year (keys (FinancialData.ebit fd))
      /\ In year (keys (FinancialData.tax_expense fd))
      /\ In year (keys (FinancialData.capex fd))) ->
   exists a, DCFModel.calculate_historical_averages self = Ok (Some a))
  /\ ((exists year, In year (keys (FinancialData.revenue fd))
         /\ ~ (In year (keys (FinancialData.ebit fd))
               /\ In year (keys (FinancialData.tax_expense fd))
               /\ In year (keys (FinancialData.capex fd)))) ->
      DCFModel.calculate_historical_averages self = Raise KeyError).
Proof.
  intro Hfd. unfold DCFModel.calculate_historical_averages. rewrite Hfd.
  rewrite revenue_growth_loop. cbn [bind].
  rewrite (for_each_ext _ _ _ (ebit_margin_step_shape fd)).
  rewrite (for_each_ext _ _ _ (tax_rate_step_shape fd)).
  rewrite (for_each_ext _ _ _ (capex_ratio_step_shape fd)).
  set (years := keys (FinancialData.revenue fd)).
  assert (Hrev : forall y, In y years -> In y (keys (FinancialData.revenue fd)))
    by (intros; assumption).
  split.
  - intro Hall.
    destruct (two_key_loop_ok (FinancialData.revenue fd) (FinancialData.ebit fd)
                (fun acc revenue ebit =>
                   if ne0 revenue then acc ++ [ebit / revenue] else acc)
                years) with (acc := @nil Q) as [m ->].
    { intros y Hy. split; [now apply Hrev | now apply Hall]. }
    cbn [bind].
    destruct (two_key_loop_ok (FinancialData.ebit fd)
                (FinancialData.tax_expense fd)
                (fun acc ebit tax_expense =>
                   if gt0 ebit then acc ++ [Qabs tax_expense / ebit] else acc)
                years) with (acc := @nil Q) as [t ->].
    { intros y Hy. split; now apply Hall. }
    cbn [bind].
    destruct (two_key_loop_ok (FinancialData.revenue fd)
                (FinancialData.capex fd)
                (fun acc revenue raw =>
                   if ne0 revenue then acc ++ [Qabs raw / revenue] else acc)
                years) with (acc := @nil Q) as [c ->].
    { intros y Hy. split; [now apply Hrev | now apply Hall]. }
    cbn [bind]. eexists. reflexivity.
  - intros (y0 & Hy0 & Hmiss).
    destruct (keyed_dec (FinancialData.revenue fd) (FinancialData.ebit fd) years)
      as [F1 | E1]; [|now rewrite two_key_loop_raises].
    rewrite Forall_forall in F1.
    destruct (two_key_loop_ok _ _
                (fun acc revenue ebit =>
                   if ne0 revenue then acc ++ [ebit / revenue] else acc)
                years F1) with (acc := @nil Q) as [m ->].
    cbn [bind].
    destruct (keyed_dec (FinancialData.ebit fd) (FinancialData.tax_expense fd)
                years) as [F2 | E2]; [|now rewrite two_key_loop_raises].
    rewrite Forall_forall in F2.
    destruct (two_key_loop_ok _ _
                (fun acc ebit tax_expense =>
                   if gt0 ebit then acc ++ [Qabs tax_expense / ebit] else acc)
                years F2) with (acc := @nil Q) as [t ->].
    cbn [bind].
    rewrite two_key_loop_raises; [reflexivity|].
    apply Exists_exists. exists y0. split; [exact Hy0|].
    intros [_ Hc]. apply Hmiss.
    destruct (F1 y0 Hy0) as [_ He]. destruct (F2 y0 Hy0) as [_ Ht].
    now repeat split.
Qed.

Lemma historical_averages_key_errors_witness :
  DCFModel.financial_data MissingEbit.model = Some MissingEbit.statements
  /\ In 2021%Z (keys (FinancialData.revenue MissingEbit.statements))
  /\ ~ In 2021%Z (keys (FinancialData.ebit MissingEbit.statements))
  /\ DCFModel.calculate_historical_averages MissingEbit.model = Raise KeyError.
Proof.
  assert (H1 : DCFModel.financial_data MissingEbit.model
               = Some MissingEbit.statements) by reflexivity.
  assert (H2 : In 2021%Z (keys (FinancialData.revenue MissingEbit.statements)))
    by (simpl; tauto).
  assert (H3 : ~ In 2021%Z (keys (FinancialData.ebit MissingEbit.statements)))
    by (simpl; intuition discriminate).
  repeat (split; [assumption|]).
  apply (proj2 (historical_averages_key_errors _ _ H1)).
  exists 2021%Z. split; [exact H2|]. intros [He _]. exact (H3 He).
Defined.

(** ** What the averages returned are *)

Lemma historical_averages_growth (self : DCFModel.t) (fd : FinancialData.t)
    (a : Averages.t) :
  DCFModel.financial_data self = Some fd ->
  DCFModel.calculate_historical_averages self = Ok (Some a) ->
  Averages.revenue_growth a
  = DCFModel.mean_or
      (map (Spec.growth_ratio Spec.by_abs_older_revenue)
           (filter Spec.qualifying
                   (latest_first_pairs (values (FinancialData.revenue fd)))))
      (5 # 100).
Proof.
  intros Hfd H. unfold DCFModel.calculate_historical_averages in H.
  rewrite Hfd, revenue_growth_loop in H. cbn [bind app] in H.
  rewrite growth_loop_pairs in H.
  destruct (for_each _ (DCFModel.ebit_margin_step fd) []); [|discriminate].
  cbn [bind] in H.
  destruct (for_each _ (DCFModel.tax_rate_step fd) []); [|discriminate].
  cbn [bind] in H.
  destruct (for_each _ (DCFModel.capex_ratio_step fd) []); [|discriminate].
  cbn [bind] in H. injection H as <-. reflexivity.
Qed.

Lemma sum_from (xs : list Q) (a : Q) :
  fold_left Qplus xs a == a + fold_left Qplus xs 0.
Proof.
  revert a. induction xs as [|x xs IH]; intro a; simpl; [ring|].
  rewrite (IH (a + x)), (IH (0 + x)). ring.
Qed.

Lemma sum_constant (xs : list Q) (c : Q) :
  (forall x, In x xs -> x == c) ->
  sum xs == inject_Z (Z.of_nat (List.length xs)) * c.
Proof.
  unfold sum. induction xs as [|x xs IH]; intro H.
  - simpl. ring.
  - cbn [fold_left List.length]. rewrite sum_from, IH, (H x (or_introl eq_refl)).
    + rewrite Nat2Z.inj_succ, <- Z.add_1_r, inject_Z_plus. ring.
    + intros y Hy. apply H. now right.
Qed.

Lemma length_positive {A : Type} (xs : list A) :
  xs <> [] -> 0 < inject_Z (Z.of_nat (List.length xs)).
Proof.
  destruct xs; [congruence|]. intros _.
  unfold Qlt. simpl. lia.
Qed.

Lemma mean_constant (xs : list Q) (c : Q) :
  xs <> [] -> (forall x, In x xs -> x == c) -> mean xs == c.
Proof.
  intros Hne H. unfold mean. rewrite (sum_constant xs c H).
  pose proof (length_positive xs Hne). field. lra.
Qed.

(** X13. When the revenue column has at least two periods, every older
    revenue positive and every newer revenue equal to the older one times
    [1 + g], the average revenue growth returned is [g]. *)
Theorem constant_growth_recovered (self : DCFModel.t) (fd : FinancialData.t)
    (a : Averages.t) (g : Q) :
  DCFModel.financial_data self = Some fd ->
  DCFModel.calculate_historical_averages self = Ok (Some a) ->
  (2 <= List.length (FinancialData.revenue fd))%nat ->
  (forall older newer,
      In (older, newer) (latest_first_pairs (values (FinancialData.revenue fd))) ->
      0 < older /\ newer == older * (1 + g)) ->
  Averages.revenue_growth a == g.
Proof.
  intros Hfd Ha Hlen Hpairs.
  rewrite (historical_averages_growth self fd a Hfd Ha).
  set (pairs := latest_first_pairs (values (FinancialData.revenue fd))) in *.
  assert (Hall : forallb Spec.qualifying pairs = true).
  { apply forallb_forall. intros [older newer] Hin.
    destruct (Hpairs _ _ Hin) as [Hpos _].
    apply ne0_true. simpl. lra. }
  rewrite (forallb_filter_id _ _ Hall).
  assert (Hne : pairs <> []).
  { subst pairs. unfold values.
    destruct (FinancialData.revenue fd) as [|p1 [|p2 r]];
      simpl in Hlen; try lia. discriminate. }
  destruct pairs as [|pair pairs'] eqn:E; [congruence|].
  cbn [map DCFModel.mean_or].
  change (mean (map (Spec.growth_ratio Spec.by_abs_older_revenue)
                    (pair :: pairs')) == g).
  apply mean_constant; [discriminate|].
  intros x Hx. apply in_map_iff in Hx. destruct Hx as [[older newer] [<- Hin]].
  destruct (Hpairs _ _ Hin) as [Hpos Hnew].
  unfold Spec.growth_ratio, Spec.by_abs_older_revenue. cbn [fst snd].
  rewrite Qabs_pos by lra. rewrite Hnew. field. lra.
Qed.

Lemma constant_growth_recovered_witness :
  DCFModel.financial_data
    (Examples.model 5 (25 # 1000) Examples.growing Examples.quote)
  = Some Examples.growing
  /\ (2 <= List.length (FinancialData.revenue Examples.growing))%nat
  /\ (forall older newer,
         In (older, newer)
            (latest_first_pairs (values (FinancialData.revenue Examples.growing))) ->
         0 < older /\ newer == older * (1 + (1 # 10)))
  /\ exists a,
       DCFModel.calculate_historical_averages
         (Examples.model 5 (25 # 1000) Examples.growing Examples.quote)
       = Ok (Some a)
       /\ Averages.revenue_growth a == 1 # 10.
Proof.
  assert (H1 : DCFModel.financial_data
                 (Examples.model 5 (25 # 1000) Examples.growing Examples.quote)
               = Some Examples.growing) by reflexivity.
  assert (H2 : (2 <= List.length (FinancialData.revenue Examples.growing))%nat)
    by (simpl; lia).
  assert (H3 : forall older newer,
             In (older, newer)
                (latest_first_pairs
                   (values (FinancialData.revenue Examples.growing))) ->
             0 < older /\ newer == older * (1 + (1 # 10))).
  { intros older newer Hin. simpl in Hin.
    repeat (destruct Hin as [E | Hin];
            [injection E as <- <-; split; vm_compute; reflexivity|]).
    contradiction. }
  repeat (split; [assumption|]).
  exists (averages_of Examples.growing).
  assert (Ha : DCFModel.calculate_historical_averages
                 (Examples.model 5 (25 # 1000) Examples.growing Examples.quote)
               = Ok (Some (averages_of Examples.growing)))
    by (vm_compute; reflexivity).
  split; [exact Ha|].
  exact (constant_growth_recovered _ _ _ _ H1 Ha H2 H3).
Defined.

(** X14. With fewer than two periods of revenue there is no adjacent pair:
    the revenue growth returned is the fallback 0.05. *)
Theorem single_period_growth_fallback (self : DCFModel.t)
    (fd : FinancialData.t) (a : Averages.t) :
  DCFModel.financial_data self = Some fd ->
  DCFModel.calculate_historical_averages self = Ok (Some a) ->
  (List.length (FinancialData.revenue fd) <= 1)%nat ->
  Averages.revenue_growth a = 5 # 100.
Proof.
  intros Hfd Ha Hlen.
  rewrite (historical_averages_growth self fd a Hfd Ha).
  unfold values.
  destruct (FinancialData.revenue fd) as [|p1 [|p2 r]];
    simpl in Hlen; try lia; reflexivity.
Qed.

Lemma for_each_invariant {A S : Type} (P : S -> Prop) (xs : list A)
    (step : S -> A -> result S) :
  (forall s x s', P s -> step s x = Ok s' -> P s') ->
  forall s r, P s -> for_each xs step s = Ok r -> P r.
Proof.
  intro Hstep. induction xs as [|x xs IH]; intros s r Hs H; simpl in H.
  - injection H as <-. exact Hs.
  - destruct (step s x) as [s'|] eqn:E; [|discriminate].
    cbn [bind] in H. apply (IH s' r); [|exact H].
    now apply (Hstep s x).
Qed.

Lemma sum_nonneg (xs : list Q) :
  Forall (fun x => 0 <= x) xs -> 0 <= sum xs.
Proof.
  unfold sum. induction xs as [|x xs IH]; intro H; [simpl; lra|].
  inversion H as [|? ? Hx Hxs]; subst.
  cbn [fold_left]. rewrite sum_from. specialize (IH Hxs). lra.
Qed.

Lemma mean_or_nonneg (xs : list Q) (default : Q) :
  0 <= default -> Forall (fun x => 0 <= x) xs ->
  0 <= DCFModel.mean_or xs default.
Proof.
  intros Hd H. destruct xs as [|x xs]; [exact Hd|].
  unfold DCFModel.mean_or, mean.
  apply Qle_shift_div_l.
  - apply length_positive. discriminate.
  - rewrite Qmult_0_l. now apply sum_nonneg.
Qed.

(** X15. The tax rate [calculate_historical_averages] returns is never
    negative: every rate averaged is [|tax expense| / EBIT] for a strictly
    positive EBIT, and the fallback is 0.25. *)
Theorem tax_rate_nonneg (self : DCFModel.t) (a : Averages.t) :
  DCFModel.calculate_historical_averages self = Ok (Some a) ->
  0 <= Averages.tax_rate a.
Proof.
  intro H. unfold DCFModel.calculate_historical_averages in H.
  destruct (DCFModel.financial_data self) as [fd|]; [|discriminate].
  destruct (for_each _ (DCFModel.revenue_growth_step _) []); [|discriminate].
  cbn [bind] in H.
  destruct (for_each _ (DCFModel.ebit_margin_step fd) []); [|discriminate].
  cbn [bind] in H.
  destruct (for_each _ (DCFModel.tax_rate_step fd) []) as [rates|] eqn:E;
    [|discriminate].
  cbn [bind] in H.
  destruct (for_each _ (DCFModel.capex_ratio_step fd) []); [|discriminate].
  cbn [bind] in H. injection H as <-. cbn [Averages.tax_rate].
  apply mean_or_nonneg; [lra|].
  apply (for_each_invariant (Forall (fun x => 0 <= x)) _ _) with (3 := E);
    [|constructor].
  intros s year s' Hs Hstep. unfold DCFModel.tax_rate_step in Hstep.
  destruct (getitem (FinancialData.ebit fd) year) as [e|]; [|discriminate].
  destruct (getitem (FinancialData.tax_expense fd) year) as [t|];
    [|discriminate].
  cbn [bind] in Hstep. destruct (gt0 e) eqn:G; injection Hstep as <-;
    [|exact Hs].
  apply Forall_app. split; [exact Hs|]. constructor; [|constructor].
  apply gt0_true in G. apply Qle_shift_div_l; [exact G|].
  rewrite Qmult_0_l. apply Qabs_nonneg.
Qed.

Lemma tax_rate_nonneg_witness :
  exists a,
    DCFModel.calculate_historical_averages
      (Examples.model 5 (25 # 1000) NegativeDebt.statements Examples.quote)
    = Ok (Some a)
    /\ 0 <= Averages.tax_rate a.
Proof.
  eexists. split; [vm_compute; reflexivity|].
  apply (tax_rate_nonneg
           (Examples.model 5 (25 # 1000) NegativeDebt.statements
              Examples.quote)).
  vm_compute. reflexivity.
Defined.

Lemma single_period_growth_fallback_witness :
  DCFModel.financial_data SinglePeriod.model = Some SinglePeriod.statements
  /\ (List.length (FinancialData.revenue SinglePeriod.statements) <= 1)%nat
  /\ exists a,
       DCFModel.calculate_historical_averages SinglePeriod.model = Ok (Some a)
       /\ Averages.revenue_growth a = 5 # 100.
Proof.
  assert (H1 : DCFModel.financial_data SinglePeriod.model
               = Some SinglePeriod.statements) by reflexivity.
  assert (H2 : (List.length (FinancialData.revenue SinglePeriod.statements)
                <= 1)%nat) by (simpl; lia).
  repeat (split; [assumption|]).
  exists (averages_of SinglePeriod.statements).
  assert (Ha : DCFModel.calculate_historical_averages SinglePeriod.model
               = Ok (Some (averages_of SinglePeriod.statements)))
    by (vm_compute; reflexivity).
  split; [exact Ha|].
  exact (single_period_growth_fallback _ _ _ H1 Ha H2).
Defined.

(** ** Consecutive years of the projection *)

Lemma project_cash_flows_inv (self : DCFModel.t) (a : Averages.t)
    (projections : list Projection.t) :
  DCFModel.calculate_historical_averages self = Ok (Some a) ->
  DCFModel.project_cash_flows self = Ok (Some projections) ->
  exists fd,
    DCFModel.financial_data self = Some fd
    /\ index (values (FinancialData.revenue fd)) 0 = Ok (base_revenue_of fd)
    /\ projections
       = projections_of a (base_revenue_of fd) (DCFModel.projection_years self).
Proof.
  intros Ha H. unfold DCFModel.project_cash_flows in H. rewrite Ha in H.
  cbn [bind] in H.
  destruct (DCFModel.financial_data self) as [fd|]; [|discriminate].
  exists fd. split; [reflexivity|]. unfold base_revenue_of.
  destruct (values (FinancialData.revenue fd)) as [|r0 rs]; [discriminate|].
  change (index (r0 :: rs) 0) with (Ok (A := Q) r0) in H. cbn [bind] in H.
  rewrite fold_left_appends in H. injection H as <-.
  split; reflexivity.
Qed.

Lemma projections_nth_inv (a : Averages.t) (r0 : Q) (n : Z) (i : nat)
    (p : Projection.t) :
  nth_error (projections_of a r0 n) i = Some p ->
  p = DCFModel.project_year a r0 (Z.of_nat i + 1).
Proof.
  intro H.
  assert (Hi : (i < List.length (projections_of a r0 n))%nat)
    by (apply nth_error_Some; congruence).
  rewrite projections_length in Hi.
  rewrite <- (Nat2Z.id i) in H.
  replace (Z.of_nat i) with (Z.of_nat i + 1 - 1)%Z in H by lia.
  rewrite projections_nth in H by lia. congruence.
Qed.

Lemma consecutive_projections (self : DCFModel.t) (a : Averages.t)
    (projections : list Projection.t) (i : nat) (p q : Projection.t) :
  DCFModel.calculate_historical_averages self = Ok (Some a) ->
  DCFModel.project_cash_flows self = Ok (Some projections) ->
  nth_error projections i = Some p ->
  nth_error projections (S i) = Some q ->
  Projection.year q = (Projection.year p + 1)%Z
  /\ Projection.revenue q
     == Projection.revenue p * (1 + Averages.revenue_growth a)
  /\ Projection.fcf q == Projection.fcf p * (1 + Averages.revenue_growth a)
  /\ Projection.fcf p
     == Projection.revenue p
        * (Averages.ebit_margin a * (1 - Averages.tax_rate a) + (3 # 100)
           - Averages.capex_ratio a - (2 # 100)).
Proof.
  intros Ha Hp Hi Hsi.
  destruct (project_cash_flows_inv self a projections Ha Hp) as (fd & _ & _ & ->).
  apply projections_nth_inv in Hi. apply projections_nth_inv in Hsi.
  subst p q. unfold DCFModel.project_year, pow.
  cbn [Projection.year Projection.revenue Projection.fcf].
  set (g := Averages.revenue_growth a).
  assert (E : (1 + g) ^ (Z.of_nat (S i) + 1) == (1 + g) ^ (Z.of_nat i + 1) * (1 + g)).
  { replace (Z.of_nat (S i) + 1)%Z with ((Z.of_nat i + 1) + 1)%Z by lia.
    rewrite Qpower_plus' by lia. reflexivity. }
  repeat split.
  - lia.
  - rewrite E. ring.
  - rewrite E. ring.
  - ring.
Qed.

(** X16. In the projection returned, in exact arithmetic, each year's
    revenue is the previous year's times [1 + revenue growth] and so is each year's free cash flow:
    recomputing every year from the base revenue gives the chained
    compounding; and each year's free cash flow is its revenue times
    [ebit_margin * (1 - tax_rate) + 0.03 - capex_ratio - 0.02]. *)
Theorem projection_compounds (self : DCFModel.t) (a : Averages.t)
    (projections : list Projection.t) (i : nat) (p q : Projection.t) :
  DCFModel.calculate_historical_averages self = Ok (Some a) ->
  DCFModel.project_cash_flows self = Ok (Some projections) ->
  nth_error projections i = Some p ->
  nth_error projections (S i) = Some q ->
  Projection.year q = (Projection.year p + 1)%Z
  /\ Projection.revenue q
     == Projection.revenue p * (1 + Averages.revenue_growth a)
  /\ Projection.fcf q == Projection.fcf p * (1 + Averages.revenue_growth a)
  /\ Projection.fcf p
     == Projection.revenue p
        * (Averages.ebit_margin a * (1 - Averages.tax_rate a) + (3 # 100)
           - Averages.capex_ratio a - (2 # 100)).
Proof. exact (consecutive_projections self a projections i p q). Qed.

Lemma projection_compounds_witness :
  exists p q,
    DCFModel.calculate_historical_averages
      (Examples.model 5 (25 # 1000) Examples.growing Examples.quote)
    = Ok (Some (averages_of Examples.growing))
    /\ nth_error (projections_of (averages_of Examples.growing) 121 5) 1 = Some p
    /\ nth_error (projections_of (averages_of Examples.growing) 121 5) 2 = Some q
    /\ Projection.revenue q
       == Projection.revenue p
          * (1 + Averages.revenue_growth (averages_of Examples.growing)).
Proof.
  assert (Ha : DCFModel.calculate_historical_averages
                 (Examples.model 5 (25 # 1000) Examples.growing Examples.quote)
               = Ok (Some (averages_of Examples.growing)))
    by (vm_compute; reflexivity).
  assert (Hp : DCFModel.project_cash_flows
                 (Examples.model 5 (25 # 1000) Examples.growing Examples.quote)
               = Ok (Some (projections_of (averages_of Examples.growing) 121 5))).
  { rewrite (project_cash_flows_ok _ Examples.growing);
      [reflexivity | reflexivity | repeat split; reflexivity | discriminate]. }
  eexists. eexists. split; [exact Ha|].
  split; [reflexivity|]. split; [reflexivity|].
  exact (proj1 (proj2 (projection_compounds _ _ _ 1 _ _ Ha Hp eq_refl eq_refl))).
Defined.

(** X17. With a positive base revenue and a positive revenue growth the
    projected revenue, in exact arithmetic, is positive and strictly
    increases from each year to the next. *)
Theorem projected_revenue_increases (self : DCFModel.t) (a : Averages.t)
    (fd : FinancialData.t) (projections : list Projection.t) (i : nat)
    (p q : Projection.t) :
  DCFModel.financial_data self = Some fd ->
  DCFModel.calculate_historical_averages self = Ok (Some a) ->
  DCFModel.project_cash_flows self = Ok (Some projections) ->
  0 < base_revenue_of fd ->
  0 < Averages.revenue_growth a ->
  nth_error projections i = Some p ->
  nth_error projections (S i) = Some q ->
  0 < Projection.revenue p /\ Projection.revenue p < Projection.revenue q.
Proof.
  intros Hfd Ha Hp Hr Hg Hi Hsi.
  destruct (consecutive_projections self a projections i p q Ha Hp Hi Hsi)
    as (_ & Hrev & _).
  destruct (project_cash_flows_inv self a projections Ha Hp) as (fd' & Hfd' & _ & ->).
  rewrite Hfd in Hfd'. injection Hfd' as <-.
  apply projections_nth_inv in Hi.
  assert (Hpos : 0 < Projection.revenue p).
  { subst p. unfold DCFModel.project_year, pow. cbn [Projection.revenue].
    apply Qmult_lt_0_compat; [exact Hr|]. apply Qpower_0_lt. lra. }
  split; [exact Hpos|]. rewrite Hrev.
  set (r := Projection.revenue p) in *.
  set (g := Averages.revenue_growth a) in *. nra.
Qed.

Lemma projected_revenue_increases_witness :
  exists p q,
    0 < base_revenue_of Examples.growing
    /\ 0 < Averages.revenue_growth (averages_of Examples.growing)
    /\ nth_error (projections_of (averages_of Examples.growing) 121 5) 0 = Some p
    /\ nth_error (projections_of (averages_of Examples.growing) 121 5) 1 = Some q
    /\ Projection.revenue p < Projection.revenue q.
Proof.
  assert (Ha : DCFModel.calculate_historical_averages
                 (Examples.model 5 (25 # 1000) Examples.growing Examples.quote)
               = Ok (Some (averages_of Examples.growing)))
    by (vm_compute; reflexivity).
  assert (Hp : DCFModel.project_cash_flows
                 (Examples.model 5 (25 # 1000) Examples.growing Examples.quote)
               = Ok (Some (projections_of (averages_of Examples.growing) 121 5))).
  { rewrite (project_cash_flows_ok _ Examples.growing);
      [reflexivity | reflexivity | repeat split; reflexivity | discriminate]. }
  assert (H1 : 0 < base_revenue_of Examples.growing) by (vm_compute; reflexivity).
  assert (H2 : 0 < Averages.revenue_growth (averages_of Examples.growing))
    by (vm_compute; reflexivity).
  eexists. eexists. split; [exact H1|]. split; [exact H2|].
  split; [reflexivity|]. split; [reflexivity|].
  exact (proj2 (projected_revenue_increases
                  (Examples.model 5 (25 # 1000) Examples.growing Examples.quote)
                  _ Examples.growing _ 0 _ _ eq_refl Ha Hp H1 H2
                  eq_refl eq_refl)).
Defined.

(** ** Failures of a request *)

(** X18. For a request that is run (a click and a ticker): an exception
    raised while the provider is contacted is stored as a failure carrying its
    text; statements that could not be fetched, or a price history whose
    retrieval raised, are stored as the failure "Failed to fetch data or
    calculate valuation".  In each case the sensitivity chart shows no data. *)
Theorem calculate_dcf_failures (yf : string -> result YFinance.Ticker)
    (n_clicks : Z) (ticker : string)
    (risk_free_rate market_risk_premium terminal_growth_rate : Q)
    (projection_years : Z) :
  n_clicks <> 0%Z ->
  ticker <> EmptyString ->
  (forall e,
      yf (upper ticker) = Raise e ->
      Dashboard.calculate_dcf yf n_clicks ticker risk_free_rate
        market_risk_premium terminal_growth_rate projection_years
      = Dashboard.StoreFailure (Dashboard.StrOf e))
  /\ (forall stock,
         yf (upper ticker) = Ok stock ->
         YFinance.key_metrics stock = None
         \/ (exists e, YFinance.history_close stock = Raise e) ->
         Dashboard.calculate_dcf yf n_clicks ticker risk_free_rate
           market_risk_premium terminal_growth_rate projection_years
         = Dashboard.StoreFailure
             (Dashboard.Literal "Failed to fetch data or calculate valuation"))
  /\ (forall error,
         Dashboard.update_sensitivity_chart (Dashboard.StoreFailure error)
         = Ok Dashboard.NoDataAvailable).
Proof.
  intros Hclicks Hticker.
  apply Z.eqb_neq in Hclicks. apply String.eqb_neq in Hticker.
  unfold Dashboard.calculate_dcf. rewrite Hclicks, Hticker. cbn [orb].
  unfold DCFModel.init, FinancialDataFetcher.init.
  split; [|split].
  - intros e He. now rewrite He.
  - intros stock Hs Hmissing. rewrite Hs. cbn [bind].
    unfold Dashboard.set_rates, DCFModel.calculate_dcf_valuation.
    cbn [DCFModel.financial_data DCFModel.market_data].
    unfold FinancialDataFetcher.get_key_metrics,
      FinancialDataFetcher.get_market_data.
    cbn [FinancialDataFetcher.stock].
    destruct Hmissing as [Hk | [e He]].
    + now rewrite Hk.
    + rewrite He. now destruct (YFinance.key_metrics stock).
  - reflexivity.
Qed.

Lemma calculate_dcf_failures_witness :
  1%Z <> 0%Z
  /\ "abc"%string <> EmptyString
  /\ Dashboard.calculate_dcf (fun _ => Raise ProviderError) 1 "abc"
       (45 # 10) (65 # 10) (25 # 10) 5
     = Dashboard.StoreFailure (Dashboard.StrOf ProviderError).
Proof.
  assert (H1 : 1%Z <> 0%Z) by discriminate.
  assert (H2 : "abc"%string <> EmptyString) by discriminate.
  repeat (split; [assumption|]).
  exact (proj1 (calculate_dcf_failures (fun _ => Raise ProviderError) 1 "abc"
                  (45 # 10) (65 # 10) (25 # 10) 5 H1 H2)
           ProviderError eq_refl).
Defined.

(** ** Invariants of a returned valuation *)

Ltac step_in H :=
  match type of H with
  | context [bind ?c _] =>
      let E := fresh "E" in
      destruct c eqn:E; cbn [bind] in H; [|discriminate H]
  end.

Lemma returned_valuation_parts (self : DCFModel.t) (v : Valuation.t) :
  DCFModel.calculate_dcf_valuation self = Ok (Some v) ->
  Valuation.enterprise_value v
  = Valuation.pv_cash_flows v + Valuation.pv_terminal_value v
  /\ DCFModel.project_cash_flows self = Ok (Some (Valuation.projections v))
  /\ (1 <= DCFModel.projection_years self)%Z
  /\ Z.of_nat (List.length (Valuation.projections v))
     = DCFModel.projection_years self
  /\ (exists a,
         Valuation.assumptions v = Some a
         /\ DCFModel.calculate_historical_averages self = Ok (Some a))
  /\ (exists b,
         Valuation.wacc_breakdown v = WaccDict b
         /\ Valuation.wacc v = WaccBreakdown.wacc b)
  /\ (exists md,
         DCFModel.market_data self = Some md
         /\ Valuation.current_price v = MarketData.current_price md).
Proof.
  intro H. unfold DCFModel.calculate_dcf_valuation in H.
  destruct (DCFModel.financial_data self) as [fd|] eqn:Hfd; [|discriminate].
  destruct (DCFModel.market_data self) as [md|] eqn:Hmd; [|discriminate].
  destruct (DCFModel.calculate_historical_averages self) as [averages|] eqn:Ha;
    [|discriminate].
  cbn [bind] in H.
  destruct (WACCCalculator.calculate_wacc _ fd md _) as [[k|b]|] eqn:Hw;
    try discriminate.
  cbn [bind subscript_wacc] in H.
  destruct (DCFModel.project_cash_flows self) as [[[|p ps]|]|] eqn:Hp;
    try discriminate.
  cbn [bind] in H.
  destruct averages as [a|].
  2:{ unfold DCFModel.project_cash_flows in Hp. rewrite Ha in Hp.
      discriminate. }
  destruct (project_cash_flows_inv self a (p :: ps) Ha Hp) as (fd' & _ & _ & Eps).
  repeat step_in H. injection H as <-.
  cbn [Valuation.enterprise_value Valuation.pv_cash_flows
       Valuation.pv_terminal_value Valuation.projections Valuation.assumptions
       Valuation.wacc_breakdown Valuation.wacc Valuation.current_price].
  assert (Hlen : List.length (p :: ps)
                 = Z.to_nat (DCFModel.projection_years self))
    by (rewrite Eps; apply projections_length).
  simpl List.length in Hlen.
  repeat split; try reflexivity.
  - lia.
  - simpl List.length. lia.
  - now exists a.
  - now exists b.
  - now exists md.
Qed.

(** X19. Every valuation [calculate_dcf_valuation] returns has an enterprise
    value equal to the present value of its cash flows plus the present value
    of its terminal value, carries the projection of [project_cash_flows] with
    one entry per year of a horizon of at least one year, the averages of
    [calculate_historical_averages], a WACC breakdown that is the dict whose
    ['wacc'] is the valuation's WACC, and the current price of the market
    data. *)
Theorem returned_valuation_invariants (self : DCFModel.t) (v : Valuation.t) :
  DCFModel.calculate_dcf_valuation self = Ok (Some v) ->
  Valuation.enterprise_value v
  = Valuation.pv_cash_flows v + Valuation.pv_terminal_value v
  /\ DCFModel.project_cash_flows self = Ok (Some (Valuation.projections v))
  /\ (1 <= DCFModel.projection_years self)%Z
  /\ Z.of_nat (List.length (Valuation.projections v))
     = DCFModel.projection_years self
  /\ (exists a,
         Valuation.assumptions v = Some a
         /\ DCFModel.calculate_historical_averages self = Ok (Some a))
  /\ (exists b,
         Valuation.wacc_breakdown v = WaccDict b
         /\ Valuation.wacc v = WaccBreakdown.wacc b)
  /\ (exists md,
         DCFModel.market_data self = Some md
         /\ Valuation.current_price v = MarketData.current_price md).
Proof. exact (returned_valuation_parts self v). Qed.

Lemma returned_valuation_invariants_witness :
  exists v,
    DCFModel.calculate_dcf_valuation
      (Examples.model 5 (25 # 1000) Examples.growing Examples.quote)
    = Ok (Some v)
    /\ Valuation.enterprise_value v
       = Valuation.pv_cash_flows v + Valuation.pv_terminal_value v
    /\ Z.of_nat (List.length (Valuation.projections v)) = 5%Z.
Proof.
  eexists. split; [vm_compute; reflexivity|].
  assert (H : DCFModel.calculate_dcf_valuation
                (Examples.model 5 (25 # 1000) Examples.growing Examples.quote)
              = Ok (Some _)) by (vm_compute; reflexivity).
  destruct (returned_valuation_invariants _ _ H) as (E1 & _ & _ & E2 & _).
  split; [exact E1 | exact E2].
Defined.

(** X20. In a returned valuation the value per share is 0 for a share count
    that is zero or negative and otherwise the equity value divided by the
    share count; the upside/downside is 0 for a price that is zero or
    negative and otherwise (value per share - price) / price. *)
Theorem per_share_guards (self : DCFModel.t) (fd : FinancialData.t)
    (md : MarketData.t) (v : Valuation.t) :
  DCFModel.financial_data self = Some fd ->
  DCFModel.market_data self = Some md ->
  DCFModel.calculate_dcf_valuation self = Ok (Some v) ->
  (MarketData.shares_outstanding md <= 0 -> Valuation.value_per_share v = 0)
  /\ (0 < MarketData.shares_outstanding md ->
      Valuation.value_per_share v
      = Valuation.equity_value v / MarketData.shares_outstanding md)
  /\ (MarketData.current_price md <= 0 -> Valuation.upside_downside v = 0)
  /\ (0 < MarketData.current_price md ->
      Valuation.upside_downside v
      = (Valuation.value_per_share v - MarketData.current_price md)
        / MarketData.current_price md).
Proof.
  intros Hfd Hmd Hv.
  pose proof (valuation_quote_cases self fd md 0 0 Hfd Hmd) as C.
  rewrite Hv in C. destruct C as (Es & Ep & _).
  repeat split; intro H.
  - rewrite Es. apply gt0_false in H. now rewrite H.
  - rewrite Es. apply gt0_true in H. now rewrite H.
  - rewrite Ep. apply gt0_false in H. now rewrite H.
  - rewrite Ep. apply gt0_true in H. now rewrite H.
Qed.

Lemma per_share_guards_witness :
  exists v,
    DCFModel.financial_data NegativeQuote.model = Some Examples.growing
    /\ DCFModel.market_data NegativeQuote.model = Some NegativeQuote.quote
    /\ DCFModel.calculate_dcf_valuation NegativeQuote.model = Ok (Some v)
    /\ MarketData.shares_outstanding NegativeQuote.quote <= 0
    /\ Valuation.value_per_share v = 0.
Proof.
  assert (H : DCFModel.calculate_dcf_valuation NegativeQuote.model
              = Ok (Some _)) by (vm_compute; reflexivity).
  assert (Hs : MarketData.shares_outstanding NegativeQuote.quote <= 0)
    by (vm_compute; discriminate).
  eexists. split; [reflexivity|]. split; [reflexivity|].
  split; [exact H|]. split; [exact Hs|].
  exact (proj1 (per_share_guards NegativeQuote.model Examples.growing
                  NegativeQuote.quote _ eq_refl eq_refl H) Hs).
Defined.

(** X21. The valuation reads six of the eleven metrics: the outcome of
    [calculate_dcf_valuation] is the same for any financial data that agrees
    on revenue, EBIT, tax expense, capex, total debt and cash, whatever its
    EBITDA, net income, operating cash flow, depreciation and working
    capital. *)
Theorem valuation_ignores_unused_metrics (self : DCFModel.t)
    (fd fd' : FinancialData.t) :
  DCFModel.financial_data self = Some fd ->
  FinancialData.revenue fd' = FinancialData.revenue fd ->
  FinancialData.ebit fd' = FinancialData.ebit fd ->
  FinancialData.tax_expense fd' = FinancialData.tax_expense fd ->
  FinancialData.capex fd' = FinancialData.capex fd ->
  FinancialData.total_debt fd' = FinancialData.total_debt fd ->
  FinancialData.cash fd' = FinancialData.cash fd ->
  DCFModel.calculate_dcf_valuation (with_financial_data self fd')
  = DCFModel.calculate_dcf_valuation self.
Proof.
  intros Hfd Hr He Ht Hc Hd Hk.
  destruct self as [tk n g fetcher calc fdata mdata].
  cbn [DCFModel.financial_data] in Hfd. subst fdata.
  destruct fd as [r e x1 x2 t x3 c x4 d k x5].
  destruct fd' as [r' e' y1 y2 t' y3 c' y4 d' k' y5].
  cbn [FinancialData.revenue FinancialData.ebit FinancialData.tax_expense
       FinancialData.capex FinancialData.total_debt FinancialData.cash] in *.
  subst r' e' t' c' d' k'. reflexivity.
Qed.

Lemma valuation_ignores_unused_metrics_witness :
  DCFModel.calculate_dcf_valuation
    (with_financial_data
       (Examples.model 5 (25 # 1000) Examples.growing Examples.quote)
       OtherUnused.statements)
  = DCFModel.calculate_dcf_valuation
      (Examples.model 5 (25 # 1000) Examples.growing Examples.quote).
Proof.
  exact (valuation_ignores_unused_metrics
           (Examples.model 5 (25 # 1000) Examples.growing Examples.quote)
           Examples.growing OtherUnused.statements
           eq_refl eq_refl eq_refl eq_refl eq_refl eq_refl eq_refl).
Defined.

(** ** Shape and monotonicity of the sensitivity grid *)

(** X22. For a base valuation whose WACC is not zero the sensitivity grid has
    10 rows (WACC 6% to 15%) of 8 cells each (terminal growth 1% to 4.5%),
    and the heatmap is centred on the base value per share. *)
Theorem sensitivity_grid_shape (ticker : string) (valuation : Valuation.t) :
  ~ Valuation.wacc valuation == 0 ->
  exists grid,
    Dashboard.update_sensitivity_chart (Dashboard.StoreSuccess ticker valuation)
    = Ok (Dashboard.Heatmap grid Dashboard.terminal_growth_range
            Dashboard.wacc_range (Valuation.value_per_share valuation))
    /\ List.length grid = 10%nat
    /\ (forall row, In row grid -> List.length row = 8%nat).
Proof.
  intro H. unfold Dashboard.update_sensitivity_chart.
  rewrite (sensitivity_grid_ok valuation H). cbn [bind].
  eexists. split; [reflexivity|]. split.
  - rewrite length_map. reflexivity.
  - intros row Hin. apply in_map_iff in Hin. destruct Hin as [w [<- _]].
    rewrite length_map. reflexivity.
Qed.

Lemma sensitivity_grid_shape_witness :
  ~ Valuation.wacc Examples.base_valuation == 0
  /\ exists grid,
       Dashboard.sensitivity_grid Examples.base_valuation = Ok grid
       /\ List.length grid = 10%nat.
Proof.
  assert (H : ~ Valuation.wacc Examples.base_valuation == 0)
    by (vm_compute; discriminate).
  split; [exact H|].
  destruct (sensitivity_grid_shape "ABC" _ H) as (grid & E & L & _).
  exists grid. split; [|exact L].
  unfold Dashboard.update_sensitivity_chart in E.
  destruct (Dashboard.sensitivity_grid Examples.base_valuation);
    [|discriminate].
  cbn [bind] in E. injection E as <-. reflexivity.
Defined.



(** ** The assumptions table *)

Lemma returned_breakdown (self : DCFModel.t) (v : Valuation.t) :
  DCFModel.calculate_dcf_valuation self = Ok (Some v) ->
  exists fd md a b,
    DCFModel.financial_data self = Some fd
    /\ DCFModel.market_data self = Some md
    /\ Valuation.assumptions v = Some a
    /\ Valuation.wacc_breakdown v = WaccDict b
    /\ WACCCalculator.calculate_wacc (DCFModel.wacc_calculator self) fd md
         (Averages.tax_rate a) = Ok (WaccDict b).
Proof.
  intro H.
  destruct (returned_valuation_parts self v H)
    as (_ & _ & _ & _ & (a & Ea & Ha) & _).
  unfold DCFModel.calculate_dcf_valuation in H.
  destruct (DCFModel.financial_data self) as [fd|]; [|discriminate].
  destruct (DCFModel.market_data self) as [md|]; [|discriminate].
  rewrite Ha in H. cbn [bind] in H.
  destruct (WACCCalculator.calculate_wacc _ fd md _) as [[k|b]|] eqn:Hw;
    try discriminate.
  cbn [bind subscript_wacc] in H.
  destruct (DCFModel.project_cash_flows self) as [[[|p ps]|]|];
    try discriminate.
  cbn [bind] in H. repeat step_in H. injection H as <-.
  exists fd, md, a, b. repeat split; try reflexivity. exact Hw.
Qed.

Lemma wacc_breakdown_fields (self : WACCCalculator.t) (fd : FinancialData.t)
    (md : MarketData.t) (tax_rate : Q) (b : WaccBreakdown.t) :
  WACCCalculator.calculate_wacc self fd md tax_rate = Ok (WaccDict b) ->
  WaccBreakdown.cost_of_equity b
  = WACCCalculator.risk_free_rate self
    + MarketData.beta md * WACCCalculator.market_risk_premium self
  /\ WaccBreakdown.beta b = MarketData.beta md
  /\ WaccBreakdown.cost_of_debt b = 5 # 100.
Proof.
  intro H. unfold WACCCalculator.calculate_wacc in H.
  repeat step_in H. destruct (Qeq_bool _ 0); [discriminate|].
  injection H as <-. repeat split.
Qed.

(** X24. For a stored valuation the assumptions table shows, as "Risk-Free
    Rate", the cost of equity minus beta times the constant 0.065, that is
    [risk_free_rate + beta * (market_risk_premium - 0.065)]: the rate the
    request used only when its market risk premium is 6.5% or beta is zero;
    and it shows "6.5%" as "Market Risk Premium" whatever premium was used. *)
Theorem displayed_risk_free_rate (self : DCFModel.t) (ticker : string)
    (v : Valuation.t) :
  DCFModel.calculate_dcf_valuation self = Ok (Some v) ->
  exists rows md shown,
    Tables.update_assumptions_table (Dashboard.StoreSuccess ticker v)
    = Ok (Tables.DataTable rows)
    /\ DCFModel.market_data self = Some md
    /\ nth_error rows 5 = Some ("Risk-Free Rate"%string, Tables.Percent1 shown)
    /\ shown
       == WACCCalculator.risk_free_rate (DCFModel.wacc_calculator self)
          + MarketData.beta md
            * (WACCCalculator.market_risk_premium (DCFModel.wacc_calculator self)
               - (65 # 1000))
    /\ nth_error rows 6
       = Some ("Market Risk Premium"%string, Tables.Text "6.5%").
Proof.
  intro H.
  destruct (returned_breakdown self v H) as (fd & md & a & b & _ & Hmd & Ea & Eb & Hw).
  destruct (wacc_breakdown_fields _ _ _ _ _ Hw) as (Hk & Hb & _).
  unfold Tables.update_assumptions_table. rewrite Ea, Eb.
  eexists. exists md. eexists. split; [reflexivity|].
  split; [exact Hmd|]. split; [reflexivity|]. split; [|reflexivity].
  rewrite Hk, Hb. ring.
Qed.

Lemma displayed_risk_free_rate_witness :
  exists v rows,
    DCFModel.calculate_dcf_valuation HighPremium.model = Ok (Some v)
    /\ Tables.update_assumptions_table (Dashboard.StoreSuccess "ABC" v)
       = Ok (Tables.DataTable rows)
    /\ exists shown,
         nth_error rows 5
         = Some ("Risk-Free Rate"%string, Tables.Percent1 shown)
         /\ shown == 6 # 100
         /\ WACCCalculator.risk_free_rate
              (DCFModel.wacc_calculator HighPremium.model) == 45 # 1000.
Proof.
  assert (H : DCFModel.calculate_dcf_valuation HighPremium.model
              = Ok (Some _)) by (vm_compute; reflexivity).
  destruct (displayed_risk_free_rate HighPremium.model "ABC" _ H)
    as (rows & md & shown & Et & Hmd & Er & Es & _).
  eexists. exists rows. split; [exact H|]. split; [exact Et|].
  exists shown. split; [exact Er|]. split; [|reflexivity].
  rewrite Es. injection Hmd as <-. reflexivity.
Defined.

(** ** Sign of the terminal value and the equity bridge *)

(** X25. On ready inputs with the WACC above the terminal growth rate, a
    positive [final_fcf * (1 + terminal growth)] and a positive [1 + wacc],
    the terminal value and its present value are positive. *)
Theorem terminal_value_positive (self : DCFModel.t) (fd : FinancialData.t)
    (md : MarketData.t) (a : Averages.t) (b : WaccBreakdown.t) :
  valuation_ready self fd md a b ->
  DCFModel.terminal_growth_rate self < WaccBreakdown.wacc b ->
  0 < 1 + WaccBreakdown.wacc b ->
  0 < final_fcf_of a fd (DCFModel.projection_years self)
      * (1 + DCFModel.terminal_growth_rate self) ->
  exists v,
    DCFModel.calculate_dcf_valuation self = Ok (Some v)
    /\ 0 < Valuation.terminal_value v
    /\ 0 < Valuation.pv_terminal_value v.
Proof.
  intros Hready Hspread Hw Hfcf.
  destruct (valuation_returns _ _ _ _ _ Hready)
    as (v & Ev & _ & _ & _ & _ & Et & Ep & _).
  exists v. split; [exact Ev|].
  assert (Htv : 0 < Valuation.terminal_value v).
  { rewrite Et. apply Qlt_shift_div_l; lra. }
  split; [exact Htv|]. rewrite Ep.
  apply Qlt_shift_div_l.
  - unfold pow. now apply Qpower_0_lt.
  - lra.
Qed.

Lemma terminal_value_positive_witness :
  valuation_ready
    (Examples.model 5 (25 # 1000) Examples.growing Examples.quote)
    Examples.growing Examples.quote (averages_of Examples.growing)
    (breakdown (Examples.model 5 (25 # 1000) Examples.growing Examples.quote))
  /\ exists v,
       DCFModel.calculate_dcf_valuation
         (Examples.model 5 (25 # 1000) Examples.growing Examples.quote)
       = Ok (Some v)
       /\ 0 < Valuation.terminal_value v.
Proof.
  assert (H1 : valuation_ready
                 (Examples.model 5 (25 # 1000) Examples.growing Examples.quote)
                 Examples.growing Examples.quote (averages_of Examples.growing)
                 (breakdown
                    (Examples.model 5 (25 # 1000) Examples.growing
                       Examples.quote))) by ready.
  split; [exact H1|].
  destruct (terminal_value_positive _ _ _ _ _ H1) as (v & Ev & Ht & _);
    try evaluate.
  exists v. split; assumption.
Defined.

(** X26. On ready inputs the equity value is the enterprise value minus the
    latest total debt plus the latest cash, the debt being taken as reported,
    with its sign (the capital weights of the WACC use its absolute value). *)
Theorem equity_bridge (self : DCFModel.t) (fd : FinancialData.t)
    (md : MarketData.t) (a : Averages.t) (b : WaccBreakdown.t)
    (latest : Period) (debt cash : Q) (rest : Dict) :
  valuation_ready self fd md a b ->
  FinancialData.total_debt fd = (latest, debt) :: rest ->
  getitem (FinancialData.cash fd) latest = Ok cash ->
  exists v,
    DCFModel.calculate_dcf_valuation self = Ok (Some v)
    /\ Valuation.equity_value v == Valuation.enterprise_value v - debt + cash
    /\ WaccBreakdown.weight_debt b
       == Qabs debt / (Qabs debt + MarketData.market_cap md).
Proof.
  intros Hready Hd Hc.
  destruct (valuation_returns _ _ _ _ _ Hready)
    as (v & Ev & _ & _ & _ & _ & _ & _ & _ & _ & Eq & _).
  exists v. split; [exact Ev|]. split.
  - rewrite Eq. unfold net_debt_of. rewrite Hd.
    cbn [keys map fst hd lookup]. rewrite Z.eqb_refl.
    destruct Hready as (_ & _ & Hk & _).
    destruct Hk as (_ & _ & _ & Hkd & Hkc).
    assert (Hin : In latest (keys (FinancialData.cash fd))).
    { rewrite Hkc, <- Hkd, Hd. now left. }
    rewrite (getitem_lookup _ _ Hin) in Hc. injection Hc as ->. ring.
  - destruct Hready as (_ & _ & _ & _ & _ & Hw & _).
    destruct (latest_debt _ _ _ _ Hd) as [Hi Hg].
    unfold WACCCalculator.calculate_wacc in Hw. rewrite Hi in Hw.
    cbn [bind] in Hw. rewrite Hg in Hw. cbn [bind] in Hw.
    destruct (Qeq_bool _ 0); [discriminate|]. injection Hw as <-.
    reflexivity.
Qed.

Lemma equity_bridge_witness :
  exists v,
    valuation_ready
      (Examples.model 5 (25 # 1000) NegativeDebt.statements Examples.quote)
      NegativeDebt.statements Examples.quote
      (averages_of NegativeDebt.statements)
      (breakdown
         (Examples.model 5 (25 # 1000) NegativeDebt.statements Examples.quote))
    /\ DCFModel.calculate_dcf_valuation
         (Examples.model 5 (25 # 1000) NegativeDebt.statements Examples.quote)
       = Ok (Some v)
    /\ Valuation.equity_value v == Valuation.enterprise_value v - (- 50) + 10.
Proof.
  assert (H1 : valuation_ready
                 (Examples.model 5 (25 # 1000) NegativeDebt.statements
                    Examples.quote)
                 NegativeDebt.statements Examples.quote
                 (averages_of NegativeDebt.statements)
                 (breakdown
                    (Examples.model 5 (25 # 1000) NegativeDebt.statements
                       Examples.quote))) by ready.
  destruct (equity_bridge _ _ _ _ _ 2023%Z (- 50) 10
              [(2022%Z, 7); (2021%Z, 9)] H1 eq_refl eq_refl)
    as (v & Ev & Eq & _).
  exists v. split; [exact H1|]. split; [exact Ev | exact Eq].
Defined.
